(** * Face-analysis front end: the forwarding proxies and the form controllers

    A shallow embedding of
      - the verification proxy   ([POST] of the route that forwards [img1]
        and [img2] to [FACE_API_URL]),
      - the age proxy            ([POST] of [src/app/api/age/route.ts]),
      - the two page components  (both called [FaceVerification] in
        [src/app/ui/page.tsx]: the verification-only page and the tabbed,
        multi-kind page),
    followed by the properties of the specification proved about them.

    Conventions of the embedding.
      - A JavaScript string is a [string]: a sequence of 8-bit code units.
      - A JavaScript number is a binary64 value ([spec_float] with
        [prec = 53], [emax = 1024]); HTTP statuses, sizes and delays, which
        the code only compares and prints, are kept in [N].
      - [null] and [undefined] are [None].
      - Asynchronous code runs in the monad [Async]: it threads the [World]
        (timers, abort controllers, the network, local storage, the
        component state) and completes by returning, by throwing, or never.
        Time is counted in milliseconds; it passes only while a handler
        awaits the network.
      - What the platform supplies ([JSON.parse], the [FileReader] of the
        browser, the stack of an error, [process.env]) is gathered in the
        record [Platform]; the handlers are written against it, the
        properties hold for every platform, and [reference_platform] is the
        instance used to run the handlers on examples.
      - The route handlers run on the server, where the name [FileReader]
        is not defined; the page components run in the browser, where it
        is.
      - [console.log] and [console.error] calls are left out: they have no
        effect on any state or result modelled here. *)

From Stdlib Require Import ZArith NArith List String Ascii Bool Lia.
From Stdlib Require Import Floats.SpecFloat DecimalString.
From stdpp Require Import gmap strings.
Import ListNotations.

Set Implicit Arguments.
Open Scope string_scope.

(* ===================================================================== *)
(** * Part I. Definitions                                                 *)
(* ===================================================================== *)

(** ** JavaScript strings *)

Definition dquote : ascii := ascii_of_nat 34.
Definition backslash : ascii := ascii_of_nat 92.
Definition comma : ascii := ","%char.

(** [!!s] for a string: only the empty string is falsy. *)
Definition truthy_string (s : string) : bool :=
  match s with
  | EmptyString => false
  | String _ _ => true
  end.

(** [!!v] for [string | null]. *)
Definition truthy_opt_string (v : option string) : bool :=
  match v with
  | None => false
  | Some s => truthy_string s
  end.

(** [s.substring(from, to)] for [from <= to]; both ends are clamped to the
    length of [s], as [substring] of the standard library does. *)
Definition js_substring (from to : nat) (s : string) : string :=
  substring from (to - from) s.

(** The code units that [String.prototype.trim] removes, among the 8-bit
    ones: TAB, LF, VT, FF, CR, SPACE and NO-BREAK SPACE. *)
Definition is_js_whitespace (c : ascii) : bool :=
  let n := nat_of_ascii c in
  ((9 <=? n)%nat && (n <=? 13)%nat) || (n =? 32)%nat || (n =? 160)%nat.

Fixpoint trimStart (s : string) : string :=
  match s with
  | EmptyString => EmptyString
  | String c r => if is_js_whitespace c then trimStart r else s
  end.

(** [trimEnd] keeps a character exactly when something other than white
    space follows it or it is not white space itself. *)
Fixpoint trimEnd (s : string) : string :=
  match s with
  | EmptyString => EmptyString
  | String c r =>
      match trimEnd r with
      | EmptyString => if is_js_whitespace c then EmptyString else String c EmptyString
      | r' => String c r'
      end
  end.

Definition trim (s : string) : string := trimEnd (trimStart s).

(** "Empty or whitespace-only". *)
Fixpoint all_whitespace (s : string) : bool :=
  match s with
  | EmptyString => true
  | String c r => is_js_whitespace c && all_whitespace r
  end.

(** [s.split(sep)] for a one-character separator: the pieces between the
    occurrences of [sep], in order; never an empty array. *)
Fixpoint split (sep : ascii) (s : string) : list string :=
  match s with
  | EmptyString => [EmptyString]
  | String c r =>
      if Ascii.eqb c sep then EmptyString :: split sep r
      else match split sep r with
           | [] => [String c EmptyString]
           | piece :: pieces => String c piece :: pieces
           end
  end.

(** [occurs c s]: the code unit [c] occurs in [s]. *)
Fixpoint occurs (c : ascii) (s : string) : bool :=
  match s with
  | EmptyString => false
  | String d r => Ascii.eqb d c || occurs c r
  end.

(** ASCII lower-casing, as applied to header names. *)
Definition lower_ascii (c : ascii) : ascii :=
  let n := nat_of_ascii c in
  if (65 <=? n)%nat && (n <=? 90)%nat then ascii_of_nat (n + 32) else c.

Fixpoint toLowerCase (s : string) : string :=
  match s with
  | EmptyString => EmptyString
  | String c r => String (lower_ascii c) (toLowerCase r)
  end.

(** Decimal rendering of a non-negative integer, as in a template literal. *)
Definition string_of_N (n : N) : string :=
  NilZero.string_of_uint (N.to_uint n).

(** ** JavaScript numbers *)

Definition number : Type := spec_float.

Definition prec64 : Z := 53.
Definition emax64 : Z := 1024.

Definition number_of_Z (z : Z) : number := binary_normalize prec64 emax64 z 0 false.

Definition number_mul (x y : number) : number := SFmul prec64 emax64 x y.

(** The binary64 value nearest to [m * 10^e10] (ties to even), with the sign
    [neg]: the value a decimal literal denotes. *)
Definition number_of_decimal (neg : bool) (m : Z) (e10 : Z) : number :=
  match m with
  | Zpos _ =>
      if (0 <=? e10)%Z
      then
        let n := (m * 10 ^ e10)%Z in
        binary_normalize prec64 emax64 (if neg then (- n)%Z else n) 0 false
      else
        let '(q, e, l) := SFdiv_core_binary prec64 emax64 m 0 (10 ^ (- e10))%Z 0 in
        binary_round_aux prec64 emax64 neg q e l
  | _ => S754_zero neg
  end.

(** [!!x] for a number: zero and NaN are falsy. *)
Definition truthy_number (x : number) : bool :=
  match x with
  | S754_zero _ | S754_nan => false
  | _ => true
  end.

Fixpoint zeros (n : nat) : string :=
  match n with
  | O => EmptyString
  | S n' => String "0" (zeros n')
  end.

(** Left-pads the digits [s] with zeros to at least [w] characters. *)
Definition pad_zeros (w : nat) (s : string) : string :=
  zeros (w - String.length s) ++ s.

(** [x.toFixed(f)] for a finite [x] below 10^21: the integer [n] nearest to
    [|x| * 10^f], the larger one on a tie, printed with [f] decimals and the
    sign of a negative [x].  Outside that range [toFixed] falls back on the
    general number printer, which is not modelled: [None]. *)
Definition toFixed (f : nat) (x : number) : option string :=
  let scale := (10 ^ Z.of_nat f)%Z in
  let print (neg : bool) (n : Z) : option string :=
    if (10 ^ 21 * scale <=? n)%Z then None else
    let digits := pad_zeros (S f) (string_of_N (Z.to_N n)) in
    let k := String.length digits in
    let body :=
      match f with
      | O => digits
      | _ => substring 0 (k - f) digits ++ "." ++ substring (k - f) f digits
      end in
    Some (if neg then "-" ++ body else body) in
  match x with
  | S754_zero _ => print false 0%Z
  | S754_finite neg m e =>
      let n :=
        match e with
        | Zneg p => ((2 * Zpos m * scale + 2 ^ Zpos p) / (2 * 2 ^ Zpos p))%Z
        | _ => (Zpos m * 2 ^ e * scale)%Z
        end in
      print neg n
  | _ => None
  end.

(** ** JSON values *)

(** A decoded JSON value.  An object is the list of its members in
    insertion order, with distinct names. *)
#[warnings="-register-all"]
Inductive json : Type :=
  | JNull
  | JBool (b : bool)
  | JNumber (x : number)
  | JString (s : string)
  | JArray (items : list json)
  | JObject (members : list (string * json)).

(** [o[k] = v] on the member list: an existing member keeps its place and
    takes the new value, a new one goes last. *)
Fixpoint set_member (k : string) (v : json) (members : list (string * json))
  : list (string * json) :=
  match members with
  | [] => [(k, v)]
  | (k', v') :: rest =>
      if String.eqb k' k then (k, v) :: rest else (k', v') :: set_member k v rest
  end.

Fixpoint get_member (k : string) (members : list (string * json)) : option json :=
  match members with
  | [] => None
  | (k', v) :: rest => if String.eqb k' k then Some v else get_member k rest
  end.

(** [v?.k] for a decoded value [v] and a name [k] that none of the built-in
    prototypes defines (such as [message], [error] or [details]): only an
    object can have it. *)
Definition js_get (v : json) (k : string) : option json :=
  match v with
  | JObject members => get_member k members
  | _ => None
  end.

(** [!!v]. *)
Definition truthy (v : json) : bool :=
  match v with
  | JNull => false
  | JBool b => b
  | JNumber x => truthy_number x
  | JString s => truthy_string s
  | JArray _ | JObject _ => true
  end.

(** [!!v] for a value that may be [undefined]. *)
Definition truthy_opt (v : option json) : bool :=
  match v with
  | None => false
  | Some j => truthy j
  end.

(** An object literal [{ k1: v1, ... }] whose values may be [undefined].
    Serialising the object leaves the [undefined] members out, so they are
    dropped here. *)
Fixpoint object_literal (fields : list (string * option json)) : list (string * json) :=
  match fields with
  | [] => []
  | (k, Some v) :: rest => (k, v) :: object_literal rest
  | (_, None) :: rest => object_literal rest
  end.

Definition json_of_opt_string (v : option string) : option json :=
  match v with
  | None => None
  | Some s => Some (JString s)
  end.

(** The value that the text [JSON.stringify(v)] denotes, which is what the
    receiver of a JSON body decodes: a number that is not finite is written
    [null] and minus zero is written [0]; every other value is written so
    that it reads back as itself. *)
Fixpoint serialised (v : json) : json :=
  match v with
  | JNumber (S754_zero _) => JNumber (S754_zero false)
  | JNumber (S754_finite _ _ _) => v
  | JNumber _ => JNull
  | JArray items => JArray (List.map serialised items)
  | JObject members =>
      JObject (List.map (fun member => let '(k, x) := member in (k, serialised x))
                 members)
  | _ => v
  end.

(** ** [JSON.parse]

    A recursive-descent reader of the JSON grammar (ECMA-404): white space is
    SPACE, TAB, LF and CR; a number is read as the binary64 value nearest to
    its decimal literal; a repeated member name keeps its first place and its
    last value.  An escape [\uXXXX] above [00FF] denotes a code unit that an
    8-bit string cannot hold and is refused: such texts are outside the
    fragment modelled here. *)

Definition is_json_ws (c : ascii) : bool :=
  let n := nat_of_ascii c in
  (n =? 32)%nat || (n =? 9)%nat || (n =? 10)%nat || (n =? 13)%nat.

Fixpoint skip_ws (s : string) : string :=
  match s with
  | EmptyString => EmptyString
  | String c r => if is_json_ws c then skip_ws r else s
  end.

Definition digit_of (c : ascii) : option Z :=
  let n := nat_of_ascii c in
  if (48 <=? n)%nat && (n <=? 57)%nat then Some (Z.of_nat (n - 48)) else None.

Definition hex_of (c : ascii) : option N :=
  let n := nat_of_ascii c in
  if (48 <=? n)%nat && (n <=? 57)%nat then Some (N.of_nat (n - 48))
  else if (65 <=? n)%nat && (n <=? 70)%nat then Some (N.of_nat (n - 55))
  else if (97 <=? n)%nat && (n <=? 102)%nat then Some (N.of_nat (n - 87))
  else None.

(** [strip_prefix p s]: what follows [p] in [s], when [s] starts with [p]. *)
Fixpoint strip_prefix (p s : string) : option string :=
  match p, s with
  | EmptyString, _ => Some s
  | String a p', String b s' => if Ascii.eqb a b then strip_prefix p' s' else None
  | String _ _, EmptyString => None
  end.

(** Reads the longest run of decimal digits at the head of [s]: the value
    accumulated on top of [acc], the number of digits read, and the rest. *)
Fixpoint read_digits (s : string) (acc : Z) (count : nat) : Z * nat * string :=
  match s with
  | EmptyString => (acc, count, s)
  | String c r =>
      match digit_of c with
      | Some d => read_digits r (10 * acc + d)%Z (S count)
      | None => (acc, count, s)
      end
  end.

(** A number literal: an optional minus sign; then a single zero, or a
    non-zero digit and any digits; then optionally a point and one or more
    digits; then optionally [e] or [E], a sign, and one or more digits. *)
Definition parse_number (s : string) : option (json * string) :=
  let '(neg, s1) :=
    match s with
    | String "-" r => (true, r)
    | _ => (false, s)
    end in
  let int_part :=
    match s1 with
    | String "0" r => Some (0%Z, r)
    | _ => match read_digits s1 0%Z O with
           | (_, O, _) => None
           | (i, _, r) => Some (i, r)
           end
    end in
  match int_part with
  | None => None
  | Some (i, s2) =>
      let frac_part :=
        match s2 with
        | String "." r =>
            match read_digits r i O with
            | (_, O, _) => None
            | (m, k, r') => Some (m, k, r')
            end
        | _ => Some (i, O, s2)
        end in
      match frac_part with
      | None => None
      | Some (m, k, s3) =>
          let exp_part :=
            match s3 with
            | String c r =>
                if Ascii.eqb c "e" || Ascii.eqb c "E" then
                  let '(eneg, r1) :=
                    match r with
                    | String "-" r' => (true, r')
                    | String "+" r' => (false, r')
                    | _ => (false, r)
                    end in
                  match read_digits r1 0%Z O with
                  | (_, O, _) => None
                  | (e, _, r2) => Some (if eneg then (- e)%Z else e, r2)
                  end
                else Some (0%Z, s3)
            | EmptyString => Some (0%Z, s3)
            end in
          match exp_part with
          | None => None
          | Some (e, s4) => Some (JNumber (number_of_decimal neg m (e - Z.of_nat k)), s4)
          end
      end
  end.

(** The character an escape of one letter stands for. *)
Definition simple_escape (c : ascii) : option ascii :=
  if Ascii.eqb c dquote then Some dquote
  else if Ascii.eqb c backslash then Some backslash
  else if Ascii.eqb c "/" then Some "/"%char
  else if Ascii.eqb c "b" then Some (ascii_of_nat 8)
  else if Ascii.eqb c "f" then Some (ascii_of_nat 12)
  else if Ascii.eqb c "n" then Some (ascii_of_nat 10)
  else if Ascii.eqb c "r" then Some (ascii_of_nat 13)
  else if Ascii.eqb c "t" then Some (ascii_of_nat 9)
  else None.

Definition unicode_escape (h1 h2 h3 h4 : ascii) : option ascii :=
  match hex_of h1, hex_of h2, hex_of h3, hex_of h4 with
  | Some a, Some b, Some c, Some d =>
      let n := (((a * 16 + b) * 16 + c) * 16 + d)%N in
      if (n <? 256)%N then Some (ascii_of_N n) else None
  | _, _, _, _ => None
  end.

(** The characters of a string literal after its opening quote, up to and
    including the closing one. *)
Fixpoint parse_chars (s : string) : option (string * string) :=
  match s with
  | EmptyString => None
  | String c r =>
      if Ascii.eqb c dquote then Some (EmptyString, r)
      else if Ascii.eqb c backslash then
        match r with
        | String e r1 =>
            match simple_escape e with
            | Some ch =>
                match parse_chars r1 with
                | Some (str, rest) => Some (String ch str, rest)
                | None => None
                end
            | None =>
                if Ascii.eqb e "u" then
                  match r1 with
                  | String h1 (String h2 (String h3 (String h4 r2))) =>
                      match unicode_escape h1 h2 h3 h4, parse_chars r2 with
                      | Some ch, Some (str, rest) => Some (String ch str, rest)
                      | _, _ => None
                      end
                  | _ => None
                  end
                else None
            end
        | EmptyString => None
        end
      else if (nat_of_ascii c <? 32)%nat then None
      else
        match parse_chars r with
        | Some (str, rest) => Some (String c str, rest)
        | None => None
        end
  end.

Fixpoint parse_value (fuel : nat) (s : string) {struct fuel} : option (json * string) :=
  match fuel with
  | O => None
  | S fuel' =>
      match skip_ws s with
      | EmptyString => None
      | String c r =>
          if Ascii.eqb c "{" then
            match skip_ws r with
            | String "}" r' => Some (JObject [], r')
            | r' => parse_members fuel' r' []
            end
          else if Ascii.eqb c "[" then
            match skip_ws r with
            | String "]" r' => Some (JArray [], r')
            | r' => parse_elements fuel' r' []
            end
          else if Ascii.eqb c dquote then
            match parse_chars r with
            | Some (str, r') => Some (JString str, r')
            | None => None
            end
          else if Ascii.eqb c "t" then
            option_map (pair (JBool true)) (strip_prefix "rue" r)
          else if Ascii.eqb c "f" then
            option_map (pair (JBool false)) (strip_prefix "alse" r)
          else if Ascii.eqb c "n" then
            option_map (pair JNull) (strip_prefix "ull" r)
          else parse_number (String c r)
      end
  end

with parse_elements (fuel : nat) (s : string) (acc : list json) {struct fuel}
  : option (json * string) :=
  match fuel with
  | O => None
  | S fuel' =>
      match parse_value fuel' s with
      | None => None
      | Some (v, r) =>
          match skip_ws r with
          | String "," r' => parse_elements fuel' r' (acc ++ [v])
          | String "]" r' => Some (JArray (acc ++ [v]), r')
          | _ => None
          end
      end
  end

with parse_members (fuel : nat) (s : string) (acc : list (string * json)) {struct fuel}
  : option (json * string) :=
  match fuel with
  | O => None
  | S fuel' =>
      match skip_ws s with
      | String c r =>
          if Ascii.eqb c dquote then
            match parse_chars r with
            | Some (k, r1) =>
                match skip_ws r1 with
                | String ":" r2 =>
                    match parse_value fuel' r2 with
                    | Some (v, r3) =>
                        match skip_ws r3 with
                        | String "," r4 => parse_members fuel' r4 (set_member k v acc)
                        | String "}" r4 => Some (JObject (set_member k v acc), r4)
                        | _ => None
                        end
                    | None => None
                    end
                | _ => None
                end
            | None => None
            end
          else None
      | EmptyString => None
      end
  end.

(** [JSON.parse(text)]: [None] stands for the [SyntaxError] it throws. *)
Definition JSON_parse (text : string) : option json :=
  match parse_value (2 * String.length text + 2) text with
  | Some (v, rest) =>
      match skip_ws rest with
      | EmptyString => Some v
      | String _ _ => None
      end
  | None => None
  end.

(** Writes a JSON text with apostrophes where the double quotes go. *)
Fixpoint quoted (s : string) : string :=
  match s with
  | EmptyString => EmptyString
  | String c r => String (if Ascii.eqb c "'" then dquote else c) (quoted r)
  end.

(** ** Files, base64 and data URLs *)

(** A [File]: its name, its media type, its size in bytes as [file.size]
    reports it, and its content. *)
Record File : Type := mkFile {
  file_name : string;
  file_type : string;
  file_size : N;
  file_bytes : list Byte.byte
}.

Definition base64_alphabet : list ascii :=
  list_ascii_of_string
    "ABCDEFGHIJKLMNOPQRSTUVWXYZabcdefghijklmnopqrstuvwxyz0123456789+/".

Definition base64_char (n : N) : ascii :=
  nth (N.to_nat n) base64_alphabet "="%char.

(** Base64 (RFC 4648) with padding: three bytes become four characters. *)
Fixpoint base64 (bytes : list Byte.byte) : string :=
  match bytes with
  | [] => EmptyString
  | [a] =>
      let x := Byte.to_N a in
      String (base64_char (x / 4))
        (String (base64_char (x mod 4 * 16)) "==")
  | [a; b] =>
      let x := Byte.to_N a in
      let y := Byte.to_N b in
      String (base64_char (x / 4))
        (String (base64_char (x mod 4 * 16 + y / 16))
           (String (base64_char (y mod 16 * 4)) "="))
  | a :: b :: c :: rest =>
      let x := Byte.to_N a in
      let y := Byte.to_N b in
      let z := Byte.to_N c in
      String (base64_char (x / 4))
        (String (base64_char (x mod 4 * 16 + y / 16))
           (String (base64_char (y mod 16 * 4 + z / 64))
              (String (base64_char (z mod 64)) (base64 rest))))
  end.

(** The data URL [data:<mediatype>;base64,<payload>] (RFC 2397). *)
Definition data_url (mediatype payload : string) : string :=
  "data:" ++ mediatype ++ ";base64," ++ payload.

(** [FileReader.readAsDataURL]: the file's media type and the base64 of its
    content.  [None] would be an error event; this reader has none. *)
Definition FileReader_readAsDataURL (f : File) : option string :=
  Some (data_url (file_type f) (base64 (file_bytes f))).

(** ** Thrown values *)

(** What a [catch] clause can receive: an instance of [Error] with its
    [name], [message] and [stack], or an object of another kind (the platform
    throws no primitive value), of which the handlers use [String(value)] and
    [JSON.stringify(value)]. *)
Inductive Thrown : Type :=
  | ErrorObject (name message : string) (stack : option string)
  | OtherObject (text stringified : string).

(** The rejection of a [fetch] whose signal is aborted; [stack] is the text
    the platform attaches to it. *)
Definition AbortError (stack : option string) : Thrown :=
  ErrorObject "AbortError" "This operation was aborted" stack.

(** ** The platform *)

Record Platform : Type := mkPlatform {
  (** [JSON.parse]; [None] when it throws. *)
  platform_JSON_parse : string -> option json;
  (** In the browser: what a [FileReader] holds in [result] once
      [readAsDataURL] has loaded the file; [None] when it raises its error
      event instead. *)
  platform_readAsDataURL : File -> option string;
  (** The [SyntaxError] that [JSON.parse] throws for a text it refuses. *)
  platform_SyntaxError : string -> Thrown;
  (** The stack the platform records in an error of this name and message
      that the code, or a built-in function it calls, creates. *)
  platform_stack : string -> string -> option string;
  (** [process.env]. *)
  platform_env : gmap string string;
  (** What the constructor of [Response] throws when it is given a body
      together with a status that it refuses: a status outside 200 to 599,
      or a null-body status. *)
  platform_Response_refuses : N -> Thrown
}.

(** An [Error] of the given name and message, created where the code runs. *)
Definition platform_Error (P : Platform) (name message : string) : Thrown :=
  ErrorObject name message (platform_stack P name message).

(** [new Error(message)] *)
Definition new_Error (P : Platform) (message : string) : Thrown :=
  platform_Error P "Error" message.

(** The platform the examples are run on: [JSON.parse] and the reader as
    defined above, and [env] for the environment.  The messages and stacks
    of the errors it makes are short stand-ins for those of an engine; the
    properties are stated for every platform and depend on none of them. *)
Definition reference_platform (env : gmap string string) : Platform :=
  {| platform_JSON_parse := JSON_parse;
     platform_readAsDataURL := FileReader_readAsDataURL;
     platform_SyntaxError := fun _ => ErrorObject "SyntaxError" "Unexpected token" None;
     platform_stack := fun name message => Some (name ++ ": " ++ message);
     platform_env := env;
     platform_Response_refuses :=
       fun st => ErrorObject "RangeError" ("status " ++ string_of_N st) None |}.

(** [process.env.NAME || fallback] *)
Definition env_or (P : Platform) (name fallback : string) : string :=
  match platform_env P !! name with
  | Some v => if truthy_string v then v else fallback
  | None => fallback
  end.

(** ** Requests and responses *)

Inductive FormDataEntryValue : Type :=
  | EntryFile (f : File)
  | EntryString (s : string).

Definition FormData : Type := list (string * FormDataEntryValue).

(** [formData.get(name)]: the first entry of that name, or [null]. *)
Fixpoint FormData_get (fd : FormData) (name : string) : option FormDataEntryValue :=
  match fd with
  | [] => None
  | (k, v) :: rest => if String.eqb k name then Some v else FormData_get rest name
  end.

(** [!!entry] for [formData.get(name)]: [null] and the empty string are
    falsy, a [File] is an object and so truthy. *)
Definition truthy_entry (e : option FormDataEntryValue) : bool :=
  match e with
  | None => false
  | Some (EntryString s) => truthy_string s
  | Some (EntryFile _) => true
  end.

(** The body handed to [fetch]. *)
Inductive BodyInit : Type :=
  | JsonText (value : json)              (* JSON.stringify(value) *)
  | FormBody (entries : list (string * File)).

(** One call of [fetch(url, init)]. *)
Record Outbound : Type := mkOutbound {
  out_url : string;
  out_method : string;
  out_headers : list (string * string);
  out_body : BodyInit;
  out_signal : option N           (* the abort controller of [init.signal] *)
}.

(** How the far end behaves for one call: when the response head (or a
    network failure) arrives, counted in milliseconds from the call, and what
    reading the body gives. *)
Inductive HeadOutcome : Type :=
  | Head (after : N) (status : N)
  | NetworkError (after : N) (e : Thrown)
  | NoHead.

Inductive BodyOutcome : Type :=
  | BodyText (text : string)
  | BodyError (e : Thrown)
  | NoBody.

Record Upstream : Type := mkUpstream {
  up_head : HeadOutcome;
  up_body : BodyOutcome;
  (** A timer and the network falling due at the same instant: which one the
      event loop serves first. *)
  up_timer_first : bool;
  (** The stack text of the [AbortError] raised for this call, if any. *)
  up_abort_stack : option string
}.

(** The [Response] a [fetch] resolves with. *)
Record Response : Type := mkResponse {
  resp_status : N;
  resp_body : BodyOutcome;
  resp_signal : option N
}.

(** A success status: 200 to 299. *)
Definition is_2xx (st : N) : bool := (200 <=? st)%N && (st <=? 299)%N.

(** [response.ok] *)
Definition ok (r : Response) : bool := is_2xx (resp_status r).

(** The request a route handler receives: its headers (names in lower case,
    one entry per name) and what [request.formData()] settles with. *)
Record NextRequest : Type := mkRequest {
  req_headers : list (string * string);
  req_formData : Thrown + FormData
}.

(** [headers.get(name)]: header names compare without regard to case. *)
Fixpoint Headers_get (hs : list (string * string)) (name : string) : option string :=
  match hs with
  | [] => None
  | (k, v) :: rest =>
      if String.eqb (toLowerCase k) (toLowerCase name) then Some v
      else Headers_get rest name
  end.

(** The answer of a route handler: its status, and the value that its
    body, a JSON text, denotes. *)
Record NextResponse : Type := mkNextResponse {
  status : N;
  body : json
}.

(** The statuses with which a response carries no body. *)
Definition null_body_status (st : N) : bool :=
  (st =? 101)%N || (st =? 103)%N || (st =? 204)%N || (st =? 205)%N || (st =? 304)%N.

(** ** The world and asynchronous computations *)

Inductive TimerAction : Type :=
  | AbortSignal (controller : N)   (* () => controller.abort() *)
  | FocusApiKeyInput.          (* () => apiKeyInputRef.current?.focus() *)

(** A pending timer: its identifier, the milliseconds left before it is due,
    and what it does then. *)
Record Timer : Type := mkTimer {
  timer_id : N;
  timer_delay : N;
  timer_action : TimerAction
}.

(** How a computation ends: with a value, with an exception, or never. *)
Inductive Completion (A : Type) : Type :=
  | Returned (a : A)
  | Threw (e : Thrown)
  | Pending.

Arguments Returned {A} a.
Arguments Threw {A} e.
Arguments Pending {A}.

Section World.

(** The state of the component that runs, [unit] for a route handler. *)
Variable UI : Type.

Record World : Type := mkWorld {
  ui : UI;
  localStorage : gmap string string;
  network : Upstream;         (* how the far end answers the next call *)
  timers : list Timer;        (* the pending timers *)
  next_id : N;                (* the next timer or controller identifier *)
  aborted : list N;           (* the controllers whose signal is aborted *)
  calls : list Outbound;      (* the calls of [fetch] so far, oldest first *)
  focus_count : N             (* how often the key input was given focus *)
}.

Definition set_ui (x : UI) (w : World) : World :=
  mkWorld x (localStorage w) (network w) (timers w) (next_id w) (aborted w)
    (calls w) (focus_count w).
Definition set_localStorage (x : gmap string string) (w : World) : World :=
  mkWorld (ui w) x (network w) (timers w) (next_id w) (aborted w)
    (calls w) (focus_count w).
Definition set_timers (x : list Timer) (w : World) : World :=
  mkWorld (ui w) (localStorage w) (network w) x (next_id w) (aborted w)
    (calls w) (focus_count w).
Definition set_next_id (x : N) (w : World) : World :=
  mkWorld (ui w) (localStorage w) (network w) (timers w) x (aborted w)
    (calls w) (focus_count w).
Definition set_aborted (x : list N) (w : World) : World :=
  mkWorld (ui w) (localStorage w) (network w) (timers w) (next_id w) x
    (calls w) (focus_count w).
Definition set_calls (x : list Outbound) (w : World) : World :=
  mkWorld (ui w) (localStorage w) (network w) (timers w) (next_id w) (aborted w)
    x (focus_count w).
Definition set_focus_count (x : N) (w : World) : World :=
  mkWorld (ui w) (localStorage w) (network w) (timers w) (next_id w) (aborted w)
    (calls w) x.

Definition Async (A : Type) : Type := World -> Completion A * World.

Definition ret {A} (a : A) : Async A := fun w => (Returned a, w).

Definition throw {A} (e : Thrown) : Async A := fun w => (Threw e, w).

Definition bind {A B} (c : Async A) (k : A -> Async B) : Async B :=
  fun w =>
    match c w with
    | (Returned a, w') => k a w'
    | (Threw e, w') => (Threw e, w')
    | (Pending, w') => (Pending, w')
    end.

(** [try { c } catch (e) { handler e }] *)
Definition try_catch {A} (c : Async A) (handler : Thrown -> Async A) : Async A :=
  fun w =>
    match c w with
    | (Threw e, w') => handler e w'
    | done => done
    end.

(** [try { c } finally { f }], for a [c] that is itself a [try]/[catch]. *)
Definition try_finally {A} (c : Async A) (f : Async unit) : Async A :=
  fun w =>
    match c w with
    | (Pending, w') => (Pending, w')
    | (result, w') =>
        match f w' with
        | (Returned _, w'') => (result, w'')
        | (Threw e, w'') => (Threw e, w'')
        | (Pending, w'') => (Pending, w'')
        end
    end.

(** State changes that always succeed. *)
Definition modify (f : World -> World) : Async unit := fun w => (Returned tt, f w).

(** *** Timers and abort controllers *)

(** [new AbortController()] *)
Definition new_AbortController : Async N :=
  fun w => (Returned (next_id w), set_next_id (N.succ (next_id w)) w).

(** [setTimeout(action, delay)] *)
Definition setTimeout (action : TimerAction) (delay : N) : Async N :=
  fun w =>
    (Returned (next_id w),
     set_next_id (N.succ (next_id w))
       (set_timers (timers w ++ [mkTimer (next_id w) delay action]) w)).

(** [clearTimeout(id)] *)
Definition clearTimeout (id : N) : Async unit :=
  modify (fun w =>
    set_timers (List.filter (fun t => negb (N.eqb (timer_id t) id)) (timers w)) w).

(** A timer is due once [d] milliseconds have gone by if it had less than
    [d] left, or exactly [d] when timers are served first. *)
Definition due (timer_first : bool) (d : N) (t : Timer) : bool :=
  (timer_delay t <? d)%N || (timer_first && (timer_delay t =? d)%N).

Definition fire (w : World) (t : Timer) : World :=
  match timer_action t with
  | AbortSignal c => set_aborted (c :: aborted w) w
  | FocusApiKeyInput => set_focus_count (N.succ (focus_count w)) w
  end.

(** [d] milliseconds go by: the timers that fall due fire and leave the
    table, the others have [d] less to wait. *)
Definition elapse (d : N) (timer_first : bool) (w : World) : World :=
  let fired := List.filter (due timer_first d) (timers w) in
  let kept := List.filter (fun t => negb (due timer_first d t)) (timers w) in
  fold_left fire fired
    (set_timers
       (map (fun t => mkTimer (timer_id t) (timer_delay t - d) (timer_action t)) kept)
       w).

Definition aborts (signal : option N) (t : Timer) : bool :=
  match signal, timer_action t with
  | Some c, AbortSignal c' => N.eqb c c'
  | _, _ => false
  end.

(** When the signal will be aborted: the shortest delay among the pending
    timers that abort its controller. *)
Definition abort_deadline (signal : option N) (ts : list Timer) : option N :=
  fold_left
    (fun best t =>
       if aborts signal t then
         match best with
         | Some d => Some (N.min d (timer_delay t))
         | None => Some (timer_delay t)
         end
       else best)
    ts None.

Definition is_aborted (signal : option N) (w : World) : bool :=
  match signal with
  | Some c => existsb (N.eqb c) (aborted w)
  | None => false
  end.

(** Whether the signal is aborted before something that takes [d]
    milliseconds is over. *)
Definition aborted_before (signal : option N) (d : N) (w : World) : bool :=
  match abort_deadline signal (timers w) with
  | Some t => (t <? d)%N || (up_timer_first (network w) && (t =? d)%N)
  | None => false
  end.

(** The world once the timer that aborts the signal has fired. *)
Definition at_abort (signal : option N) (w : World) : World :=
  match abort_deadline signal (timers w) with
  | Some t => elapse t true w
  | None => w
  end.

(** *** The network *)

(** The [AbortError] raised in this world. *)
Definition abort_error (w : World) : Thrown :=
  AbortError (up_abort_stack (network w)).

(** [await fetch(url, init)]: the call is recorded; it rejects with an
    [AbortError] as soon as its signal is aborted, and otherwise settles
    with what the far end sends.  With nothing to abort it and no answer,
    it never settles. *)
Definition fetch (o : Outbound) : Async Response :=
  fun w0 =>
    let w := set_calls (calls w0 ++ [o]) w0 in
    let s := out_signal o in
    if is_aborted s w then (Threw (abort_error w), w) else
    match up_head (network w) with
    | Head d st =>
        if aborted_before s d w then (Threw (abort_error w), at_abort s w)
        else (Returned (mkResponse st (up_body (network w)) s),
              elapse d (up_timer_first (network w)) w)
    | NetworkError d e =>
        if aborted_before s d w then (Threw (abort_error w), at_abort s w)
        else (Threw e, elapse d (up_timer_first (network w)) w)
    | NoHead =>
        match abort_deadline s (timers w) with
        | Some _ => (Threw (abort_error w), at_abort s w)
        | None => (Pending, w)
        end
    end.

(** [await response.text()]: a body that arrives is read at once; one that
    never arrives leaves the read pending until the signal is aborted, if it
    ever is. *)
Definition Response_text (r : Response) : Async string :=
  fun w =>
    if is_aborted (resp_signal r) w then (Threw (abort_error w), w) else
    match resp_body r with
    | BodyText text => (Returned text, w)
    | BodyError e => (Threw e, w)
    | NoBody =>
        match abort_deadline (resp_signal r) (timers w) with
        | Some _ => (Threw (abort_error w), at_abort (resp_signal r) w)
        | None => (Pending, w)
        end
    end.

(** [await request.formData()] *)
Definition Request_formData (req : NextRequest) : Async FormData :=
  match req_formData req with
  | inl e => throw e
  | inr fd => ret fd
  end.

(** *** Local storage *)

Definition localStorage_getItem (key : string) : Async (option string) :=
  fun w => (Returned (localStorage w !! key), w).

Definition localStorage_setItem (key value : string) : Async unit :=
  modify (fun w => set_localStorage (<[key := value]> (localStorage w)) w).

Definition localStorage_removeItem (key : string) : Async unit :=
  modify (fun w => set_localStorage (delete key (localStorage w)) w).

End World.

Arguments ret {UI A} a.
Arguments throw {UI A} e.
Arguments new_AbortController {UI}.
Arguments setTimeout {UI} action delay.
Arguments clearTimeout {UI} id.
Arguments fetch {UI} o.
Arguments Response_text {UI} r.
Arguments Request_formData {UI} req.
Arguments localStorage_getItem {UI} key.
Arguments localStorage_setItem {UI} key value.
Arguments localStorage_removeItem {UI} key.

(** [NextResponse.json(body, { status })]: the body is the text
    [JSON.stringify(body)]; the status is 200 when none is given; the
    constructor of the response throws for a status outside 200 to 599 and
    for a null-body status. *)
Definition NextResponse_json {UI} (P : Platform) (b : json) (init_status : option N)
  : Async UI NextResponse :=
  match init_status with
  | None => ret {| status := 200%N; body := serialised b |}
  | Some st =>
      if negb ((200 <=? st)%N && (st <=? 599)%N) || null_body_status st then
        throw (platform_Response_refuses P st)
      else ret {| status := st; body := serialised b |}
  end.

Declare Scope async_scope.
Delimit Scope async_scope with async.
Notation "x <- c ;; k" := (bind c (fun x => k))
  (at level 100, c at next level, k at level 200, right associativity) : async_scope.
Notation "c ;; k" := (bind c (fun _ => k))
  (at level 100, k at level 200, right associativity) : async_scope.
Open Scope async_scope.

(** ** The route handlers *)

Definition number_of_N (n : N) : number := number_of_Z (Z.of_N n).

(** The [ReferenceError] thrown where the name [FileReader] is evaluated
    and no such global is defined. *)
Definition FileReader_is_not_defined (P : Platform) : Thrown :=
  platform_Error P "ReferenceError" "FileReader is not defined".

(** The error event a [FileReader] hands to [onerror]; it is not an
    [Error]. *)
Definition reader_error_event : Thrown :=
  OtherObject "[object ProgressEvent]" (quoted "{'isTrusted':true}").

(** The verification route: [POST] with the fields [img1] and [img2],
    forwarded to [FACE_API_URL]. *)
Module VerifyRoute.
Section Route.

Variable P : Platform.

Definition FACE_API_URL : string :=
  env_or P "FACE_API_URL" "https://face.simic.app/api/verify/".

(** The executor of the promise starts with [new FileReader()].  The
    route is a handler of [next/server] and runs on the server, where no
    global [FileReader] is defined: evaluating the name throws a
    [ReferenceError], the executor ends there, and the promise is rejected
    with that error, whatever [file] is.  Nothing is read. *)
Definition fileToBase64 (file : option FormDataEntryValue) : Async unit (option string) :=
  throw (FileReader_is_not_defined P).

Definition POST (request : NextRequest) : Async unit NextResponse :=
  try_catch
    (formData <- Request_formData request ;;
     let apiKey := Headers_get (req_headers request) "X-API-KEY" in
     let key_required :=
       NextResponse_json P (JObject [("error", JString "X-API-KEY is required")])
         (Some 400%N) in
     match apiKey with
     | None => key_required
     | Some apiKey =>
     if negb (truthy_string apiKey) then key_required else
     let img1 := FormData_get formData "img1" in
     let img2 := FormData_get formData "img2" in
     if negb (truthy_entry img1) || negb (truthy_entry img2) then
       NextResponse_json P (JObject [("error", JString "Both images are required")])
         (Some 400%N)
     else
     img1Base64 <- fileToBase64 img1 ;;
     img2Base64 <- fileToBase64 img2 ;;
     controller <- new_AbortController ;;
     timeoutId <- setTimeout (AbortSignal controller) 30000%N ;;
     try_catch
       (response <- fetch
          {| out_url := FACE_API_URL;
             out_method := "POST";
             out_headers :=
               [("Content-Type", "application/json");
                ("X-Service-Code", "face");
                ("X-API-KEY", apiKey)];
             out_body :=
               JsonText (JObject (object_literal
                 [("img1", json_of_opt_string img1Base64);
                  ("img2", json_of_opt_string img2Base64)]));
             out_signal := Some controller |} ;;
        clearTimeout timeoutId ;;
        responseText <- Response_text response ;;
        match platform_JSON_parse P responseText with
        | None =>
            NextResponse_json P
              (JObject
                 [("error", JString "Failed to parse API response as JSON");
                  ("details", JString (js_substring 0 500 responseText))])
              (Some 500%N)
        | Some responseData =>
            if negb (ok response) then
              NextResponse_json P
                (JObject
                   [("error",
                     match js_get responseData "message" with
                     | Some message =>
                         if truthy message then message
                         else JString ("API returned error status: "
                                       ++ string_of_N (resp_status response))
                     | None =>
                         JString ("API returned error status: "
                                  ++ string_of_N (resp_status response))
                     end);
                    ("details", responseData);
                    ("status", JNumber (number_of_N (resp_status response)))])
                (Some (resp_status response))
            else NextResponse_json P responseData None
        end)
       (fun fetchError => clearTimeout timeoutId ;; throw fetchError)
     end)
    (fun error =>
       let errorMessage :=
         match error with
         | ErrorObject name message _ =>
             if String.eqb name "AbortError" then "Request timed out after 30 seconds"
             else "Error: " ++ message
         | OtherObject _ _ => "Internal server error"
         end in
       NextResponse_json P
         (JObject (object_literal
            [("error", Some (JString errorMessage));
             ("details",
              match error with
              | ErrorObject _ _ stack => json_of_opt_string stack
              | OtherObject text _ => Some (JString text)
              end)]))
         (Some 500%N)).

End Route.
End VerifyRoute.

(** The age route, [src/app/api/age/route.ts]: [POST] with the field
    [image]. *)
Module AgeRoute.
Section Route.

Variable P : Platform.

Definition AGE_API_URL : string :=
  env_or P "AGE_API_URL" "https://face.simic.app/api/age/".

(** As in the verification route: [new FileReader()] throws on the server,
    and the promise is rejected. *)
Definition fileToBase64 (file : option FormDataEntryValue) : Async unit (option string) :=
  throw (FileReader_is_not_defined P).

Definition POST (request : NextRequest) : Async unit NextResponse :=
  try_catch
    (formData <- Request_formData request ;;
     let apiKey := Headers_get (req_headers request) "X-API-KEY" in
     let key_required :=
       NextResponse_json P (JObject [("error", JString "X-API-KEY is required")])
         (Some 400%N) in
     match apiKey with
     | None => key_required
     | Some apiKey =>
     if negb (truthy_string apiKey) then key_required else
     let image := FormData_get formData "image" in
     if negb (truthy_entry image) then
       NextResponse_json P (JObject [("error", JString "Image is required")])
         (Some 400%N)
     else
     imageBase64 <- fileToBase64 image ;;
     controller <- new_AbortController ;;
     timeoutId <- setTimeout (AbortSignal controller) 30000%N ;;
     try_catch
       (let requestBody :=
          JsonText (JObject (object_literal
            [("image", json_of_opt_string imageBase64)])) in
        response <- fetch
          {| out_url := AGE_API_URL;
             out_method := "POST";
             out_headers :=
               [("Content-Type", "application/json");
                ("X-Service-Code", "face");
                ("X-API-KEY", apiKey)];
             out_body := requestBody;
             out_signal := Some controller |} ;;
        clearTimeout timeoutId ;;
        responseText <- Response_text response ;;
        match
          (if truthy_string responseText then platform_JSON_parse P responseText
           else Some (JObject [("error", JString "Empty response from API")]))
        with
        | None =>
            NextResponse_json P
              (JObject
                 [("error", JString "Failed to parse API response as JSON");
                  ("details", JString (js_substring 0 500 responseText))])
              (Some 500%N)
        | Some responseData =>
            if negb (ok response) then
              NextResponse_json P
                (JObject
                   [("error",
                     match js_get responseData "message" with
                     | Some message =>
                         if truthy message then message
                         else JString ("API returned error status: "
                                       ++ string_of_N (resp_status response))
                     | None =>
                         JString ("API returned error status: "
                                  ++ string_of_N (resp_status response))
                     end);
                    ("details", responseData);
                    ("status", JNumber (number_of_N (resp_status response)))])
                (Some (resp_status response))
            else NextResponse_json P responseData None
        end)
       (fun fetchError => clearTimeout timeoutId ;; throw fetchError)
     end)
    (fun error =>
       let errorMessage :=
         match error with
         | ErrorObject name message _ =>
             if String.eqb name "AbortError" then "Request timed out after 30 seconds"
             else "Error: " ++ message
         | OtherObject _ _ => "Internal server error"
         end in
       NextResponse_json P
         (JObject (object_literal
            [("error", Some (JString errorMessage));
             ("details",
              match error with
              | ErrorObject _ _ stack => json_of_opt_string stack
              | OtherObject text _ => Some (JString text)
              end)]))
         (Some 500%N)).

End Route.
End AgeRoute.

(** The world a route handler starts in: no timer, no call yet, and the far
    end behaving as [net]. *)
Definition server_world (net : Upstream) : World unit :=
  {| ui := tt; localStorage := ∅; network := net; timers := []; next_id := 0%N;
     aborted := []; calls := []; focus_count := 0%N |}.

(** ** The pages *)

(** What a page shows of a result: the title of the alert, paragraphs of
    text, and the [pre] block holding [JSON.stringify(value, null, 2)]. *)
Inductive View : Type :=
  | AlertTitle (text : string)
  | Paragraph (text : string)
  | Pre (value : json).

(** A state variable declared [T | null] holds [None] for a decoded
    [null]. *)
Definition nullable (v : json) : option json :=
  match v with
  | JNull => None
  | _ => Some v
  end.

(** [data.k] where [data] came out of [res.json()]: reading a property of
    [null] throws. *)
Definition read_property {UI} (P : Platform) (data : json) (k : string)
  : Async UI (option json) :=
  match data with
  | JNull =>
      throw (platform_Error P "TypeError"
               ("Cannot read properties of null (reading '" ++ k ++ "')"))
  | _ => ret (js_get data k)
  end.

(** [a || b] *)
Definition js_or (a : option json) (b : json) : json :=
  match a with
  | Some v => if truthy v then v else b
  | None => b
  end.

(** [await res.json()] *)
Definition Response_json {UI} (P : Platform) (res : Response) : Async UI json :=
  text <- Response_text res ;;
  match platform_JSON_parse P text with
  | Some data => ret data
  | None => throw (platform_SyntaxError P text)
  end.

(** The [change] event of a file input: [e.target.files]. *)
Record ChangeEvent : Type := mkChangeEvent {
  target_files : option (list File)
}.

(** [e.target.files && e.target.files[0]] *)
Definition first_file (e : ChangeEvent) : option File :=
  match target_files e with
  | Some files => nth_error files 0
  | None => None
  end.

(** The verification-only page: the first component of
    [src/app/ui/page.tsx].  A handler takes the values [c] of the state
    variables at the render that created it, and writes through the setters.
    [e.preventDefault()] and the reset of the file inputs are left out. *)
Module VerificationPage.

Definition API_KEY_STORAGE_KEY : string := "face-verification-api-key".

Record State : Type := mkState {
  apiKey : string;
  isApiKeySaved : bool;
  isEditingApiKey : bool;
  image1 : option File;
  image2 : option File;
  image1Preview : option string;
  image2Preview : option string;
  isLoading : bool;
  response : option json;
  error : option string;
  errorDetails : option json;
  showDebug : bool
}.

Definition with_apiKey (v : string) (s : State) : State :=
  mkState v (isApiKeySaved s) (isEditingApiKey s) (image1 s) (image2 s)
    (image1Preview s) (image2Preview s) (isLoading s) (response s) (error s)
    (errorDetails s) (showDebug s).
Definition with_isApiKeySaved (v : bool) (s : State) : State :=
  mkState (apiKey s) v (isEditingApiKey s) (image1 s) (image2 s) (image1Preview s)
    (image2Preview s) (isLoading s) (response s) (error s) (errorDetails s)
    (showDebug s).
Definition with_isEditingApiKey (v : bool) (s : State) : State :=
  mkState (apiKey s) (isApiKeySaved s) v (image1 s) (image2 s) (image1Preview s)
    (image2Preview s) (isLoading s) (response s) (error s) (errorDetails s)
    (showDebug s).
Definition with_image1 (v : option File) (s : State) : State :=
  mkState (apiKey s) (isApiKeySaved s) (isEditingApiKey s) v (image2 s)
    (image1Preview s) (image2Preview s) (isLoading s) (response s) (error s)
    (errorDetails s) (showDebug s).
Definition with_image2 (v : option File) (s : State) : State :=
  mkState (apiKey s) (isApiKeySaved s) (isEditingApiKey s) (image1 s) v
    (image1Preview s) (image2Preview s) (isLoading s) (response s) (error s)
    (errorDetails s) (showDebug s).
Definition with_image1Preview (v : option string) (s : State) : State :=
  mkState (apiKey s) (isApiKeySaved s) (isEditingApiKey s) (image1 s) (image2 s) v
    (image2Preview s) (isLoading s) (response s) (error s) (errorDetails s)
    (showDebug s).
Definition with_image2Preview (v : option string) (s : State) : State :=
  mkState (apiKey s) (isApiKeySaved s) (isEditingApiKey s) (image1 s) (image2 s)
    (image1Preview s) v (isLoading s) (response s) (error s) (errorDetails s)
    (showDebug s).
Definition with_isLoading (v : bool) (s : State) : State :=
  mkState (apiKey s) (isApiKeySaved s) (isEditingApiKey s) (image1 s) (image2 s)
    (image1Preview s) (image2Preview s) v (response s) (error s) (errorDetails s)
    (showDebug s).
Definition with_response (v : option json) (s : State) : State :=
  mkState (apiKey s) (isApiKeySaved s) (isEditingApiKey s) (image1 s) (image2 s)
    (image1Preview s) (image2Preview s) (isLoading s) v (error s) (errorDetails s)
    (showDebug s).
Definition with_error (v : option string) (s : State) : State :=
  mkState (apiKey s) (isApiKeySaved s) (isEditingApiKey s) (image1 s) (image2 s)
    (image1Preview s) (image2Preview s) (isLoading s) (response s) v (errorDetails s)
    (showDebug s).
Definition with_errorDetails (v : option json) (s : State) : State :=
  mkState (apiKey s) (isApiKeySaved s) (isEditingApiKey s) (image1 s) (image2 s)
    (image1Preview s) (image2Preview s) (isLoading s) (response s) (error s) v
    (showDebug s).
Definition with_showDebug (v : bool) (s : State) : State :=
  mkState (apiKey s) (isApiKeySaved s) (isEditingApiKey s) (image1 s) (image2 s)
    (image1Preview s) (image2Preview s) (isLoading s) (response s) (error s)
    (errorDetails s) v.

Definition setApiKey (v : string) : Async State unit :=
  modify (fun w => set_ui (with_apiKey v (ui w)) w).
Definition setIsApiKeySaved (v : bool) : Async State unit :=
  modify (fun w => set_ui (with_isApiKeySaved v (ui w)) w).
Definition setIsEditingApiKey (v : bool) : Async State unit :=
  modify (fun w => set_ui (with_isEditingApiKey v (ui w)) w).
Definition setImage1 (v : option File) : Async State unit :=
  modify (fun w => set_ui (with_image1 v (ui w)) w).
Definition setImage2 (v : option File) : Async State unit :=
  modify (fun w => set_ui (with_image2 v (ui w)) w).
Definition setImage1Preview (v : option string) : Async State unit :=
  modify (fun w => set_ui (with_image1Preview v (ui w)) w).
Definition setImage2Preview (v : option string) : Async State unit :=
  modify (fun w => set_ui (with_image2Preview v (ui w)) w).
Definition setIsLoading (v : bool) : Async State unit :=
  modify (fun w => set_ui (with_isLoading v (ui w)) w).
Definition setResponse (v : option json) : Async State unit :=
  modify (fun w => set_ui (with_response v (ui w)) w).
Definition setError (v : option string) : Async State unit :=
  modify (fun w => set_ui (with_error v (ui w)) w).
Definition setErrorDetails (v : option json) : Async State unit :=
  modify (fun w => set_ui (with_errorDetails v (ui w)) w).
Definition setShowDebug (v : bool) : Async State unit :=
  modify (fun w => set_ui (with_showDebug v (ui w)) w).

Section Component.

Variable P : Platform.

(** The effect run on mount. *)
Definition on_mount : Async State unit :=
  savedApiKey <- localStorage_getItem API_KEY_STORAGE_KEY ;;
  if truthy_opt_string savedApiKey then
    setApiKey (match savedApiKey with Some k => k | None => EmptyString end) ;;
    setIsApiKeySaved true
  else setIsEditingApiKey true.

Definition saveApiKey (c : State) : Async State unit :=
  if truthy_string (trim (apiKey c)) then
    localStorage_setItem API_KEY_STORAGE_KEY (apiKey c) ;;
    setIsApiKeySaved true ;;
    setIsEditingApiKey false
  else ret tt.

Definition removeApiKey : Async State unit :=
  localStorage_removeItem API_KEY_STORAGE_KEY ;;
  setApiKey EmptyString ;;
  setIsApiKeySaved false ;;
  setIsEditingApiKey true ;;
  _ <- setTimeout FocusApiKeyInput 100%N ;;
  ret tt.

Definition toggleEditApiKey (c : State) : Async State unit :=
  setIsEditingApiKey (negb (isEditingApiKey c)) ;;
  if negb (isEditingApiKey c) then
    _ <- setTimeout FocusApiKeyInput 100%N ;; ret tt
  else ret tt.

(** The preview is set when the reader has loaded the file; the reader has
    no error handler here. *)
Definition handleImage1Change (e : ChangeEvent) : Async State unit :=
  match first_file e with
  | Some file =>
      setImage1 (Some file) ;;
      match platform_readAsDataURL P file with
      | Some result => setImage1Preview (Some result)
      | None => ret tt
      end
  | None => ret tt
  end.

Definition handleImage2Change (e : ChangeEvent) : Async State unit :=
  match first_file e with
  | Some file =>
      setImage2 (Some file) ;;
      match platform_readAsDataURL P file with
      | Some result => setImage2Preview (Some result)
      | None => ret tt
      end
  | None => ret tt
  end.

Definition handleSubmit (c : State) : Async State unit :=
  match image1 c, image2 c, truthy_string (apiKey c) with
  | Some image1, Some image2, true =>
      setIsLoading true ;;
      setError None ;;
      setErrorDetails None ;;
      setResponse None ;;
      try_finally
        (try_catch
           (let FACE_API_URL :=
              env_or P "FACE_API_URL" "https://face.simic.app/api/verify/" in
            res <- fetch
              {| out_url := FACE_API_URL;
                 out_method := "POST";
                 out_headers := [("X-API-KEY", apiKey c); ("X-Service-Code", "face")];
                 out_body := FormBody [("img1", image1); ("img2", image2)];
                 out_signal := None |} ;;
            data <- Response_json P res ;;
            if negb (ok res) then
              data_error <- read_property P data "error" ;;
              let errorMessage :=
                match data_error with
                | Some (JString s) => s
                | _ => "Failed to verify faces"
                end in
              data_details <- read_property P data "details" ;;
              setErrorDetails (nullable (js_or data_details data)) ;;
              throw (new_Error P errorMessage)
            else setResponse (nullable data))
           (fun err =>
              let errorMessage :=
                match err with
                | ErrorObject _ message _ => message
                | OtherObject _ stringified => stringified
                end in
              setError (Some errorMessage)))
        (setIsLoading false)
  | _, _, _ => setError (Some "All fields are required")
  end.

(** What the card footer shows: nothing without a response; otherwise the
    verdict, the message, the similarity as a percentage with two decimals,
    and the dump of the response.  The component reads the response at the
    type [VerificationResponse]; for a response that lacks a string
    [message] or a numeric [similarity_score] the rendering is not modelled
    ([None]). *)
Definition render_result (s : State) : option (list View) :=
  match response s with
  | None => Some []
  | Some r =>
      match js_get r "message", js_get r "similarity_score" with
      | Some (JString message), Some (JNumber similarity_score) =>
          match toFixed 2 (number_mul similarity_score (number_of_Z 100)) with
          | Some percent =>
              Some [AlertTitle (if truthy_opt (js_get r "verified")
                                then "Match Found" else "No Match");
                    Paragraph message;
                    Paragraph ("Similarity Score: " ++ percent ++ "%");
                    Paragraph "API Response:";
                    Pre r]
          | None => None
          end
      | _, _ => None
      end
  end.

End Component.

(** The state before the mount effect. *)
Definition initial_state : State :=
  {| apiKey := EmptyString; isApiKeySaved := false; isEditingApiKey := false;
     image1 := None; image2 := None; image1Preview := None; image2Preview := None;
     isLoading := false; response := None; error := None; errorDetails := None;
     showDebug := false |}.

End VerificationPage.

(** The multi-kind page: the second component of [src/app/ui/page.tsx],
    with one tab per kind of analysis.  It calls the analysis service
    directly. *)
Module AnalysisPage.

Definition API_KEY_STORAGE_KEY : string := "face-verification-api-key".

(** Maximum image size in bytes (5MB). *)
Definition MAX_IMAGE_SIZE : N := 5 * 1024 * 1024.

Record State : Type := mkState {
  activeTab : string;
  apiKey : string;
  isApiKeySaved : bool;
  isEditingApiKey : bool;
  image1 : option File;
  image2 : option File;
  image1Preview : option string;
  image2Preview : option string;
  verificationResponse : option json;
  emotionImage : option File;
  emotionImagePreview : option string;
  emotionResponse : option json;
  ageImage : option File;
  ageImagePreview : option string;
  ageResponse : option json;
  genderImage : option File;
  genderImagePreview : option string;
  genderResponse : option json;
  isLoading : bool;
  error : option string;
  errorDetails : option json;
  showDebug : bool
}.

Definition with_activeTab (v : string) (s : State) : State :=
  mkState v (apiKey s) (isApiKeySaved s) (isEditingApiKey s) (image1 s) (image2 s)
    (image1Preview s) (image2Preview s) (verificationResponse s) (emotionImage s)
    (emotionImagePreview s) (emotionResponse s) (ageImage s) (ageImagePreview s)
    (ageResponse s) (genderImage s) (genderImagePreview s) (genderResponse s)
    (isLoading s) (error s) (errorDetails s) (showDebug s).
Definition with_apiKey (v : string) (s : State) : State :=
  mkState (activeTab s) v (isApiKeySaved s) (isEditingApiKey s) (image1 s) (image2 s)
    (image1Preview s) (image2Preview s) (verificationResponse s) (emotionImage s)
    (emotionImagePreview s) (emotionResponse s) (ageImage s) (ageImagePreview s)
    (ageResponse s) (genderImage s) (genderImagePreview s) (genderResponse s)
    (isLoading s) (error s) (errorDetails s) (showDebug s).
Definition with_isApiKeySaved (v : bool) (s : State) : State :=
  mkState (activeTab s) (apiKey s) v (isEditingApiKey s) (image1 s) (image2 s)
    (image1Preview s) (image2Preview s) (verificationResponse s) (emotionImage s)
    (emotionImagePreview s) (emotionResponse s) (ageImage s) (ageImagePreview s)
    (ageResponse s) (genderImage s) (genderImagePreview s) (genderResponse s)
    (isLoading s) (error s) (errorDetails s) (showDebug s).
Definition with_isEditingApiKey (v : bool) (s : State) : State :=
  mkState (activeTab s) (apiKey s) (isApiKeySaved s) v (image1 s) (image2 s)
    (image1Preview s) (image2Preview s) (verificationResponse s) (emotionImage s)
    (emotionImagePreview s) (emotionResponse s) (ageImage s) (ageImagePreview s)
    (ageResponse s) (genderImage s) (genderImagePreview s) (genderResponse s)
    (isLoading s) (error s) (errorDetails s) (showDebug s).
Definition with_image1 (v : option File) (s : State) : State :=
  mkState (activeTab s) (apiKey s) (isApiKeySaved s) (isEditingApiKey s) v (image2 s)
    (image1Preview s) (image2Preview s) (verificationResponse s) (emotionImage s)
    (emotionImagePreview s) (emotionResponse s) (ageImage s) (ageImagePreview s)
    (ageResponse s) (genderImage s) (genderImagePreview s) (genderResponse s)
    (isLoading s) (error s) (errorDetails s) (showDebug s).
Definition with_image2 (v : option File) (s : State) : State :=
  mkState (activeTab s) (apiKey s) (isApiKeySaved s) (isEditingApiKey s) (image1 s) v
    (image1Preview s) (image2Preview s) (verificationResponse s) (emotionImage s)
    (emotionImagePreview s) (emotionResponse s) (ageImage s) (ageImagePreview s)
    (ageResponse s) (genderImage s) (genderImagePreview s) (genderResponse s)
    (isLoading s) (error s) (errorDetails s) (showDebug s).
Definition with_image1Preview (v : option string) (s : State) : State :=
  mkState (activeTab s) (apiKey s) (isApiKeySaved s) (isEditingApiKey s) (image1 s)
    (image2 s) v (image2Preview s) (verificationResponse s) (emotionImage s)
    (emotionImagePreview s) (emotionResponse s) (ageImage s) (ageImagePreview s)
    (ageResponse s) (genderImage s) (genderImagePreview s) (genderResponse s)
    (isLoading s) (error s) (errorDetails s) (showDebug s).
Definition with_image2Preview (v : option string) (s : State) : State :=
  mkState (activeTab s) (apiKey s) (isApiKeySaved s) (isEditingApiKey s) (image1 s)
    (image2 s) (image1Preview s) v (verificationResponse s) (emotionImage s)
    (emotionImagePreview s) (emotionResponse s) (ageImage s) (ageImagePreview s)
    (ageResponse s) (genderImage s) (genderImagePreview s) (genderResponse s)
    (isLoading s) (error s) (errorDetails s) (showDebug s).
Definition with_verificationResponse (v : option json) (s : State) : State :=
  mkState (activeTab s) (apiKey s) (isApiKeySaved s) (isEditingApiKey s) (image1 s)
    (image2 s) (image1Preview s) (image2Preview s) v (emotionImage s)
    (emotionImagePreview s) (emotionResponse s) (ageImage s) (ageImagePreview s)
    (ageResponse s) (genderImage s) (genderImagePreview s) (genderResponse s)
    (isLoading s) (error s) (errorDetails s) (showDebug s).
Definition with_emotionImage (v : option File) (s : State) : State :=
  mkState (activeTab s) (apiKey s) (isApiKeySaved s) (isEditingApiKey s) (image1 s)
    (image2 s) (image1Preview s) (image2Preview s) (verificationResponse s) v
    (emotionImagePreview s) (emotionResponse s) (ageImage s) (ageImagePreview s)
    (ageResponse s) (genderImage s) (genderImagePreview s) (genderResponse s)
    (isLoading s) (error s) (errorDetails s) (showDebug s).
Definition with_emotionImagePreview (v : option string) (s : State) : State :=
  mkState (activeTab s) (apiKey s) (isApiKeySaved s) (isEditingApiKey s) (image1 s)
    (image2 s) (image1Preview s) (image2Preview s) (verificationResponse s)
    (emotionImage s) v (emotionResponse s) (ageImage s) (ageImagePreview s)
    (ageResponse s) (genderImage s) (genderImagePreview s) (genderResponse s)
    (isLoading s) (error s) (errorDetails s) (showDebug s).
Definition with_emotionResponse (v : option json) (s : State) : State :=
  mkState (activeTab s) (apiKey s) (isApiKeySaved s) (isEditingApiKey s) (image1 s)
    (image2 s) (image1Preview s) (image2Preview s) (verificationResponse s)
    (emotionImage s) (emotionImagePreview s) v (ageImage s) (ageImagePreview s)
    (ageResponse s) (genderImage s) (genderImagePreview s) (genderResponse s)
    (isLoading s) (error s) (errorDetails s) (showDebug s).
Definition with_ageImage (v : option File) (s : State) : State :=
  mkState (activeTab s) (apiKey s) (isApiKeySaved s) (isEditingApiKey s) (image1 s)
    (image2 s) (image1Preview s) (image2Preview s) (verificationResponse s)
    (emotionImage s) (emotionImagePreview s) (emotionResponse s) v (ageImagePreview s)
    (ageResponse s) (genderImage s) (genderImagePreview s) (genderResponse s)
    (isLoading s) (error s) (errorDetails s) (showDebug s).
Definition with_ageImagePreview (v : option string) (s : State) : State :=
  mkState (activeTab s) (apiKey s) (isApiKeySaved s) (isEditingApiKey s) (image1 s)
    (image2 s) (image1Preview s) (image2Preview s) (verificationResponse s)
    (emotionImage s) (emotionImagePreview s) (emotionResponse s) (ageImage s) v
    (ageResponse s) (genderImage s) (genderImagePreview s) (genderResponse s)
    (isLoading s) (error s) (errorDetails s) (showDebug s).
Definition with_ageResponse (v : option json) (s : State) : State :=
  mkState (activeTab s) (apiKey s) (isApiKeySaved s) (isEditingApiKey s) (image1 s)
    (image2 s) (image1Preview s) (image2Preview s) (verificationResponse s)
    (emotionImage s) (emotionImagePreview s) (emotionResponse s) (ageImage s)
    (ageImagePreview s) v (genderImage s) (genderImagePreview s) (genderResponse s)
    (isLoading s) (error s) (errorDetails s) (showDebug s).
Definition with_genderImage (v : option File) (s : State) : State :=
  mkState (activeTab s) (apiKey s) (isApiKeySaved s) (isEditingApiKey s) (image1 s)
    (image2 s) (image1Preview s) (image2Preview s) (verificationResponse s)
    (emotionImage s) (emotionImagePreview s) (emotionResponse s) (ageImage s)
    (ageImagePreview s) (ageResponse s) v (genderImagePreview s) (genderResponse s)
    (isLoading s) (error s) (errorDetails s) (showDebug s).
Definition with_genderImagePreview (v : option string) (s : State) : State :=
  mkState (activeTab s) (apiKey s) (isApiKeySaved s) (isEditingApiKey s) (image1 s)
    (image2 s) (image1Preview s) (image2Preview s) (verificationResponse s)
    (emotionImage s) (emotionImagePreview s) (emotionResponse s) (ageImage s)
    (ageImagePreview s) (ageResponse s) (genderImage s) v (genderResponse s)
    (isLoading s) (error s) (errorDetails s) (showDebug s).
Definition with_genderResponse (v : option json) (s : State) : State :=
  mkState (activeTab s) (apiKey s) (isApiKeySaved s) (isEditingApiKey s) (image1 s)
    (image2 s) (image1Preview s) (image2Preview s) (verificationResponse s)
    (emotionImage s) (emotionImagePreview s) (emotionResponse s) (ageImage s)
    (ageImagePreview s) (ageResponse s) (genderImage s) (genderImagePreview s) v
    (isLoading s) (error s) (errorDetails s) (showDebug s).
Definition with_isLoading (v : bool) (s : State) : State :=
  mkState (activeTab s) (apiKey s) (isApiKeySaved s) (isEditingApiKey s) (image1 s)
    (image2 s) (image1Preview s) (image2Preview s) (verificationResponse s)
    (emotionImage s) (emotionImagePreview s) (emotionResponse s) (ageImage s)
    (ageImagePreview s) (ageResponse s) (genderImage s) (genderImagePreview s)
    (genderResponse s) v (error s) (errorDetails s) (showDebug s).
Definition with_error (v : option string) (s : State) : State :=
  mkState (activeTab s) (apiKey s) (isApiKeySaved s) (isEditingApiKey s) (image1 s)
    (image2 s) (image1Preview s) (image2Preview s) (verificationResponse s)
    (emotionImage s) (emotionImagePreview s) (emotionResponse s) (ageImage s)
    (ageImagePreview s) (ageResponse s) (genderImage s) (genderImagePreview s)
    (genderResponse s) (isLoading s) v (errorDetails s) (showDebug s).
Definition with_errorDetails (v : option json) (s : State) : State :=
  mkState (activeTab s) (apiKey s) (isApiKeySaved s) (isEditingApiKey s) (image1 s)
    (image2 s) (image1Preview s) (image2Preview s) (verificationResponse s)
    (emotionImage s) (emotionImagePreview s) (emotionResponse s) (ageImage s)
    (ageImagePreview s) (ageResponse s) (genderImage s) (genderImagePreview s)
    (genderResponse s) (isLoading s) (error s) v (showDebug s).
Definition with_showDebug (v : bool) (s : State) : State :=
  mkState (activeTab s) (apiKey s) (isApiKeySaved s) (isEditingApiKey s) (image1 s)
    (image2 s) (image1Preview s) (image2Preview s) (verificationResponse s)
    (emotionImage s) (emotionImagePreview s) (emotionResponse s) (ageImage s)
    (ageImagePreview s) (ageResponse s) (genderImage s) (genderImagePreview s)
    (genderResponse s) (isLoading s) (error s) (errorDetails s) v.

Definition setActiveTab (v : string) : Async State unit :=
  modify (fun w => set_ui (with_activeTab v (ui w)) w).
Definition setApiKey (v : string) : Async State unit :=
  modify (fun w => set_ui (with_apiKey v (ui w)) w).
Definition setIsApiKeySaved (v : bool) : Async State unit :=
  modify (fun w => set_ui (with_isApiKeySaved v (ui w)) w).
Definition setIsEditingApiKey (v : bool) : Async State unit :=
  modify (fun w => set_ui (with_isEditingApiKey v (ui w)) w).
Definition setImage1 (v : option File) : Async State unit :=
  modify (fun w => set_ui (with_image1 v (ui w)) w).
Definition setImage2 (v : option File) : Async State unit :=
  modify (fun w => set_ui (with_image2 v (ui w)) w).
Definition setImage1Preview (v : option string) : Async State unit :=
  modify (fun w => set_ui (with_image1Preview v (ui w)) w).
Definition setImage2Preview (v : option string) : Async State unit :=
  modify (fun w => set_ui (with_image2Preview v (ui w)) w).
Definition setVerificationResponse (v : option json) : Async State unit :=
  modify (fun w => set_ui (with_verificationResponse v (ui w)) w).
Definition setEmotionImage (v : option File) : Async State unit :=
  modify (fun w => set_ui (with_emotionImage v (ui w)) w).
Definition setEmotionImagePreview (v : option string) : Async State unit :=
  modify (fun w => set_ui (with_emotionImagePreview v (ui w)) w).
Definition setEmotionResponse (v : option json) : Async State unit :=
  modify (fun w => set_ui (with_emotionResponse v (ui w)) w).
Definition setAgeImage (v : option File) : Async State unit :=
  modify (fun w => set_ui (with_ageImage v (ui w)) w).
Definition setAgeImagePreview (v : option string) : Async State unit :=
  modify (fun w => set_ui (with_ageImagePreview v (ui w)) w).
Definition setAgeResponse (v : option json) : Async State unit :=
  modify (fun w => set_ui (with_ageResponse v (ui w)) w).
Definition setGenderImage (v : option File) : Async State unit :=
  modify (fun w => set_ui (with_genderImage v (ui w)) w).
Definition setGenderImagePreview (v : option string) : Async State unit :=
  modify (fun w => set_ui (with_genderImagePreview v (ui w)) w).
Definition setGenderResponse (v : option json) : Async State unit :=
  modify (fun w => set_ui (with_genderResponse v (ui w)) w).
Definition setIsLoading (v : bool) : Async State unit :=
  modify (fun w => set_ui (with_isLoading v (ui w)) w).
Definition setError (v : option string) : Async State unit :=
  modify (fun w => set_ui (with_error v (ui w)) w).
Definition setErrorDetails (v : option json) : Async State unit :=
  modify (fun w => set_ui (with_errorDetails v (ui w)) w).
Definition setShowDebug (v : bool) : Async State unit :=
  modify (fun w => set_ui (with_showDebug v (ui w)) w).

Section Component.

Variable P : Platform.

Definition fileToBase64 (file : File) : Async State (option string) :=
  match platform_readAsDataURL P file with
  | Some base64String => ret (nth_error (split comma base64String) 1)
  | None => throw reader_error_event
  end.

Definition on_mount : Async State unit :=
  savedApiKey <- localStorage_getItem API_KEY_STORAGE_KEY ;;
  if truthy_opt_string savedApiKey then
    setApiKey (match savedApiKey with Some k => k | None => EmptyString end) ;;
    setIsApiKeySaved true
  else setIsEditingApiKey true.

Definition saveApiKey (c : State) : Async State unit :=
  if truthy_string (trim (apiKey c)) then
    localStorage_setItem API_KEY_STORAGE_KEY (apiKey c) ;;
    setIsApiKeySaved true ;;
    setIsEditingApiKey false
  else ret tt.

Definition removeApiKey : Async State unit :=
  localStorage_removeItem API_KEY_STORAGE_KEY ;;
  setApiKey EmptyString ;;
  setIsApiKeySaved false ;;
  setIsEditingApiKey true ;;
  _ <- setTimeout FocusApiKeyInput 100%N ;;
  ret tt.

Definition toggleEditApiKey (c : State) : Async State unit :=
  setIsEditingApiKey (negb (isEditingApiKey c)) ;;
  if negb (isEditingApiKey c) then
    _ <- setTimeout FocusApiKeyInput 100%N ;; ret tt
  else ret tt.

Definition validateImageSize (file : File) : Async State bool :=
  if (MAX_IMAGE_SIZE <? file_size file)%N then
    setError (Some ("Image size exceeds the maximum limit of "
                    ++ string_of_N (MAX_IMAGE_SIZE / (1024 * 1024)) ++ "MB")) ;;
    ret false
  else ret true.

Definition handleImage1Change (e : ChangeEvent) : Async State unit :=
  match first_file e with
  | Some file =>
      valid <- validateImageSize file ;;
      if negb valid then ret tt else
      setImage1 (Some file) ;;
      match platform_readAsDataURL P file with
      | Some result => setImage1Preview (Some result)
      | None => ret tt
      end
  | None => ret tt
  end.

Definition handleImage2Change (e : ChangeEvent) : Async State unit :=
  match first_file e with
  | Some file =>
      valid <- validateImageSize file ;;
      if negb valid then ret tt else
      setImage2 (Some file) ;;
      match platform_readAsDataURL P file with
      | Some result => setImage2Preview (Some result)
      | None => ret tt
      end
  | None => ret tt
  end.

Definition handleEmotionImageChange (e : ChangeEvent) : Async State unit :=
  match first_file e with
  | Some file =>
      valid <- validateImageSize file ;;
      if negb valid then ret tt else
      setEmotionImage (Some file) ;;
      match platform_readAsDataURL P file with
      | Some result => setEmotionImagePreview (Some result)
      | None => ret tt
      end
  | None => ret tt
  end.

Definition handleAgeImageChange (e : ChangeEvent) : Async State unit :=
  match first_file e with
  | Some file =>
      valid <- validateImageSize file ;;
      if negb valid then ret tt else
      setAgeImage (Some file) ;;
      match platform_readAsDataURL P file with
      | Some result => setAgeImagePreview (Some result)
      | None => ret tt
      end
  | None => ret tt
  end.

Definition handleGenderImageChange (e : ChangeEvent) : Async State unit :=
  match first_file e with
  | Some file =>
      valid <- validateImageSize file ;;
      if negb valid then ret tt else
      setGenderImage (Some file) ;;
      match platform_readAsDataURL P file with
      | Some result => setGenderImagePreview (Some result)
      | None => ret tt
      end
  | None => ret tt
  end.

(** Common error handler *)
Definition handleApiError (err : Thrown) : Async State unit :=
  let errorMessage :=
    match err with
    | ErrorObject _ message _ => message
    | OtherObject _ stringified => stringified
    end in
  setError (Some errorMessage).

Definition json_headers (c : State) : list (string * string) :=
  [("Content-Type", "application/json");
   ("X-API-KEY", apiKey c);
   ("X-Service-Code", "face")].

Definition handleVerificationSubmit (c : State) : Async State unit :=
  if negb (truthy_string (apiKey c)) then setError (Some "API key is required") else
  match image1 c, image2 c with
  | Some image1, Some image2 =>
      setIsLoading true ;;
      setError None ;;
      setErrorDetails None ;;
      setVerificationResponse None ;;
      try_finally
        (try_catch
           (img1Base64 <- fileToBase64 image1 ;;
            img2Base64 <- fileToBase64 image2 ;;
            let FACE_API_URL :=
              env_or P "FACE_API_URL" "https://face.simic.app/api/verify/" in
            res <- fetch
              {| out_url := FACE_API_URL;
                 out_method := "POST";
                 out_headers := json_headers c;
                 out_body :=
                   JsonText (JObject (object_literal
                     [("img1", json_of_opt_string img1Base64);
                      ("img2", json_of_opt_string img2Base64)]));
                 out_signal := None |} ;;
            data <- Response_json P res ;;
            if negb (ok res) then
              data_error <- read_property P data "error" ;;
              let errorMessage :=
                match data_error with
                | Some (JString s) => s
                | _ => "Failed to verify faces"
                end in
              data_details <- read_property P data "details" ;;
              setErrorDetails (nullable (js_or data_details data)) ;;
              throw (new_Error P errorMessage)
            else setVerificationResponse (nullable data))
           handleApiError)
        (setIsLoading false)
  | _, _ => setError (Some "Both images are required")
  end.

Definition handleEmotionSubmit (c : State) : Async State unit :=
  if negb (truthy_string (apiKey c)) then setError (Some "API key is required") else
  match emotionImage c with
  | Some emotionImage =>
      setIsLoading true ;;
      setError None ;;
      setErrorDetails None ;;
      setEmotionResponse None ;;
      try_finally
        (try_catch
           (imageBase64 <- fileToBase64 emotionImage ;;
            let EMOTION_API_URL :=
              env_or P "EMOTION_API_URL" "https://face.simic.app/api/emotion/" in
            res <- fetch
              {| out_url := EMOTION_API_URL;
                 out_method := "POST";
                 out_headers := json_headers c;
                 out_body :=
                   JsonText (JObject (object_literal
                     [("image", json_of_opt_string imageBase64)]));
                 out_signal := None |} ;;
            data <- Response_json P res ;;
            if negb (ok res) then
              data_error <- read_property P data "error" ;;
              let errorMessage :=
                match data_error with
                | Some (JString s) => s
                | _ => "Failed to detect emotion"
                end in
              data_details <- read_property P data "details" ;;
              setErrorDetails (nullable (js_or data_details data)) ;;
              throw (new_Error P errorMessage)
            else setEmotionResponse (nullable data))
           handleApiError)
        (setIsLoading false)
  | None => setError (Some "Image is required")
  end.

Definition handleAgeSubmit (c : State) : Async State unit :=
  if negb (truthy_string (apiKey c)) then setError (Some "API key is required") else
  match ageImage c with
  | Some ageImage =>
      setIsLoading true ;;
      setError None ;;
      setErrorDetails None ;;
      setAgeResponse None ;;
      try_finally
        (try_catch
           (imageBase64 <- fileToBase64 ageImage ;;
            let AGE_API_URL :=
              env_or P "AGE_API_URL" "https://face.simic.app/api/age/" in
            res <- fetch
              {| out_url := AGE_API_URL;
                 out_method := "POST";
                 out_headers := json_headers c;
                 out_body :=
                   JsonText (JObject (object_literal
                     [("image", json_of_opt_string imageBase64)]));
                 out_signal := None |} ;;
            data <- Response_json P res ;;
            if negb (ok res) then
              data_error <- read_property P data "error" ;;
              let errorMessage :=
                match data_error with
                | Some (JString s) => s
                | _ => "Failed to detect age"
                end in
              data_details <- read_property P data "details" ;;
              setErrorDetails (nullable (js_or data_details data)) ;;
              throw (new_Error P errorMessage)
            else setAgeResponse (nullable data))
           handleApiError)
        (setIsLoading false)
  | None => setError (Some "Image is required")
  end.

Definition handleGenderSubmit (c : State) : Async State unit :=
  if negb (truthy_string (apiKey c)) then setError (Some "API key is required") else
  match genderImage c with
  | Some genderImage =>
      setIsLoading true ;;
      setError None ;;
      setErrorDetails None ;;
      setGenderResponse None ;;
      try_finally
        (try_catch
           (imageBase64 <- fileToBase64 genderImage ;;
            let GENDER_API_URL :=
              env_or P "GENDER_API_URL" "https://face.simic.app/api/gender/" in
            res <- fetch
              {| out_url := GENDER_API_URL;
                 out_method := "POST";
                 out_headers := json_headers c;
                 out_body :=
                   JsonText (JObject (object_literal
                     [("image", json_of_opt_string imageBase64)]));
                 out_signal := None |} ;;
            data <- Response_json P res ;;
            if negb (ok res) then
              data_error <- read_property P data "error" ;;
              let errorMessage :=
                match data_error with
                | Some (JString s) => s
                | _ => "Failed to detect gender"
                end in
              data_details <- read_property P data "details" ;;
              setErrorDetails (nullable (js_or data_details data)) ;;
              throw (new_Error P errorMessage)
            else setGenderResponse (nullable data))
           handleApiError)
        (setIsLoading false)
  | None => setError (Some "Image is required")
  end.

End Component.

(** What a tab shows below its form for the response it holds: the heading
    and the dump, and nothing else.  A response that is falsy without being
    [null] is not modelled ([None]). *)
Definition render_response (r : option json) : option (list View) :=
  match r with
  | None => Some []
  | Some v => if truthy v then Some [Paragraph "API Response:"; Pre v] else None
  end.

(** The result area of the tab that is open. *)
Definition render_result (s : State) : option (list View) :=
  if String.eqb (activeTab s) "verification" then render_response (verificationResponse s)
  else if String.eqb (activeTab s) "emotion" then render_response (emotionResponse s)
  else if String.eqb (activeTab s) "age" then render_response (ageResponse s)
  else if String.eqb (activeTab s) "gender" then render_response (genderResponse s)
  else Some [].

Definition initial_state : State :=
  {| activeTab := "verification"; apiKey := EmptyString; isApiKeySaved := false;
     isEditingApiKey := false;
     image1 := None; image2 := None; image1Preview := None; image2Preview := None;
     verificationResponse := None;
     emotionImage := None; emotionImagePreview := None; emotionResponse := None;
     ageImage := None; ageImagePreview := None; ageResponse := None;
     genderImage := None; genderImagePreview := None; genderResponse := None;
     isLoading := false; error := None; errorDetails := None; showDebug := false |}.

End AnalysisPage.

(** The world of a page: its state, the stored key if any, and the far end
    behaving as [net]. *)
Definition page_world {UI} (s : UI) (storage : gmap string string) (net : Upstream)
  : World UI :=
  {| ui := s; localStorage := storage; network := net; timers := []; next_id := 0%N;
     aborted := []; calls := []; focus_count := 0%N |}.

(** ** The vocabulary of the properties *)

(** What either route answers from its outermost [catch]. *)
Definition caught (error : Thrown) : NextResponse :=
  {| status := 500;
     body :=
       JObject (object_literal
         [("error",
           Some (JString
                   match error with
                   | ErrorObject name message _ =>
                       if String.eqb name "AbortError"
                       then "Request timed out after 30 seconds"
                       else "Error: " ++ message
                   | OtherObject _ _ => "Internal server error"
                   end));
          ("details",
           match error with
           | ErrorObject _ _ stack => json_of_opt_string stack
           | OtherObject text _ => Some (JString text)
           end)]) |}.

(** Which form of the multi-kind page is submitted. *)
Inductive Kind : Type := Verification | Emotion | Age | Gender.

(** The submit handler of each form. *)
Definition AnalysisPage_submit (P : Platform) (k : Kind) (c : AnalysisPage.State)
  : Async AnalysisPage.State unit :=
  match k with
  | Verification => AnalysisPage.handleVerificationSubmit P c
  | Emotion => AnalysisPage.handleEmotionSubmit P c
  | Age => AnalysisPage.handleAgeSubmit P c
  | Gender => AnalysisPage.handleGenderSubmit P c
  end.

Definition present {A : Type} (v : option A) : bool :=
  match v with
  | Some _ => true
  | None => false
  end.

(** The images a form requires are selected. *)
Definition AnalysisPage_has_images (k : Kind) (c : AnalysisPage.State) : bool :=
  match k with
  | Verification => present (AnalysisPage.image1 c) && present (AnalysisPage.image2 c)
  | Emotion => present (AnalysisPage.emotionImage c)
  | Age => present (AnalysisPage.ageImage c)
  | Gender => present (AnalysisPage.genderImage c)
  end.

(** The validation message of a form of the multi-kind page: the key is
    looked at first. *)
Definition AnalysisPage_validation_message (k : Kind) (c : AnalysisPage.State) : string :=
  if negb (truthy_string (AnalysisPage.apiKey c)) then "API key is required"
  else match k with
       | Verification => "Both images are required"
       | _ => "Image is required"
       end.

(** The success payload of the verification scenario:
    [{ verified: true, similarity_score: 0.93, message: "Match" }]. *)
Definition match_payload : json :=
  JObject
    [("verified", JBool true);
     ("similarity_score", JNumber (number_of_decimal false 93 (-2)));
     ("message", JString "Match")].

(** ** Sample data *)

Definition sample_file : File :=
  {| file_name := "face.jpg"; file_type := "image/jpeg"; file_size := 3%N;
     file_bytes := [Byte.x4d; Byte.x61; Byte.x6e] |}.

(** What the reader loads for [sample_file]. *)
Definition sample_url : string :=
  data_url "image/jpeg" (base64 (file_bytes sample_file)).

Definition large_file : File :=
  {| file_name := "large.png"; file_type := "image/png";
     file_size := (5 * 1024 * 1024 + 1)%N; file_bytes := [] |}.

Definition sample_verify_request : NextRequest :=
  {| req_headers := [("x-api-key", "secret-key")];
     req_formData := inr [("img1", EntryFile sample_file); ("img2", EntryFile sample_file)] |}.

Definition sample_age_request : NextRequest :=
  {| req_headers := [("x-api-key", "secret-key")];
     req_formData := inr [("image", EntryFile sample_file)] |}.

(** A request with a key and an empty form. *)
Definition imageless_request : NextRequest :=
  {| req_headers := [("x-api-key", "secret-key")]; req_formData := inr [] |}.

(** A request with neither a key nor a body that reads as form data. *)
Definition bodiless_request : NextRequest :=
  {| req_headers := [];
     req_formData :=
       inl (ErrorObject "TypeError" "Content-Type was not multipart/form-data" None) |}.

(** The far end answering after [d] milliseconds with [st] and [text]. *)
Definition upstream_answering (d st : N) (text : string) : Upstream :=
  {| up_head := Head d st; up_body := BodyText text; up_timer_first := false;
     up_abort_stack := None |}.

(** The far end never answering. *)
Definition silent_upstream : Upstream :=
  {| up_head := NoHead; up_body := NoBody; up_timer_first := false;
     up_abort_stack := None |}.

(** The text of the success payload. *)
Definition match_text : string :=
  quoted "{ 'verified': true, 'similarity_score': 0.93, 'message': 'Match' }".

(** The verification-only page with a key and two images selected. *)
Definition filled_verification_page : VerificationPage.State :=
  VerificationPage.with_apiKey "secret-key"
    (VerificationPage.with_image1 (Some sample_file)
       (VerificationPage.with_image2 (Some sample_file)
          VerificationPage.initial_state)).

(** The multi-kind page, on its verification tab, with a key and two images
    selected. *)
Definition filled_analysis_page : AnalysisPage.State :=
  AnalysisPage.with_apiKey "secret-key"
    (AnalysisPage.with_image1 (Some sample_file)
       (AnalysisPage.with_image2 (Some sample_file)
          AnalysisPage.initial_state)).

(** ** Refs, reset handlers and controls of the pages *)

(** The world of a component seen through [f]. *)
Definition map_ui {A B : Type} (f : A -> B) (w : World A) : World B :=
  {| ui := f (ui w); localStorage := localStorage w; network := network w;
     timers := timers w; next_id := next_id w; aborted := aborted w;
     calls := calls w; focus_count := focus_count w |}.

(** A computation on the state variables [S], run in a component that also
    holds the refs [R]: the refs stay as they are. *)
Definition on_state {S R A : Type} (c : Async S A) : Async (S * R) A :=
  fun w =>
    let '(result, w') := c (map_ui fst w) in
    (result, map_ui (fun s => (s, snd (ui w))) w').

(** The refs of a component, changed by [f]. *)
Definition on_refs {S R : Type} (f : R -> R) : Async (S * R) unit :=
  modify (fun w => set_ui (fst (ui w), f (snd (ui w))) w).

(** [if (ref.current) ref.current.value = ""] on what a ref to a file
    input holds: the [value] of the element, [None] while [ref.current] is
    [null]. *)
Definition clear_value (current : option string) : option string :=
  match current with
  | Some _ => Some EmptyString
  | None => None
  end.

(** The row of the key: the "Saved" mark with its Edit button, the input,
    the Save Key button ([Some disabled] when it is there) and the Remove
    button. *)
Record ApiKeyInputView : Type := mkApiKeyInputView {
  saved_mark : bool;
  input_value : string;
  input_disabled : bool;
  save_button : option bool;
  remove_button : bool
}.

Definition render_ApiKeyInput (apiKey : string) (isApiKeySaved isEditingApiKey : bool)
  : ApiKeyInputView :=
  {| saved_mark := isApiKeySaved && negb isEditingApiKey;
     input_value := apiKey;
     input_disabled := isApiKeySaved && negb isEditingApiKey;
     save_button :=
       if isEditingApiKey then Some (negb (truthy_string (trim apiKey))) else None;
     remove_button := isApiKeySaved |}.

(** What [{errorDetails && (...)}] renders below the message of an error:
    nothing for details that are [null], [false] or the empty string; the
    number itself for details that are zero or NaN, which React prints; else
    the debug button with its label and, while the debug view is open, the
    dump of the details. *)
Inductive DebugArea : Type :=
  | NoDebug
  | PrintedNumber (text : string)
  | DebugButton (label : string) (dump : option json).

(** The alert of an error: its text and what is below it. *)
Record ErrorAlert : Type := mkErrorAlert {
  alert_text : string;
  alert_debug : DebugArea
}.

Definition render_ErrorDisplay (error : option string) (errorDetails : option json)
    (showDebug : bool) : option ErrorAlert :=
  match error with
  | Some message =>
      if truthy_string message then
        Some {| alert_text := message;
                alert_debug :=
                  match errorDetails with
                  | None => NoDebug
                  | Some details =>
                      if truthy details then
                        DebugButton ((if showDebug then "Hide" else "Show") ++ " Debug Info")
                          (if showDebug then Some details else None)
                      else
                        match details with
                        | JNumber (S754_zero _) => PrintedNumber "0"
                        | JNumber _ => PrintedNumber "NaN"
                        | _ => NoDebug
                        end
                  end |}
      else None
  | None => None
  end.

(** The buttons of a form: the label of the submit button, and whether it
    and the Reset button are disabled. *)
Record FormActionsView : Type := mkFormActionsView {
  submit_label : string;
  submit_disabled : bool;
  reset_disabled : bool
}.

(** The refs and the controls of the verification-only page: the reset
    handler, which writes to the file inputs and which [VerificationPage]
    leaves out, and what the page renders of the key row, of an error and of
    the buttons of the form. *)
Module VerificationPageDom.

Record Refs : Type := mkRefs {
  fileInput1Ref : option string;
  fileInput2Ref : option string
}.

Definition resetForm : Async (VerificationPage.State * Refs) unit :=
  on_state (VerificationPage.setImage1 None) ;;
  on_state (VerificationPage.setImage2 None) ;;
  on_state (VerificationPage.setImage1Preview None) ;;
  on_state (VerificationPage.setImage2Preview None) ;;
  on_state (VerificationPage.setResponse None) ;;
  on_state (VerificationPage.setError None) ;;
  on_state (VerificationPage.setErrorDetails None) ;;
  on_refs (fun r => mkRefs (clear_value (fileInput1Ref r)) (fileInput2Ref r)) ;;
  on_refs (fun r => mkRefs (fileInput1Ref r) (clear_value (fileInput2Ref r))).

Definition ApiKeyInput (s : VerificationPage.State) : ApiKeyInputView :=
  render_ApiKeyInput (VerificationPage.apiKey s) (VerificationPage.isApiKeySaved s)
    (VerificationPage.isEditingApiKey s).

Definition ErrorDisplay (s : VerificationPage.State) : option ErrorAlert :=
  render_ErrorDisplay (VerificationPage.error s) (VerificationPage.errorDetails s)
    (VerificationPage.showDebug s).

Definition FormActions (s : VerificationPage.State) : FormActionsView :=
  {| submit_label :=
       if VerificationPage.isLoading s then "Verifying..." else "Verify Faces";
     submit_disabled := VerificationPage.isLoading s;
     reset_disabled := VerificationPage.isLoading s |}.

End VerificationPageDom.

(** The refs and the controls of the multi-kind page: its four reset
    handlers and the components [ApiKeyInput], [ErrorDisplay] and
    [FormActions]. *)
Module AnalysisPageDom.

Record Refs : Type := mkRefs {
  fileInput1Ref : option string;
  fileInput2Ref : option string;
  emotionFileInputRef : option string;
  ageFileInputRef : option string;
  genderFileInputRef : option string
}.

Definition resetVerificationForm : Async (AnalysisPage.State * Refs) unit :=
  on_state (AnalysisPage.setImage1 None) ;;
  on_state (AnalysisPage.setImage2 None) ;;
  on_state (AnalysisPage.setImage1Preview None) ;;
  on_state (AnalysisPage.setImage2Preview None) ;;
  on_state (AnalysisPage.setVerificationResponse None) ;;
  on_state (AnalysisPage.setError None) ;;
  on_state (AnalysisPage.setErrorDetails None) ;;
  on_refs (fun r =>
    mkRefs (clear_value (fileInput1Ref r)) (fileInput2Ref r) (emotionFileInputRef r)
      (ageFileInputRef r) (genderFileInputRef r)) ;;
  on_refs (fun r =>
    mkRefs (fileInput1Ref r) (clear_value (fileInput2Ref r)) (emotionFileInputRef r)
      (ageFileInputRef r) (genderFileInputRef r)).

Definition resetEmotionForm : Async (AnalysisPage.State * Refs) unit :=
  on_state (AnalysisPage.setEmotionImage None) ;;
  on_state (AnalysisPage.setEmotionImagePreview None) ;;
  on_state (AnalysisPage.setEmotionResponse None) ;;
  on_state (AnalysisPage.setError None) ;;
  on_state (AnalysisPage.setErrorDetails None) ;;
  on_refs (fun r =>
    mkRefs (fileInput1Ref r) (fileInput2Ref r) (clear_value (emotionFileInputRef r))
      (ageFileInputRef r) (genderFileInputRef r)).

Definition resetAgeForm : Async (AnalysisPage.State * Refs) unit :=
  on_state (AnalysisPage.setAgeImage None) ;;
  on_state (AnalysisPage.setAgeImagePreview None) ;;
  on_state (AnalysisPage.setAgeResponse None) ;;
  on_state (AnalysisPage.setError None) ;;
  on_state (AnalysisPage.setErrorDetails None) ;;
  on_refs (fun r =>
    mkRefs (fileInput1Ref r) (fileInput2Ref r) (emotionFileInputRef r)
      (clear_value (ageFileInputRef r)) (genderFileInputRef r)).

Definition resetGenderForm : Async (AnalysisPage.State * Refs) unit :=
  on_state (AnalysisPage.setGenderImage None) ;;
  on_state (AnalysisPage.setGenderImagePreview None) ;;
  on_state (AnalysisPage.setGenderResponse None) ;;
  on_state (AnalysisPage.setError None) ;;
  on_state (AnalysisPage.setErrorDetails None) ;;
  on_refs (fun r =>
    mkRefs (fileInput1Ref r) (fileInput2Ref r) (emotionFileInputRef r)
      (ageFileInputRef r) (clear_value (genderFileInputRef r))).

Definition ApiKeyInput (s : AnalysisPage.State) : ApiKeyInputView :=
  render_ApiKeyInput (AnalysisPage.apiKey s) (AnalysisPage.isApiKeySaved s)
    (AnalysisPage.isEditingApiKey s).

Definition ErrorDisplay (s : AnalysisPage.State) : option ErrorAlert :=
  render_ErrorDisplay (AnalysisPage.error s) (AnalysisPage.errorDetails s)
    (AnalysisPage.showDebug s).

Definition FormActions (s : AnalysisPage.State) : FormActionsView :=
  {| submit_label := if AnalysisPage.isLoading s then "Processing..." else "Submit";
     submit_disabled := AnalysisPage.isLoading s;
     reset_disabled := AnalysisPage.isLoading s |}.

End AnalysisPageDom.

(** ** More vocabulary *)

(** The status of an answer of a route is one the handler writes out, or
    the status of the far end. *)
Definition proxy_status (net : Upstream) (st : N) : Prop :=
  st = 200%N \/ st = 400%N \/ st = 500%N \/ exists d, up_head net = Head d st.

(** The address each form of the multi-kind page posts to. *)
Definition AnalysisPage_url (P : Platform) (k : Kind) : string :=
  match k with
  | Verification => env_or P "FACE_API_URL" "https://face.simic.app/api/verify/"
  | Emotion => env_or P "EMOTION_API_URL" "https://face.simic.app/api/emotion/"
  | Age => env_or P "AGE_API_URL" "https://face.simic.app/api/age/"
  | Gender => env_or P "GENDER_API_URL" "https://face.simic.app/api/gender/"
  end.

(** The message each form shows for a failure that names no error. *)
Definition AnalysisPage_fallback (k : Kind) : string :=
  match k with
  | Verification => "Failed to verify faces"
  | Emotion => "Failed to detect emotion"
  | Age => "Failed to detect age"
  | Gender => "Failed to detect gender"
  end.

(** The response each form holds. *)
Definition AnalysisPage_response (k : Kind) (s : AnalysisPage.State) : option json :=
  match k with
  | Verification => AnalysisPage.verificationResponse s
  | Emotion => AnalysisPage.emotionResponse s
  | Age => AnalysisPage.ageResponse s
  | Gender => AnalysisPage.genderResponse s
  end.

(** The images each form has selected, under the names they are sent
    with. *)
Definition AnalysisPage_images (k : Kind) (s : AnalysisPage.State)
  : list (string * option File) :=
  match k with
  | Verification => [("img1", AnalysisPage.image1 s); ("img2", AnalysisPage.image2 s)]
  | Emotion => [("image", AnalysisPage.emotionImage s)]
  | Age => [("image", AnalysisPage.ageImage s)]
  | Gender => [("image", AnalysisPage.genderImage s)]
  end.

(** The previews each form shows. *)
Definition AnalysisPage_previews (k : Kind) (s : AnalysisPage.State)
  : list (option string) :=
  match k with
  | Verification => [AnalysisPage.image1Preview s; AnalysisPage.image2Preview s]
  | Emotion => [AnalysisPage.emotionImagePreview s]
  | Age => [AnalysisPage.ageImagePreview s]
  | Gender => [AnalysisPage.genderImagePreview s]
  end.

(** The reset handler of each form. *)
Definition AnalysisPage_reset (k : Kind)
  : Async (AnalysisPage.State * AnalysisPageDom.Refs) unit :=
  match k with
  | Verification => AnalysisPageDom.resetVerificationForm
  | Emotion => AnalysisPageDom.resetEmotionForm
  | Age => AnalysisPageDom.resetAgeForm
  | Gender => AnalysisPageDom.resetGenderForm
  end.

(** The members of the body a form sends when every image it needs is
    selected and loads: each image under its name, as the text after the
    first comma of its data URL. *)
Fixpoint encoded_images (P : Platform) (images : list (string * option File))
  : option (list (string * option json)) :=
  match images with
  | [] => Some []
  | (name, Some file) :: rest =>
      match platform_readAsDataURL P file, encoded_images P rest with
      | Some url, Some members =>
          Some ((name, json_of_opt_string (nth_error (split comma url) 1)) :: members)
      | _, _ => None
      end
  | (_, None) :: _ => None
  end.

(** The call a form of the multi-kind page makes with those members. *)
Definition AnalysisPage_call (P : Platform) (k : Kind) (c : AnalysisPage.State)
    (members : list (string * option json)) : Outbound :=
  {| out_url := AnalysisPage_url P k;
     out_method := "POST";
     out_headers :=
       [("Content-Type", "application/json");
        ("X-API-KEY", AnalysisPage.apiKey c);
        ("X-Service-Code", "face")];
     out_body := JsonText (JObject (object_literal members));
     out_signal := None |}.

(** The message a page shows for what its [catch] receives. *)
Definition shown_message (err : Thrown) : string :=
  match err with
  | ErrorObject _ message _ => message
  | OtherObject _ stringified => stringified
  end.

(** The state of the multi-kind page with the response of one form
    replaced. *)
Definition AnalysisPage_with_response (k : Kind) (v : option json)
    (s : AnalysisPage.State) : AnalysisPage.State :=
  match k with
  | Verification => AnalysisPage.with_verificationResponse v s
  | Emotion => AnalysisPage.with_emotionResponse v s
  | Age => AnalysisPage.with_ageResponse v s
  | Gender => AnalysisPage.with_genderResponse v s
  end.

(** The call of a page is rejected with [e]: the network fails, reading
    the body fails, or the body is not a JSON text and [e] is the
    [SyntaxError] of [res.json()]. *)
Definition rejects_with (P : Platform) (net : Upstream) (e : Thrown) : Prop :=
  (exists d, up_head net = NetworkError d e)
  \/ (exists d st,
        up_head net = Head d st /\
        (up_body net = BodyError e
         \/ exists text,
              up_body net = BodyText text /\
              platform_JSON_parse P text = None /\
              e = platform_SyntaxError P text)).

(** The call the verification-only page makes. *)
Definition VerificationPage_call (P : Platform) (c : VerificationPage.State)
    (file1 file2 : File) : Outbound :=
  {| out_url := env_or P "FACE_API_URL" "https://face.simic.app/api/verify/";
     out_method := "POST";
     out_headers := [("X-API-KEY", VerificationPage.apiKey c); ("X-Service-Code", "face")];
     out_body := FormBody [("img1", file1); ("img2", file2)];
     out_signal := None |}.

(** The values of the file inputs of each form. *)
Definition AnalysisPage_inputs (k : Kind) (r : AnalysisPageDom.Refs)
  : list (option string) :=
  match k with
  | Verification => [AnalysisPageDom.fileInput1Ref r; AnalysisPageDom.fileInput2Ref r]
  | Emotion => [AnalysisPageDom.emotionFileInputRef r]
  | Age => [AnalysisPageDom.ageFileInputRef r]
  | Gender => [AnalysisPageDom.genderFileInputRef r]
  end.

(** ** More sample data *)

(** A file of exactly the largest size the multi-kind page takes. *)
Definition largest_file : File :=
  {| file_name := "limit.png"; file_type := "image/png";
     file_size := (5 * 1024 * 1024)%N; file_bytes := [Byte.x4d; Byte.x61] |}.

(** A platform whose reader fails on every file. *)
Definition failing_reader_platform : Platform :=
  {| platform_JSON_parse := JSON_parse;
     platform_readAsDataURL := fun _ => None;
     platform_SyntaxError := fun _ => ErrorObject "SyntaxError" "Unexpected token" None;
     platform_stack := fun name message => Some (name ++ ": " ++ message);
     platform_env := ∅;
     platform_Response_refuses :=
       fun st => ErrorObject "RangeError" ("status " ++ string_of_N st) None |}.

(** A request whose image fields hold text. *)
Definition text_field_request : NextRequest :=
  {| req_headers := [("x-api-key", "secret-key")];
     req_formData :=
       inr [("img1", EntryString "a"); ("img2", EntryString "b");
            ("image", EntryString "c")] |}.

(** The far end answering at once with a head and never sending the body. *)
Definition stalling_upstream : Upstream :=
  {| up_head := Head 120 200; up_body := NoBody; up_timer_first := false;
     up_abort_stack := None |}.

(** ** Tactics *)

(** Unfolds the operations of [Async], leaving the handler's own tests. *)
Ltac unfold_async :=
  unfold try_catch, try_finally, bind, Request_formData, fetch, Response_text,
    clearTimeout, setTimeout, new_AbortController, modify, aborted_before,
    at_abort, abort_error, abort_deadline, elapse, due, aborts, is_aborted, ok.

(** Splits on the innermost test that blocks the computation, until none is
    left. *)
Ltac split_paths :=
  repeat (cbn; rewrite ?N.eqb_refl;
          match goal with
          | |- context [match ?x with _ => _ end] =>
              lazymatch x with
              | context [match _ with _ => _ end] => fail
              | _ => destruct x eqn:?
              end
          end).

Ltac finish_path :=
  repeat (progress (cbn; rewrite ?N.eqb_refl));
  first
    [ reflexivity
    | exfalso;
      match goal with
      | H : _ = _ |- _ => rewrite ?orb_true_r in H; discriminate H
      end ].

(** Closes a path of a route handler whose goal speaks of the status of the
    answer or of the number of calls. *)
Ltac status_path :=
  repeat (progress (cbn; rewrite ?N.eqb_refl));
  first
    [ reflexivity
    | exact I
    | lia
    | unfold proxy_status; cbn; solve [ auto 6 | do 3 right; eexists; reflexivity ]
    | exfalso;
      match goal with
      | H : _ = _ |- _ => rewrite ?orb_true_r in H; discriminate H
      end ].

(** Closes a path of a submit handler whose goal speaks of the state it
    leaves. *)
Ltac settle_path :=
  repeat (progress (cbn; rewrite ?N.eqb_refl));
  first
    [ reflexivity
    | exact I
    | solve [ repeat split; auto ]
    | exfalso;
      match goal with
      | H : _ = _ |- _ => rewrite ?orb_true_r in H; discriminate H
      end ].

(** Reads off [encoded_images ... = Some members] which images are selected
    and what the reader loads for them. *)
Ltac invert_encoded H :=
  cbn in H;
  repeat match type of H with
         | context [match ?x with _ => _ end] =>
             lazymatch x with
             | context [match _ with _ => _ end] => fail
             | _ => destruct x eqn:?
             end; cbn in H
         end;
  try discriminate H; injection H as <-.

(** Unfolds the submit handlers of the pages. *)
Ltac unfold_submit :=
  unfold AnalysisPage_submit, AnalysisPage.handleVerificationSubmit,
    AnalysisPage.handleEmotionSubmit, AnalysisPage.handleAgeSubmit,
    AnalysisPage.handleGenderSubmit, AnalysisPage.fileToBase64,
    AnalysisPage.handleApiError, VerificationPage.handleSubmit,
    Response_json, read_property;
  unfold_async.

(** Runs a submit handler of the multi-kind page whose images are given by
    [Henc], the key being there by [Hkey]. *)
Ltac run_submit k Hkey Henc :=
  destruct k; invert_encoded Henc; unfold_submit; rewrite Hkey;
  repeat match goal with H : _ = Some _ |- _ => rewrite H end.

(* ===================================================================== *)
(** * Part II. Properties                                                 *)
(* ===================================================================== *)

Unset Implicit Arguments.

(** ** Strings *)

Lemma js_substring_length (n : nat) (s : string) :
  String.length (js_substring 0 n s) = Nat.min n (String.length s).
Proof.
  unfold js_substring. rewrite Nat.sub_0_r.
  revert s. induction n as [|n IH]; intros [|c r]; simpl; auto.
Qed.

Lemma js_substring_prefix (n : nat) (s : string) :
  String.prefix (js_substring 0 n s) s = true.
Proof.
  unfold js_substring. rewrite Nat.sub_0_r.
  revert s. induction n as [|n IH]; intros [|c r]; simpl; auto.
  destruct (ascii_dec c c); [apply IH | congruence].
Qed.

Lemma js_substring_short (n : nat) (s : string) :
  (String.length s <= n)%nat -> js_substring 0 n s = s.
Proof.
  unfold js_substring. rewrite Nat.sub_0_r.
  revert s. induction n as [|n IH]; intros [|c r]; simpl; intros H; auto.
  - lia.
  - f_equal. apply IH. lia.
Qed.

Lemma trimStart_all_whitespace (s : string) :
  all_whitespace s = true -> trimStart s = EmptyString.
Proof.
  induction s as [|c r IH]; simpl; [reflexivity|].
  destruct (is_js_whitespace c); simpl; [exact IH | discriminate].
Qed.

Lemma trimEnd_empty (s : string) :
  trimEnd s = EmptyString -> all_whitespace s = true.
Proof.
  induction s as [|c r IH]; simpl; [reflexivity|].
  destruct (trimEnd r) eqn:E; [|discriminate].
  destruct (is_js_whitespace c); [intros _; simpl; auto | discriminate].
Qed.

Lemma trimStart_whitespace_inv (s : string) :
  all_whitespace (trimStart s) = true -> all_whitespace s = true.
Proof.
  induction s as [|c r IH]; simpl; [reflexivity|].
  destruct (is_js_whitespace c) eqn:E; simpl.
  - exact IH.
  - rewrite E. discriminate.
Qed.

(** [s.trim()] is empty exactly when [s] is empty or holds only white
    space. *)
Lemma trim_empty_iff (s : string) :
  trim s = EmptyString <-> all_whitespace s = true.
Proof.
  unfold trim. split.
  - intros H. apply trimStart_whitespace_inv, trimEnd_empty, H.
  - intros H. rewrite (trimStart_all_whitespace _ H). reflexivity.
Qed.

Lemma truthy_trim (s : string) :
  truthy_string (trim s) = negb (all_whitespace s).
Proof.
  destruct (all_whitespace s) eqn:E.
  - apply trim_empty_iff in E. rewrite E. reflexivity.
  - destruct (trim s) eqn:T; [|reflexivity].
    apply trim_empty_iff in T. congruence.
Qed.

Lemma split_no_sep (c : ascii) (s : string) :
  occurs c s = false -> split c s = [s].
Proof.
  induction s as [|d r IH]; simpl; [reflexivity|].
  intros H. apply orb_false_iff in H as [Hd Hr].
  rewrite Hd, (IH Hr). reflexivity.
Qed.

Lemma append_nil (b : string) : EmptyString ++ b = b.
Proof. reflexivity. Qed.

Lemma append_cons (d : ascii) (a b : string) : String d a ++ b = String d (a ++ b).
Proof. reflexivity. Qed.

Lemma split_app (c : ascii) (a b : string) :
  occurs c a = false ->
  split c (a ++ String c b) = a :: split c b.
Proof.
  induction a as [|d r IH].
  - intros _. rewrite append_nil. simpl. rewrite Ascii.eqb_refl. reflexivity.
  - intros H. simpl in H. apply orb_false_iff in H as [Hd Hr].
    rewrite append_cons. simpl. rewrite Hd, (IH Hr). reflexivity.
Qed.

Lemma append_assoc (a b c : string) : (a ++ b) ++ c = a ++ (b ++ c).
Proof.
  induction a as [|d r IH]; [reflexivity|].
  rewrite !append_cons. f_equal. exact IH.
Qed.

Lemma occurs_app (c : ascii) (a b : string) :
  occurs c (a ++ b) = occurs c a || occurs c b.
Proof.
  induction a as [|d r IH]; [reflexivity|].
  rewrite append_cons. simpl. rewrite IH, orb_assoc. reflexivity.
Qed.

(** ** Base64 and data URLs *)

Lemma base64_char_not_comma (n : N) : Ascii.eqb (base64_char n) comma = false.
Proof.
  unfold base64_char.
  assert (H : Forall (fun c => Ascii.eqb c comma = false) base64_alphabet).
  { unfold base64_alphabet. simpl. repeat constructor. }
  destruct (Nat.lt_ge_cases (N.to_nat n) (length base64_alphabet)) as [Hlt|Hge].
  - rewrite Forall_forall in H. apply H, list_elem_of_In, nth_In. exact Hlt.
  - rewrite nth_overflow by exact Hge. reflexivity.
Qed.

Lemma base64_no_comma_aux (k : nat) (bytes : list Byte.byte) :
  (length bytes <= k)%nat -> occurs comma (base64 bytes) = false.
Proof.
  revert bytes. induction k as [|k IH]; intros bytes Hk.
  - destruct bytes; [reflexivity | simpl in Hk; lia].
  - destruct bytes as [|a [|b [|c rest]]]; [reflexivity| | |].
    + cbn [base64 occurs]. rewrite !base64_char_not_comma. reflexivity.
    + cbn [base64 occurs]. rewrite !base64_char_not_comma. reflexivity.
    + cbn [base64 occurs]. rewrite !base64_char_not_comma.
      simpl. apply IH. simpl in Hk. lia.
Qed.

(** The base64 alphabet has no comma. *)
Lemma base64_no_comma (bytes : list Byte.byte) :
  occurs comma (base64 bytes) = false.
Proof. apply (base64_no_comma_aux (length bytes)). lia. Qed.

(** Splitting a data URL whose media type has no comma gives the prefix and
    the payload. *)
Lemma split_data_url (mediatype : string) (bytes : list Byte.byte) :
  occurs comma mediatype = false ->
  nth_error (split comma (data_url mediatype (base64 bytes))) 1 = Some (base64 bytes).
Proof.
  intros H. unfold data_url.
  change ("data:" ++ mediatype ++ ";base64," ++ base64 bytes)
    with ("data:" ++ (mediatype ++ (";base64" ++ String comma (base64 bytes)))).
  rewrite <- !append_assoc.
  rewrite split_app.
  - rewrite (split_no_sep _ _ (base64_no_comma bytes)). reflexivity.
  - rewrite !occurs_app, H. reflexivity.
Qed.

(** ** Numbers and JSON texts *)

(** [0.93 * 100] is exactly 93 in binary64, and [toFixed(2)] prints it with
    two decimals. *)
Example similarity_percentage :
  toFixed 2 (number_mul (number_of_decimal false 93 (-2)) (number_of_Z 100))
  = Some "93.00".
Proof. vm_compute. reflexivity. Qed.

(** [toFixed] rounds the exact value of the number, ties upwards:
    [(2.5).toFixed(0)] is "3" and [(0.005).toFixed(2)] is "0.01", the
    binary64 value nearest to 0.005 lying above it. *)
Example toFixed_rounding :
  toFixed 0 (number_of_decimal false 25 (-1)) = Some "3"
  /\ toFixed 2 (number_of_decimal false 5 (-3)) = Some "0.01"
  /\ toFixed 2 (number_of_decimal true 1 (-3)) = Some "-0.00".
Proof. repeat split; vm_compute; reflexivity. Qed.

Example JSON_parse_refuses :
  JSON_parse EmptyString = None
  /\ JSON_parse "not json" = None
  /\ JSON_parse "01" = None
  /\ JSON_parse "[1,]" = None
  /\ JSON_parse (quoted "{'a': 1} x") = None.
Proof. repeat split; vm_compute; reflexivity. Qed.

Example JSON_parse_accepts :
  JSON_parse match_text = Some match_payload
  /\ JSON_parse " [true, null, -0] "
     = Some (JArray [JBool true; JNull; JNumber (S754_zero true)])
  /\ JSON_parse (quoted "{'a': 1, 'b': 'x', 'a': 2}")
     = Some (JObject [("a", JNumber (number_of_Z 2)); ("b", JString "x")]).
Proof. repeat split; vm_compute; reflexivity. Qed.

(** Zero, the empty string, [false] and [null] are falsy; every array and
    object is truthy. *)
Example truthy_values :
  truthy (JNumber (number_of_Z 0)) = false
  /\ truthy (JString EmptyString) = false
  /\ truthy (JArray []) = true
  /\ truthy (JObject []) = true.
Proof. repeat split. Qed.

(** ** Asynchronous computations *)

Lemma bind_ret {UI A B} (a : A) (k : A -> Async UI B) (w : World UI) :
  bind (ret a) k w = k a w.
Proof. reflexivity. Qed.

Lemma bind_throw {UI A B} (e : Thrown) (k : A -> Async UI B) (w : World UI) :
  bind (throw e) k w = throw e w.
Proof. reflexivity. Qed.

Lemma bind_assoc {UI A B C} (c : Async UI A) (k : A -> Async UI B)
    (h : B -> Async UI C) (w : World UI) :
  bind (bind c k) h w = bind c (fun a => bind (k a) h) w.
Proof. unfold bind. destruct (c w) as [[a|e|] w']; reflexivity. Qed.

Lemma try_catch_ret {UI A} (a : A) (handler : Thrown -> Async UI A) (w : World UI) :
  try_catch (ret a) handler w = ret a w.
Proof. reflexivity. Qed.

Lemma try_catch_throw {UI A} (e : Thrown) (handler : Thrown -> Async UI A)
    (w : World UI) :
  try_catch (throw e) handler w = handler e w.
Proof. reflexivity. Qed.

(** A cleared timer is gone, and clearing leaves the other timers alone. *)
Lemma clearTimeout_removes {UI} (id : N) (w : World UI) :
  Forall (fun t => timer_id t <> id) (timers (snd (clearTimeout id w))).
Proof.
  unfold clearTimeout, modify. cbn.
  induction (timers w) as [|t ts IH]; cbn; [constructor|].
  destruct (N.eqb_spec (timer_id t) id); cbn; [exact IH | constructor; assumption].
Qed.

(** ** Running the route handlers *)

(** While a handler is run symbolically, the comparisons of numbers and the
    helpers on strings and JSON values stay folded. *)
#[local] Arguments N.ltb : simpl never.
#[local] Arguments N.eqb : simpl never.
#[local] Arguments N.leb : simpl never.
#[local] Arguments N.sub : simpl never.
#[local] Arguments N.succ : simpl never.
#[local] Arguments N.min : simpl never.
#[local] Arguments N.div : simpl never.
#[local] Arguments N.mul : simpl never.
#[local] Arguments object_literal : simpl never.
#[local] Arguments json_of_opt_string : simpl never.
#[local] Arguments split : simpl never.
#[local] Arguments nth_error : simpl never.
#[local] Arguments js_substring : simpl never.
#[local] Arguments string_of_N : simpl never.
#[local] Arguments number_of_N : simpl never.
#[local] Arguments js_get : simpl never.
#[local] Arguments truthy : simpl never.
#[local] Arguments is_2xx : simpl never.
#[local] Arguments NextResponse_json : simpl never.
#[local] Arguments env_or : simpl never.
#[local] Arguments trim : simpl never.

Lemma NextResponse_json_400 {UI} P (b : json) :
  NextResponse_json (UI:=UI) P b (Some 400%N) = ret {| status := 400; body := serialised b |}.
Proof. reflexivity. Qed.

Lemma NextResponse_json_500 {UI} P (b : json) :
  NextResponse_json (UI:=UI) P b (Some 500%N) = ret {| status := 500; body := serialised b |}.
Proof. reflexivity. Qed.

Lemma NextResponse_json_200 {UI} P (b : json) :
  NextResponse_json (UI:=UI) P b None = ret {| status := 200; body := serialised b |}.
Proof. reflexivity. Qed.

(** What the outermost [catch] answers is written out as it is. *)
Lemma serialised_caught (error : Thrown) :
  serialised (body (caught error)) = body (caught error).
Proof.
  destruct error as [name message [stack|]|text dump]; reflexivity.
Qed.

(** A request that passes the checks of the verification route is answered
    from the outermost [catch] with the rejection of [fileToBase64]; the
    world is left as it was. *)
Lemma verify_reader_undefined P request fd k (w : World unit) :
  req_formData request = inr fd ->
  Headers_get (req_headers request) "X-API-KEY" = Some k ->
  truthy_string k = true ->
  truthy_entry (FormData_get fd "img1") && truthy_entry (FormData_get fd "img2") = true ->
  VerifyRoute.POST P request w = (Returned (caught (FileReader_is_not_defined P)), w).
Proof.
  intros Hfd Hk Ht Himg. apply andb_true_iff in Himg as [H1 H2].
  unfold VerifyRoute.POST, VerifyRoute.fileToBase64.
  rewrite ?NextResponse_json_400, ?NextResponse_json_500. unfold_async.
  rewrite Hfd, Hk. cbn. rewrite Ht, H1, H2. cbn.
  unfold FileReader_is_not_defined, platform_Error.
  destruct (platform_stack P "ReferenceError" "FileReader is not defined"); reflexivity.
Qed.

(** The same for the age route. *)
Lemma age_reader_undefined P request fd k (w : World unit) :
  req_formData request = inr fd ->
  Headers_get (req_headers request) "X-API-KEY" = Some k ->
  truthy_string k = true ->
  truthy_entry (FormData_get fd "image") = true ->
  AgeRoute.POST P request w = (Returned (caught (FileReader_is_not_defined P)), w).
Proof.
  intros Hfd Hk Ht Himg.
  unfold AgeRoute.POST, AgeRoute.fileToBase64.
  rewrite ?NextResponse_json_400, ?NextResponse_json_500. unfold_async.
  rewrite Hfd, Hk. cbn. rewrite Ht, Himg. cbn.
  unfold FileReader_is_not_defined, platform_Error.
  destruct (platform_stack P "ReferenceError" "FileReader is not defined"); reflexivity.
Qed.

(** Neither route touches the world: every path ends before the controller
    is made. *)
Lemma verify_world_unchanged P request (w : World unit) :
  snd (VerifyRoute.POST P request w) = w.
Proof.
  unfold VerifyRoute.POST, VerifyRoute.fileToBase64.
  rewrite ?NextResponse_json_400, ?NextResponse_json_500. unfold_async.
  split_paths; reflexivity.
Qed.

Lemma age_world_unchanged P request (w : World unit) :
  snd (AgeRoute.POST P request w) = w.
Proof.
  unfold AgeRoute.POST, AgeRoute.fileToBase64.
  rewrite ?NextResponse_json_400, ?NextResponse_json_500. unfold_async.
  split_paths; reflexivity.
Qed.

(** The answer to the rejection of [fileToBase64]. *)
Lemma caught_reader_undefined P :
  status (caught (FileReader_is_not_defined P)) = 500%N
  /\ js_get (body (caught (FileReader_is_not_defined P))) "error"
     = Some (JString "Error: FileReader is not defined")
  /\ js_get (body (caught (FileReader_is_not_defined P))) "details"
     = json_of_opt_string (platform_stack P "ReferenceError" "FileReader is not defined").
Proof.
  unfold FileReader_is_not_defined, platform_Error.
  destruct (platform_stack P "ReferenceError" "FileReader is not defined");
    repeat split.
Qed.

(** ** The proxy endpoint *)

(** C4, as the code has it.  For a request whose body reads as form data: if
    the X-API-KEY header is missing (or empty), either route answers 400 with
    the error "X-API-KEY is required"; if the key is there and a required
    image field is missing (or the empty string) - [img1] or [img2] for the
    verification route, [image] for the age route - it answers 400 with
    "Both images are required", respectively "Image is required".  In both
    cases the world is left as it was: no call is made, no timer is set. *)
Theorem missing_input_answers_400 P request fd (w : World unit) :
  req_formData request = inr fd ->
  let answer text :=
    {| status := 400; body := JObject [("error", JString text)] |} in
  let key := Headers_get (req_headers request) "X-API-KEY" in
  (truthy_opt_string key = false ->
     VerifyRoute.POST P request w = (Returned (answer "X-API-KEY is required"), w)
     /\ AgeRoute.POST P request w = (Returned (answer "X-API-KEY is required"), w))
  /\ (truthy_opt_string key = true ->
      truthy_entry (FormData_get fd "img1") && truthy_entry (FormData_get fd "img2")
        = false ->
      VerifyRoute.POST P request w = (Returned (answer "Both images are required"), w))
  /\ (truthy_opt_string key = true ->
      truthy_entry (FormData_get fd "image") = false ->
      AgeRoute.POST P request w = (Returned (answer "Image is required"), w)).
Proof.
  intros Hfd answer key. subst key.
  unfold VerifyRoute.POST, AgeRoute.POST.
  rewrite ?NextResponse_json_400. unfold_async. rewrite Hfd. cbn.
  destruct (Headers_get (req_headers request) "X-API-KEY") as [k|]; cbn.
  - destruct (truthy_string k); cbn.
    + split; [discriminate|]. split; intros _ H.
      * apply andb_false_iff in H.
        destruct (truthy_entry (FormData_get fd "img1")),
          (truthy_entry (FormData_get fd "img2")); cbn;
          solve [reflexivity | destruct H; discriminate].
      * rewrite H. reflexivity.
    + split; [intros _; split; reflexivity|]. split; discriminate.
  - split; [intros _; split; reflexivity|]. split; discriminate.
Qed.

Lemma missing_input_answers_400_witness :
  VerifyRoute.POST (reference_platform ∅) imageless_request (server_world silent_upstream)
    = (Returned
         {| status := 400;
            body := JObject [("error", JString "Both images are required")] |},
       server_world silent_upstream)
  /\ AgeRoute.POST (reference_platform ∅) imageless_request (server_world silent_upstream)
    = (Returned
         {| status := 400; body := JObject [("error", JString "Image is required")] |},
       server_world silent_upstream).
Proof.
  destruct (missing_input_answers_400 (reference_platform ∅) imageless_request []
              (server_world silent_upstream) eq_refl)
    as (_ & Hverify & Hage).
  split; [apply Hverify | apply Hage]; reflexivity.
Defined.

(** C4 fails for a request without the X-API-KEY header whose body does not
    read as form data: [request.formData()] is awaited before the header is
    looked at, and its failure is answered with the status 500. *)
Lemma unreadable_form_answers_500 :
  Headers_get (req_headers bodiless_request) "X-API-KEY" = None
  /\ AgeRoute.POST (reference_platform ∅) bodiless_request (server_world silent_upstream)
    = (Returned
         {| status := 500;
            body := JObject
                      [("error",
                        JString "Error: Content-Type was not multipart/form-data")] |},
       server_world silent_upstream)
  /\ VerifyRoute.POST (reference_platform ∅) bodiless_request
       (server_world silent_upstream)
    = (Returned
         {| status := 500;
            body := JObject
                      [("error",
                        JString "Error: Content-Type was not multipart/form-data")] |},
       server_world silent_upstream).
Proof. repeat split. Qed.

(** What [split(",")[1]] gives when the media type of the data URL holds a
    comma: the text between the first two commas, not the payload. *)
Lemma fileToBase64_media_type_with_comma :
  nth_error (split comma (data_url "image/jpeg,x" (base64 (file_bytes sample_file)))) 1
  = Some "x;base64".
Proof. reflexivity. Qed.

(** C6.  The routes do not come to relay a success.  While the far end
    stands ready to answer 200 with the text of the success payload, a text
    that does decode, a request with a key and image files is answered 500
    with the error "Error: FileReader is not defined": [fileToBase64] is
    rejected before the far end is called, so where C6 has the route return
    the payload with the status 200, the route returns neither. *)
Lemma upstream_success_never_relayed P :
  let net := upstream_answering 120 200 match_text in
  let answer := caught (FileReader_is_not_defined P) in
  VerifyRoute.POST P sample_verify_request (server_world net)
    = (Returned answer, server_world net)
  /\ AgeRoute.POST P sample_age_request (server_world net)
    = (Returned answer, server_world net)
  /\ status answer = 500%N
  /\ js_get (body answer) "error" = Some (JString "Error: FileReader is not defined")
  /\ JSON_parse match_text = Some match_payload
  /\ body answer <> match_payload.
Proof.
  intros net answer. subst net answer.
  destruct (caught_reader_undefined P) as (Hstatus & Herror & _).
  split; [exact (verify_reader_undefined P sample_verify_request _ _ _
                   eq_refl eq_refl eq_refl eq_refl)|].
  split; [exact (age_reader_undefined P sample_age_request _ _ _
                   eq_refl eq_refl eq_refl eq_refl)|].
  split; [exact Hstatus|]. split; [exact Herror|].
  split; [vm_compute; reflexivity|].
  intros Heq. rewrite Heq in Herror. discriminate Herror.
Qed.

(** C1.  The routes do not come to see a body that fails to decode.  While
    the far end stands ready to answer 200 with the body [not json], a
    request with a key and image files is answered 500 with the error
    "Error: FileReader is not defined" and, as details, the stack of that
    error: where C1 has the error "Failed to parse API response as JSON"
    and the raw body as details, the route has neither, and the far end is
    not called. *)
Lemma undecodable_body_never_seen P :
  let net := upstream_answering 120 200 "not json" in
  let answer := caught (FileReader_is_not_defined P) in
  VerifyRoute.POST P sample_verify_request (server_world net)
    = (Returned answer, server_world net)
  /\ AgeRoute.POST P sample_age_request (server_world net)
    = (Returned answer, server_world net)
  /\ status answer = 500%N
  /\ js_get (body answer) "error" = Some (JString "Error: FileReader is not defined")
  /\ js_get (body answer) "details"
     = json_of_opt_string (platform_stack P "ReferenceError" "FileReader is not defined")
  /\ JSON_parse "not json" = None.
Proof.
  intros net answer. subst net answer.
  destruct (caught_reader_undefined P) as (Hstatus & Herror & Hdetails).
  split; [exact (verify_reader_undefined P sample_verify_request _ _ _
                   eq_refl eq_refl eq_refl eq_refl)|].
  split; [exact (age_reader_undefined P sample_age_request _ _ _
                   eq_refl eq_refl eq_refl eq_refl)|].
  split; [exact Hstatus|]. split; [exact Herror|]. split; [exact Hdetails|].
  vm_compute; reflexivity.
Qed.

(** C3.  The routes do not come to relay a failure of the far end.  While
    the far end stands ready to answer 401 with a JSON object, a request
    with a key and image files is answered 500, not 401, with the error
    "Error: FileReader is not defined"; the answer has no [status] member,
    and the far end is not called. *)
Lemma upstream_failure_never_relayed P :
  let text := quoted "{'message': 'Invalid API key', 'code': 7}" in
  let net := upstream_answering 120 401 text in
  let answer := caught (FileReader_is_not_defined P) in
  VerifyRoute.POST P sample_verify_request (server_world net)
    = (Returned answer, server_world net)
  /\ AgeRoute.POST P sample_age_request (server_world net)
    = (Returned answer, server_world net)
  /\ status answer = 500%N
  /\ js_get (body answer) "error" = Some (JString "Error: FileReader is not defined")
  /\ js_get (body answer) "status" = None
  /\ JSON_parse text
     = Some (JObject [("message", JString "Invalid API key");
                      ("code", JNumber (number_of_Z 7))]).
Proof.
  intros text net answer. subst text net answer.
  destruct (caught_reader_undefined P) as (Hstatus & Herror & _).
  split; [exact (verify_reader_undefined P sample_verify_request _ _ _
                   eq_refl eq_refl eq_refl eq_refl)|].
  split; [exact (age_reader_undefined P sample_age_request _ _ _
                   eq_refl eq_refl eq_refl eq_refl)|].
  split; [exact Hstatus|]. split; [exact Herror|].
  split; [|vm_compute; reflexivity].
  unfold FileReader_is_not_defined, platform_Error.
  destruct (platform_stack P "ReferenceError" "FileReader is not defined"); reflexivity.
Qed.

(** C2.  The routes do not come to time a call.  With a far end that never
    answers, a request with a key and image files is answered at once, 500
    with the error "Error: FileReader is not defined" and not "Request timed
    out after 30 seconds": [fileToBase64] is rejected before the controller
    is made, so no timer is set, nothing is aborted and no call is made. *)
Lemma upstream_call_never_timed P :
  let answer := caught (FileReader_is_not_defined P) in
  let vrun := VerifyRoute.POST P sample_verify_request (server_world silent_upstream) in
  let arun := AgeRoute.POST P sample_age_request (server_world silent_upstream) in
  fst vrun = Returned answer
  /\ fst arun = Returned answer
  /\ status answer = 500%N
  /\ js_get (body answer) "error" = Some (JString "Error: FileReader is not defined")
  /\ timers (snd vrun) = [] /\ aborted (snd vrun) = [] /\ calls (snd vrun) = []
  /\ timers (snd arun) = [] /\ aborted (snd arun) = [] /\ calls (snd arun) = [].
Proof.
  intros answer vrun arun. subst answer vrun arun.
  destruct (caught_reader_undefined P) as (Hstatus & Herror & _).
  rewrite (verify_reader_undefined P sample_verify_request _ _ _
             eq_refl eq_refl eq_refl eq_refl).
  rewrite (age_reader_undefined P sample_age_request _ _ _
             eq_refl eq_refl eq_refl eq_refl).
  cbn [fst snd]. repeat split; assumption.
Qed.

(** C5.  The routes forward nothing.  Whatever the request and whatever the
    world, either route leaves the world as it found it: no call is made.
    A request with a key and image files, which C5 has forwarded in one
    POST, is answered 500 with the error "Error: FileReader is not
    defined": [new FileReader()] throws on the server, so no image is
    encoded. *)
Lemma accepted_request_never_forwarded P request (w : World unit) net :
  let answer := caught (FileReader_is_not_defined P) in
  snd (VerifyRoute.POST P request w) = w
  /\ snd (AgeRoute.POST P request w) = w
  /\ VerifyRoute.POST P sample_verify_request (server_world net)
    = (Returned answer, server_world net)
  /\ AgeRoute.POST P sample_age_request (server_world net)
    = (Returned answer, server_world net)
  /\ calls (snd (VerifyRoute.POST P sample_verify_request (server_world net))) = []
  /\ calls (snd (AgeRoute.POST P sample_age_request (server_world net))) = []
  /\ status answer = 500%N
  /\ js_get (body answer) "error" = Some (JString "Error: FileReader is not defined").
Proof.
  intros answer. subst answer.
  destruct (caught_reader_undefined P) as (Hstatus & Herror & _).
  split; [apply verify_world_unchanged|]. split; [apply age_world_unchanged|].
  split; [exact (verify_reader_undefined P sample_verify_request _ _ _
                   eq_refl eq_refl eq_refl eq_refl)|].
  split; [exact (age_reader_undefined P sample_age_request _ _ _
                   eq_refl eq_refl eq_refl eq_refl)|].
  rewrite verify_world_unchanged, age_world_unchanged.
  repeat split; assumption.
Qed.

(** ** The form controllers *)

(** C7.  A submission made while the API key is empty or a required image is
    not selected sets the validation message and does nothing else: the
    world after the handler is the world before it with [error] replaced, so
    no call is made and the result and the loading flag are as they were.
    The verification-only page says "All fields are required"; the forms of
    the multi-kind page say "API key is required" when the key is empty, else
    "Both images are required" or "Image is required". *)
Theorem invalid_submission_stays_local
    P (c : VerificationPage.State) (w : World VerificationPage.State)
    (k : Kind) (m : AnalysisPage.State) (wm : World AnalysisPage.State) :
  truthy_string (VerificationPage.apiKey c)
    && present (VerificationPage.image1 c) && present (VerificationPage.image2 c)
    = false ->
  truthy_string (AnalysisPage.apiKey m) && AnalysisPage_has_images k m = false ->
  VerificationPage.handleSubmit P c w
    = (Returned tt,
       set_ui (VerificationPage.with_error (Some "All fields are required") (ui w)) w)
  /\ AnalysisPage_submit P k m wm
    = (Returned tt,
       set_ui (AnalysisPage.with_error
                 (Some (AnalysisPage_validation_message k m)) (ui wm)) wm).
Proof.
  intros Hc Hm. split.
  - unfold VerificationPage.handleSubmit.
    destruct (VerificationPage.image1 c), (VerificationPage.image2 c),
      (truthy_string (VerificationPage.apiKey c)); try discriminate Hc; reflexivity.
  - unfold AnalysisPage_validation_message.
    destruct (truthy_string (AnalysisPage.apiKey m)) eqn:Hkey; simpl in Hm.
    + destruct k; simpl in Hm |- *;
        unfold AnalysisPage.handleVerificationSubmit, AnalysisPage.handleEmotionSubmit,
          AnalysisPage.handleAgeSubmit, AnalysisPage.handleGenderSubmit;
        rewrite Hkey; simpl.
      * destruct (AnalysisPage.image1 m), (AnalysisPage.image2 m);
          try discriminate Hm; reflexivity.
      * destruct (AnalysisPage.emotionImage m); try discriminate Hm; reflexivity.
      * destruct (AnalysisPage.ageImage m); try discriminate Hm; reflexivity.
      * destruct (AnalysisPage.genderImage m); try discriminate Hm; reflexivity.
    + destruct k; simpl;
        unfold AnalysisPage.handleVerificationSubmit, AnalysisPage.handleEmotionSubmit,
          AnalysisPage.handleAgeSubmit, AnalysisPage.handleGenderSubmit;
        rewrite Hkey; reflexivity.
Qed.

Lemma invalid_submission_stays_local_witness :
  VerificationPage.handleSubmit (reference_platform ∅) VerificationPage.initial_state
      (page_world VerificationPage.initial_state ∅ silent_upstream)
    = (Returned tt,
       page_world
         (VerificationPage.with_error (Some "All fields are required")
            VerificationPage.initial_state) ∅ silent_upstream)
  /\ AnalysisPage_submit (reference_platform ∅) Age
       (AnalysisPage.with_apiKey "secret-key" AnalysisPage.initial_state)
       (page_world (AnalysisPage.with_apiKey "secret-key" AnalysisPage.initial_state)
          ∅ silent_upstream)
    = (Returned tt,
       page_world
         (AnalysisPage.with_error (Some "Image is required")
            (AnalysisPage.with_apiKey "secret-key" AnalysisPage.initial_state))
         ∅ silent_upstream).
Proof.
  apply (invalid_submission_stays_local (reference_platform ∅)
           VerificationPage.initial_state
           (page_world VerificationPage.initial_state ∅ silent_upstream)
           Age
           (AnalysisPage.with_apiKey "secret-key" AnalysisPage.initial_state)
           (page_world (AnalysisPage.with_apiKey "secret-key" AnalysisPage.initial_state)
              ∅ silent_upstream));
    reflexivity.
Defined.

(** C8.  In the multi-kind page, a selected file of more than
    5 * 1024 * 1024 bytes is refused by the change handler of every slot: the
    message "Image size exceeds the maximum limit of 5MB" is set and nothing
    else changes - the image and the preview of the slot stay as they were,
    the reader is not started, and no call is made. *)
Theorem oversize_file_rejected P e file (w : World AnalysisPage.State) :
  first_file e = Some file ->
  (5 * 1024 * 1024 < file_size file)%N ->
  let refused :=
    (Returned tt,
     set_ui (AnalysisPage.with_error
               (Some "Image size exceeds the maximum limit of 5MB") (ui w)) w) in
  AnalysisPage.handleImage1Change P e w = refused
  /\ AnalysisPage.handleImage2Change P e w = refused
  /\ AnalysisPage.handleEmotionImageChange P e w = refused
  /\ AnalysisPage.handleAgeImageChange P e w = refused
  /\ AnalysisPage.handleGenderImageChange P e w = refused.
Proof.
  intros He Hsize refused.
  assert (Hbig : (AnalysisPage.MAX_IMAGE_SIZE <? file_size file)%N = true)
    by (apply N.ltb_lt; exact Hsize).
  unfold AnalysisPage.handleImage1Change, AnalysisPage.handleImage2Change,
    AnalysisPage.handleEmotionImageChange, AnalysisPage.handleAgeImageChange,
    AnalysisPage.handleGenderImageChange, AnalysisPage.validateImageSize.
  rewrite He, Hbig. repeat split.
Qed.

Lemma oversize_file_rejected_witness :
  AnalysisPage.handleImage1Change (reference_platform ∅)
      (mkChangeEvent (Some [large_file]))
      (page_world filled_analysis_page ∅ silent_upstream)
    = (Returned tt,
       page_world
         (AnalysisPage.with_error (Some "Image size exceeds the maximum limit of 5MB")
            filled_analysis_page) ∅ silent_upstream).
Proof.
  apply (oversize_file_rejected (reference_platform ∅)
           (mkChangeEvent (Some [large_file])) large_file
           (page_world filled_analysis_page ∅ silent_upstream));
    reflexivity.
Defined.

(** C10.  Saving while the key input is empty or holds only white space does
    nothing, on either page: the world after [saveApiKey] is the world
    before it, so nothing is written to local storage and [isApiKeySaved] and
    [isEditingApiKey] keep their values. *)
Theorem blank_key_save_is_noop
    (c : VerificationPage.State) (w : World VerificationPage.State)
    (m : AnalysisPage.State) (wm : World AnalysisPage.State) :
  all_whitespace (VerificationPage.apiKey c) = true ->
  all_whitespace (AnalysisPage.apiKey m) = true ->
  VerificationPage.saveApiKey c w = (Returned tt, w)
  /\ AnalysisPage.saveApiKey m wm = (Returned tt, wm).
Proof.
  intros Hc Hm.
  unfold VerificationPage.saveApiKey, AnalysisPage.saveApiKey.
  rewrite !truthy_trim, Hc, Hm. split; reflexivity.
Qed.

Lemma blank_key_save_is_noop_witness :
  VerificationPage.saveApiKey
      (VerificationPage.with_apiKey "   " VerificationPage.initial_state)
      (page_world (VerificationPage.with_apiKey "   " VerificationPage.initial_state)
         ∅ silent_upstream)
    = (Returned tt,
       page_world (VerificationPage.with_apiKey "   " VerificationPage.initial_state)
         ∅ silent_upstream)
  /\ AnalysisPage.saveApiKey AnalysisPage.initial_state
       (page_world AnalysisPage.initial_state ∅ silent_upstream)
    = (Returned tt, page_world AnalysisPage.initial_state ∅ silent_upstream).
Proof.
  apply (blank_key_save_is_noop
           (VerificationPage.with_apiKey "   " VerificationPage.initial_state)
           (page_world (VerificationPage.with_apiKey "   " VerificationPage.initial_state)
              ∅ silent_upstream)
           AnalysisPage.initial_state
           (page_world AnalysisPage.initial_state ∅ silent_upstream));
    reflexivity.
Defined.

(** A key that is not blank is stored, and the page leaves its editing
    state. *)
Lemma saveApiKey_stores (c : VerificationPage.State) (w : World VerificationPage.State) :
  all_whitespace (VerificationPage.apiKey c) = false ->
  let w' := snd (VerificationPage.saveApiKey c w) in
  localStorage w' !! VerificationPage.API_KEY_STORAGE_KEY = Some (VerificationPage.apiKey c)
  /\ VerificationPage.isApiKeySaved (ui w') = true
  /\ VerificationPage.isEditingApiKey (ui w') = false.
Proof.
  intros Hc. unfold VerificationPage.saveApiKey. rewrite truthy_trim, Hc. cbn.
  split; [apply lookup_insert_eq | split; reflexivity].
Qed.

(** C9, as the code has it.  When a verification submission is answered with
    a success status and the payload
    [{ verified: true, similarity_score: 0.93, message: "Match" }], the
    verification-only page shows the verdict "Match Found", the message, the
    similarity as "Similarity Score: 93.00%" and the dump of the response;
    the multi-kind page shows the dump of the response only, under its
    heading, with no verdict and no percentage. *)
Theorem verification_success_rendering
    P (c : VerificationPage.State) (m : AnalysisPage.State)
    image1 image2 file1 file2 url1 url2 storage net d st text :
  truthy_string (VerificationPage.apiKey c) = true ->
  VerificationPage.image1 c = Some image1 ->
  VerificationPage.image2 c = Some image2 ->
  truthy_string (AnalysisPage.apiKey m) = true ->
  AnalysisPage.image1 m = Some file1 ->
  AnalysisPage.image2 m = Some file2 ->
  platform_readAsDataURL P file1 = Some url1 ->
  platform_readAsDataURL P file2 = Some url2 ->
  AnalysisPage.activeTab m = "verification" ->
  up_head net = Head d st ->
  up_body net = BodyText text ->
  is_2xx st = true ->
  platform_JSON_parse P text = Some match_payload ->
  VerificationPage.render_result
      (ui (snd (VerificationPage.handleSubmit P c (page_world c storage net))))
    = Some [AlertTitle "Match Found";
            Paragraph "Match";
            Paragraph "Similarity Score: 93.00%";
            Paragraph "API Response:";
            Pre match_payload]
  /\ AnalysisPage.render_result
       (ui (snd (AnalysisPage.handleVerificationSubmit P m (page_world m storage net))))
    = Some [Paragraph "API Response:"; Pre match_payload].
Proof.
  intros Hkey H1 H2 Hmkey F1 F2 R1 R2 Htab Hh Hb Hok Hparse.
  destruct net as [h b first stack]. simpl in Hh, Hb. subst h b. split.
  - unfold VerificationPage.handleSubmit, Response_json. unfold_async.
    rewrite H1, H2, Hkey.
    repeat (progress (cbn; rewrite ?Hparse, ?Hok)).
    reflexivity.
  - unfold AnalysisPage.handleVerificationSubmit, AnalysisPage.fileToBase64,
      Response_json. unfold_async.
    rewrite Hmkey, F1, F2.
    repeat (progress (cbn; rewrite ?R1, ?R2, ?Hparse, ?Hok)).
    unfold AnalysisPage.render_result. cbn. rewrite Htab. reflexivity.
Qed.

Lemma verification_success_rendering_witness :
  VerificationPage.render_result
      (ui (snd (VerificationPage.handleSubmit (reference_platform ∅)
                  filled_verification_page
                  (page_world filled_verification_page ∅
                     (upstream_answering 120 200 match_text)))))
    = Some [AlertTitle "Match Found";
            Paragraph "Match";
            Paragraph "Similarity Score: 93.00%";
            Paragraph "API Response:";
            Pre match_payload].
Proof.
  apply (verification_success_rendering (reference_platform ∅)
           filled_verification_page filled_analysis_page
           sample_file sample_file sample_file sample_file sample_url sample_url
           ∅ (upstream_answering 120 200 match_text) 120 200 match_text);
    reflexivity.
Defined.

(** C9 fails on the multi-kind page: after the same answer its verification
    tab shows the heading and the dump, and neither "Match Found" nor
    "93.00%". *)
Lemma multi_kind_page_shows_no_verdict :
  JSON_parse match_text = Some match_payload
  /\ AnalysisPage.render_result
       (ui (snd (AnalysisPage.handleVerificationSubmit (reference_platform ∅)
                   filled_analysis_page
                   (page_world filled_analysis_page ∅
                      (upstream_answering 120 200 match_text)))))
    = Some [Paragraph "API Response:"; Pre match_payload].
Proof. split; vm_compute; reflexivity. Qed.

(** ** Further properties of the proxy endpoint *)

(** X1.  Whatever the request and whatever the far end does, either route
    ends by answering or never ends; it never throws.  The status of an
    answer is 200, 400, 500 or the status the far end sent.  The route ends
    without an answer only when the body of the far end's answer never
    arrives.  At most one call is made. *)
Theorem proxy_always_answers P request net :
  let vrun := VerifyRoute.POST P request (server_world net) in
  let arun := AgeRoute.POST P request (server_world net) in
  match fst vrun with
  | Returned r => proxy_status net (status r)
  | Threw _ => False
  | Pending => up_body net = NoBody
  end
  /\ match fst arun with
     | Returned r => proxy_status net (status r)
     | Threw _ => False
     | Pending => up_body net = NoBody
     end
  /\ (length (calls (snd vrun)) <= 1)%nat
  /\ (length (calls (snd arun)) <= 1)%nat.
Proof.
  intros vrun arun. subst vrun arun.
  destruct net as [h b first stack].
  repeat split.
  - unfold VerifyRoute.POST, VerifyRoute.fileToBase64.
    rewrite ?NextResponse_json_400, ?NextResponse_json_500. unfold_async.
    unfold NextResponse_json. split_paths; status_path.
  - unfold AgeRoute.POST, AgeRoute.fileToBase64.
    rewrite ?NextResponse_json_400, ?NextResponse_json_500. unfold_async.
    unfold NextResponse_json. split_paths; status_path.
  - unfold VerifyRoute.POST, VerifyRoute.fileToBase64.
    rewrite ?NextResponse_json_400, ?NextResponse_json_500. unfold_async.
    unfold NextResponse_json. split_paths; status_path.
  - unfold AgeRoute.POST, AgeRoute.fileToBase64.
    rewrite ?NextResponse_json_400, ?NextResponse_json_500. unfold_async.
    unfold NextResponse_json. split_paths; status_path.
Qed.

(** X4.  A request that has a key and a value in each image field its route
    requires is answered 500 by the route, with the error "Error: FileReader
    is not defined" and, as details, the stack of that [ReferenceError] when
    it has one: [new FileReader()] throws on the server whatever the field
    holds, a file or a text.  The world is left as it was: no image is read,
    no timer is set and the far end is not called. *)
Theorem images_are_never_read P request fd k (w : World unit) :
  req_formData request = inr fd ->
  Headers_get (req_headers request) "X-API-KEY" = Some k ->
  truthy_string k = true ->
  let answer := caught (FileReader_is_not_defined P) in
  (truthy_entry (FormData_get fd "img1") && truthy_entry (FormData_get fd "img2") = true ->
   VerifyRoute.POST P request w = (Returned answer, w))
  /\ (truthy_entry (FormData_get fd "image") = true ->
      AgeRoute.POST P request w = (Returned answer, w))
  /\ status answer = 500%N
  /\ js_get (body answer) "error" = Some (JString "Error: FileReader is not defined")
  /\ js_get (body answer) "details"
     = json_of_opt_string (platform_stack P "ReferenceError" "FileReader is not defined").
Proof.
  intros Hfd Hk Ht answer. subst answer.
  split; [intros Himg; exact (verify_reader_undefined P request fd k w Hfd Hk Ht Himg)|].
  split; [intros Himg; exact (age_reader_undefined P request fd k w Hfd Hk Ht Himg)|].
  apply caught_reader_undefined.
Qed.

Lemma images_are_never_read_witness :
  let answer :=
    {| status := 500;
       body := JObject [("error", JString "Error: FileReader is not defined");
                        ("details", JString "ReferenceError: FileReader is not defined")] |} in
  VerifyRoute.POST (reference_platform ∅) text_field_request (server_world silent_upstream)
    = (Returned answer, server_world silent_upstream)
  /\ AgeRoute.POST (reference_platform ∅) text_field_request (server_world silent_upstream)
    = (Returned answer, server_world silent_upstream).
Proof.
  destruct (images_are_never_read (reference_platform ∅) text_field_request
              [("img1", EntryString "a"); ("img2", EntryString "b");
               ("image", EntryString "c")]
              "secret-key" (server_world silent_upstream) eq_refl eq_refl eq_refl)
    as (Hverify & Hage & _).
  split; [exact (Hverify eq_refl) | exact (Hage eq_refl)].
Defined.

(** ** Further properties of the form controllers *)

Lemma not_blank_truthy (s : string) : all_whitespace s = false -> truthy_string s = true.
Proof. destruct s; [discriminate | reflexivity]. Qed.

(** X9.  A key that is not blank is stored as it was typed, white space
    included, under the name "face-verification-api-key", which both pages
    use; a page that is loaded afterwards with that storage - either page,
    whichever one saved the key - starts with the key in its input and marked
    as saved, and not in its editing state. *)
Theorem saved_key_survives_reload
    (c : VerificationPage.State) (w : World VerificationPage.State)
    (m : AnalysisPage.State) (wm : World AnalysisPage.State) net :
  all_whitespace (VerificationPage.apiKey c) = false ->
  all_whitespace (AnalysisPage.apiKey m) = false ->
  let stored := localStorage (snd (VerificationPage.saveApiKey c w)) in
  let mstored := localStorage (snd (AnalysisPage.saveApiKey m wm)) in
  stored = <["face-verification-api-key" := VerificationPage.apiKey c]> (localStorage w)
  /\ mstored = <["face-verification-api-key" := AnalysisPage.apiKey m]> (localStorage wm)
  /\ ui (snd (VerificationPage.on_mount
                (page_world VerificationPage.initial_state stored net)))
     = VerificationPage.with_isApiKeySaved true
         (VerificationPage.with_apiKey (VerificationPage.apiKey c)
            VerificationPage.initial_state)
  /\ ui (snd (AnalysisPage.on_mount
                (page_world AnalysisPage.initial_state mstored net)))
     = AnalysisPage.with_isApiKeySaved true
         (AnalysisPage.with_apiKey (AnalysisPage.apiKey m) AnalysisPage.initial_state)
  /\ ui (snd (AnalysisPage.on_mount
                (page_world AnalysisPage.initial_state stored net)))
     = AnalysisPage.with_isApiKeySaved true
         (AnalysisPage.with_apiKey (VerificationPage.apiKey c)
            AnalysisPage.initial_state).
Proof.
  intros Hc Hm stored mstored. subst stored mstored.
  unfold VerificationPage.saveApiKey, AnalysisPage.saveApiKey.
  rewrite !truthy_trim, Hc, Hm.
  apply not_blank_truthy in Hc, Hm.
  unfold VerificationPage.on_mount, AnalysisPage.on_mount, localStorage_getItem, bind.
  cbn. unfold VerificationPage.API_KEY_STORAGE_KEY, AnalysisPage.API_KEY_STORAGE_KEY.
  rewrite !lookup_insert_eq. cbn. rewrite Hc, Hm.
  repeat split.
Qed.

Lemma saved_key_survives_reload_witness :
  ui (snd (AnalysisPage.on_mount
             (page_world AnalysisPage.initial_state
                (localStorage
                   (snd (VerificationPage.saveApiKey
                           (VerificationPage.with_apiKey " key " VerificationPage.initial_state)
                           (page_world
                              (VerificationPage.with_apiKey " key "
                                 VerificationPage.initial_state)
                              ∅ silent_upstream))))
                silent_upstream)))
  = AnalysisPage.with_isApiKeySaved true
      (AnalysisPage.with_apiKey " key " AnalysisPage.initial_state).
Proof.
  destruct (saved_key_survives_reload
              (VerificationPage.with_apiKey " key " VerificationPage.initial_state)
              (page_world (VerificationPage.with_apiKey " key "
                             VerificationPage.initial_state) ∅ silent_upstream)
              (AnalysisPage.with_apiKey "k" AnalysisPage.initial_state)
              (page_world AnalysisPage.initial_state ∅ silent_upstream)
              silent_upstream eq_refl eq_refl)
    as (_ & _ & _ & _ & Hcross).
  exact Hcross.
Defined.

(** X10.  The Save Key button tells what [saveApiKey] will do.  Where the
    button is shown and disabled, the handler leaves the world as it is;
    where it is shown and enabled, the handler stores the key, and the key
    row then shows the "Saved" mark, the input disabled with the key in it,
    the Remove button and no Save Key button; the button is not shown
    outside the editing state. *)
Theorem save_button_matches_handler
    (c : VerificationPage.State) (m : AnalysisPage.State) storage net :
  let saved_view key :=
    {| saved_mark := true; input_value := key; input_disabled := true;
       save_button := None; remove_button := true |} in
  match save_button (VerificationPageDom.ApiKeyInput c) with
  | Some true =>
      VerificationPage.saveApiKey c (page_world c storage net)
      = (Returned tt, page_world c storage net)
  | Some false =>
      let w' := snd (VerificationPage.saveApiKey c (page_world c storage net)) in
      localStorage w' !! "face-verification-api-key" = Some (VerificationPage.apiKey c)
      /\ VerificationPageDom.ApiKeyInput (ui w') = saved_view (VerificationPage.apiKey c)
  | None => VerificationPage.isEditingApiKey c = false
  end
  /\ match save_button (AnalysisPageDom.ApiKeyInput m) with
     | Some true =>
         AnalysisPage.saveApiKey m (page_world m storage net)
         = (Returned tt, page_world m storage net)
     | Some false =>
         let w' := snd (AnalysisPage.saveApiKey m (page_world m storage net)) in
         localStorage w' !! "face-verification-api-key" = Some (AnalysisPage.apiKey m)
         /\ AnalysisPageDom.ApiKeyInput (ui w') = saved_view (AnalysisPage.apiKey m)
     | None => AnalysisPage.isEditingApiKey m = false
     end.
Proof.
  intros saved_view. split.
  - unfold VerificationPageDom.ApiKeyInput, render_ApiKeyInput, VerificationPage.saveApiKey.
    cbn. destruct (VerificationPage.isEditingApiKey c); [|reflexivity].
    destruct (truthy_string (trim (VerificationPage.apiKey c))); cbn; [|reflexivity].
    split; [apply lookup_insert_eq | reflexivity].
  - unfold AnalysisPageDom.ApiKeyInput, render_ApiKeyInput, AnalysisPage.saveApiKey.
    cbn. destruct (AnalysisPage.isEditingApiKey m); [|reflexivity].
    destruct (truthy_string (trim (AnalysisPage.apiKey m))); cbn; [|reflexivity].
    split; [apply lookup_insert_eq | reflexivity].
Qed.

(** X11.  Removing the key deletes it from local storage and empties the
    input: the key row then shows an enabled, empty input, a Save Key button
    that is disabled, and neither the "Saved" mark nor the Remove button; a
    page loaded afterwards starts in its editing state with no key.  The
    input is given focus once, 100 milliseconds later and not before, and no
    timer is left. *)
Theorem removed_key_is_forgotten
    (s : VerificationPage.State) (m : AnalysisPage.State) storage net :
  let empty_view :=
    {| saved_mark := false; input_value := EmptyString; input_disabled := false;
       save_button := Some true; remove_button := false |} in
  let w' := snd (VerificationPage.removeApiKey (page_world s storage net)) in
  let wm' := snd (AnalysisPage.removeApiKey (page_world m storage net)) in
  localStorage w' = delete "face-verification-api-key" storage
  /\ localStorage wm' = delete "face-verification-api-key" storage
  /\ VerificationPageDom.ApiKeyInput (ui w') = empty_view
  /\ AnalysisPageDom.ApiKeyInput (ui wm') = empty_view
  /\ ui (snd (VerificationPage.on_mount
                (page_world VerificationPage.initial_state (localStorage w') net)))
     = VerificationPage.with_isEditingApiKey true VerificationPage.initial_state
  /\ ui (snd (AnalysisPage.on_mount
                (page_world AnalysisPage.initial_state (localStorage wm') net)))
     = AnalysisPage.with_isEditingApiKey true AnalysisPage.initial_state
  /\ focus_count (elapse 99 true w') = 0%N
  /\ focus_count (elapse 100 true w') = 1%N
  /\ timers (elapse 100 true w') = []
  /\ focus_count (elapse 99 true wm') = 0%N
  /\ focus_count (elapse 100 true wm') = 1%N
  /\ timers (elapse 100 true wm') = [].
Proof.
  intros empty_view w' wm'. subst empty_view w' wm'.
  unfold VerificationPage.on_mount, AnalysisPage.on_mount, localStorage_getItem, bind.
  cbn. unfold VerificationPage.API_KEY_STORAGE_KEY, AnalysisPage.API_KEY_STORAGE_KEY.
  rewrite !lookup_delete_eq. cbn.
  repeat split.
Qed.

(** X12.  Toggling the editing state twice, each time with the handler of
    the current render, gives back the state the page was in; local storage
    is not touched, and of the two toggles exactly one - the one that enters
    the editing state - schedules a focus of the input. *)
Theorem toggling_twice_restores
    (c : VerificationPage.State) (m : AnalysisPage.State) storage net :
  let w1 := snd (VerificationPage.toggleEditApiKey c (page_world c storage net)) in
  let w2 := snd (VerificationPage.toggleEditApiKey (ui w1) w1) in
  let wm1 := snd (AnalysisPage.toggleEditApiKey m (page_world m storage net)) in
  let wm2 := snd (AnalysisPage.toggleEditApiKey (ui wm1) wm1) in
  ui w2 = c /\ ui wm2 = m
  /\ localStorage w2 = storage /\ localStorage wm2 = storage
  /\ map timer_action (timers w2) = [FocusApiKeyInput]
  /\ map timer_action (timers wm2) = [FocusApiKeyInput]
  /\ (length (timers w1) = 1%nat <-> VerificationPage.isEditingApiKey c = false)
  /\ (length (timers wm1) = 1%nat <-> AnalysisPage.isEditingApiKey m = false).
Proof.
  intros w1 w2 wm1 wm2. subst w1 w2 wm1 wm2.
  destruct c as [k sv ed i1 i2 p1 p2 ld rs er dt dbg].
  destruct m as [tab k' sv' ed' a1 a2 q1 q2 vr ei ep er' ai ap ar gi gp gr ld' err dt' dbg'].
  destruct ed, ed'; cbn; repeat split; intros; discriminate.
Qed.

(** X13.  A file that is selected and that the reader loads is stored in
    the slot of the handler together with its preview, and nothing else
    changes (an earlier error message stays).  The verification-only page
    takes a file of any size; the multi-kind page takes every file of at most
    5 * 1024 * 1024 bytes, that size included. *)
Theorem selected_file_is_stored P e file url
    (w : World VerificationPage.State) (wm : World AnalysisPage.State) :
  first_file e = Some file ->
  platform_readAsDataURL P file = Some url ->
  (VerificationPage.handleImage1Change P e w
     = (Returned tt,
        set_ui (VerificationPage.with_image1Preview (Some url)
                  (VerificationPage.with_image1 (Some file) (ui w))) w)
   /\ VerificationPage.handleImage2Change P e w
     = (Returned tt,
        set_ui (VerificationPage.with_image2Preview (Some url)
                  (VerificationPage.with_image2 (Some file) (ui w))) w))
  /\ ((file_size file <= 5 * 1024 * 1024)%N ->
      AnalysisPage.handleImage1Change P e wm
        = (Returned tt,
           set_ui (AnalysisPage.with_image1Preview (Some url)
                     (AnalysisPage.with_image1 (Some file) (ui wm))) wm)
      /\ AnalysisPage.handleImage2Change P e wm
        = (Returned tt,
           set_ui (AnalysisPage.with_image2Preview (Some url)
                     (AnalysisPage.with_image2 (Some file) (ui wm))) wm)
      /\ AnalysisPage.handleEmotionImageChange P e wm
        = (Returned tt,
           set_ui (AnalysisPage.with_emotionImagePreview (Some url)
                     (AnalysisPage.with_emotionImage (Some file) (ui wm))) wm)
      /\ AnalysisPage.handleAgeImageChange P e wm
        = (Returned tt,
           set_ui (AnalysisPage.with_ageImagePreview (Some url)
                     (AnalysisPage.with_ageImage (Some file) (ui wm))) wm)
      /\ AnalysisPage.handleGenderImageChange P e wm
        = (Returned tt,
           set_ui (AnalysisPage.with_genderImagePreview (Some url)
                     (AnalysisPage.with_genderImage (Some file) (ui wm))) wm)).
Proof.
  intros He Hread. split.
  - unfold VerificationPage.handleImage1Change, VerificationPage.handleImage2Change.
    rewrite He, Hread. split; reflexivity.
  - intros Hsize.
    assert (Hfits : (AnalysisPage.MAX_IMAGE_SIZE <? file_size file)%N = false)
      by (apply N.ltb_ge; exact Hsize).
    unfold AnalysisPage.handleImage1Change, AnalysisPage.handleImage2Change,
      AnalysisPage.handleEmotionImageChange, AnalysisPage.handleAgeImageChange,
      AnalysisPage.handleGenderImageChange, AnalysisPage.validateImageSize.
    rewrite He, Hfits, Hread. repeat split.
Qed.

Lemma selected_file_is_stored_witness :
  VerificationPage.handleImage1Change (reference_platform ∅)
      (mkChangeEvent (Some [large_file]))
      (page_world VerificationPage.initial_state ∅ silent_upstream)
    = (Returned tt,
       page_world
         (VerificationPage.with_image1Preview (Some "data:image/png;base64,")
            (VerificationPage.with_image1 (Some large_file)
               VerificationPage.initial_state)) ∅ silent_upstream)
  /\ AnalysisPage.handleAgeImageChange (reference_platform ∅)
       (mkChangeEvent (Some [largest_file]))
       (page_world AnalysisPage.initial_state ∅ silent_upstream)
    = (Returned tt,
       page_world
         (AnalysisPage.with_ageImagePreview (Some "data:image/png;base64,TWE=")
            (AnalysisPage.with_ageImage (Some largest_file)
               AnalysisPage.initial_state)) ∅ silent_upstream).
Proof.
  split.
  - apply (selected_file_is_stored (reference_platform ∅)
             (mkChangeEvent (Some [large_file])) large_file "data:image/png;base64,"
             (page_world VerificationPage.initial_state ∅ silent_upstream)
             (page_world AnalysisPage.initial_state ∅ silent_upstream));
      reflexivity.
  - apply (selected_file_is_stored (reference_platform ∅)
             (mkChangeEvent (Some [largest_file])) largest_file
             "data:image/png;base64,TWE="
             (page_world VerificationPage.initial_state ∅ silent_upstream)
             (page_world AnalysisPage.initial_state ∅ silent_upstream));
      [reflexivity | reflexivity | vm_compute; discriminate].
Defined.

(** X14.  A change event that carries no file - the list is missing or
    empty, as when the file dialog is dismissed - changes nothing, in any
    slot of either page: the image and the preview selected before stay. *)
Theorem empty_selection_is_noop P e
    (w : World VerificationPage.State) (wm : World AnalysisPage.State) :
  first_file e = None ->
  VerificationPage.handleImage1Change P e w = (Returned tt, w)
  /\ VerificationPage.handleImage2Change P e w = (Returned tt, w)
  /\ AnalysisPage.handleImage1Change P e wm = (Returned tt, wm)
  /\ AnalysisPage.handleImage2Change P e wm = (Returned tt, wm)
  /\ AnalysisPage.handleEmotionImageChange P e wm = (Returned tt, wm)
  /\ AnalysisPage.handleAgeImageChange P e wm = (Returned tt, wm)
  /\ AnalysisPage.handleGenderImageChange P e wm = (Returned tt, wm).
Proof.
  intros He.
  unfold VerificationPage.handleImage1Change, VerificationPage.handleImage2Change,
    AnalysisPage.handleImage1Change, AnalysisPage.handleImage2Change,
    AnalysisPage.handleEmotionImageChange, AnalysisPage.handleAgeImageChange,
    AnalysisPage.handleGenderImageChange.
  rewrite He. repeat split.
Qed.

Lemma empty_selection_is_noop_witness :
  VerificationPage.handleImage1Change (reference_platform ∅) (mkChangeEvent (Some []))
      (page_world filled_verification_page ∅ silent_upstream)
    = (Returned tt, page_world filled_verification_page ∅ silent_upstream)
  /\ AnalysisPage.handleGenderImageChange (reference_platform ∅) (mkChangeEvent None)
       (page_world filled_analysis_page ∅ silent_upstream)
    = (Returned tt, page_world filled_analysis_page ∅ silent_upstream).
Proof.
  split.
  - apply (empty_selection_is_noop (reference_platform ∅) (mkChangeEvent (Some []))
             (page_world filled_verification_page ∅ silent_upstream)
             (page_world filled_analysis_page ∅ silent_upstream)).
    reflexivity.
  - apply (empty_selection_is_noop (reference_platform ∅) (mkChangeEvent None)
             (page_world filled_verification_page ∅ silent_upstream)
             (page_world filled_analysis_page ∅ silent_upstream)).
    reflexivity.
Defined.

(** ** Submissions that reach the network *)

(** A submission that passes validation makes one call, whatever the far
    end does. *)
Lemma handleSubmit_calls P (c : VerificationPage.State) file1 file2 storage net :
  truthy_string (VerificationPage.apiKey c) = true ->
  VerificationPage.image1 c = Some file1 ->
  VerificationPage.image2 c = Some file2 ->
  calls (snd (VerificationPage.handleSubmit P c (page_world c storage net)))
  = [VerificationPage_call P c file1 file2].
Proof.
  intros Hkey H1 H2. destruct net as [h b first stack].
  unfold_submit. rewrite H1, H2, Hkey. split_paths; finish_path.
Qed.

Lemma AnalysisPage_submit_calls P k (m : AnalysisPage.State) members storage net :
  truthy_string (AnalysisPage.apiKey m) = true ->
  encoded_images P (AnalysisPage_images k m) = Some members ->
  calls (snd (AnalysisPage_submit P k m (page_world m storage net)))
  = [AnalysisPage_call P k m members].
Proof.
  intros Hkey Henc. destruct net as [h b first stack].
  run_submit k Hkey Henc; split_paths; finish_path.
Qed.

(** The state a submission leaves when the far end answers with a failure
    status and a body that decodes to something other than [null]. *)
Lemma handleSubmit_failed
    P (c : VerificationPage.State) file1 file2 storage net d st text data :
  truthy_string (VerificationPage.apiKey c) = true ->
  VerificationPage.image1 c = Some file1 ->
  VerificationPage.image2 c = Some file2 ->
  up_head net = Head d st ->
  up_body net = BodyText text ->
  is_2xx st = false ->
  platform_JSON_parse P text = Some data ->
  data <> JNull ->
  VerificationPage.handleSubmit P c (page_world c storage net)
  = (Returned tt,
     set_calls [VerificationPage_call P c file1 file2]
       (page_world
          (VerificationPage.with_isLoading false
             (VerificationPage.with_error
                (Some match js_get data "error" with
                      | Some (JString s) => s
                      | _ => "Failed to verify faces"
                      end)
                (VerificationPage.with_errorDetails
                   (nullable (js_or (js_get data "details") data))
                   (VerificationPage.with_response None c))))
          storage net)).
Proof.
  intros Hkey H1 H2 Hh Hb Hok Hparse Hnull.
  destruct net as [h b first stack]. simpl in Hh, Hb. subst h b.
  unfold_submit. rewrite H1, H2, Hkey.
  repeat (progress (cbn; rewrite ?Hparse, ?Hok)).
  destruct data; try congruence; reflexivity.
Qed.

Lemma AnalysisPage_submit_failed
    P k (m : AnalysisPage.State) members storage net d st text data :
  truthy_string (AnalysisPage.apiKey m) = true ->
  encoded_images P (AnalysisPage_images k m) = Some members ->
  up_head net = Head d st ->
  up_body net = BodyText text ->
  is_2xx st = false ->
  platform_JSON_parse P text = Some data ->
  data <> JNull ->
  AnalysisPage_submit P k m (page_world m storage net)
  = (Returned tt,
     set_calls [AnalysisPage_call P k m members]
       (page_world
          (AnalysisPage.with_isLoading false
             (AnalysisPage.with_error
                (Some match js_get data "error" with
                      | Some (JString s) => s
                      | _ => AnalysisPage_fallback k
                      end)
                (AnalysisPage.with_errorDetails
                   (nullable (js_or (js_get data "details") data))
                   (AnalysisPage_with_response k None m))))
          storage net)).
Proof.
  intros Hkey Henc Hh Hb Hok Hparse Hnull.
  destruct net as [h b first stack]. simpl in Hh, Hb. subst h b.
  run_submit k Hkey Henc;
    repeat (progress (cbn; rewrite ?Hparse, ?Hok));
    destruct data; try congruence; reflexivity.
Qed.

(** X15.  A submission that passes validation makes exactly one call,
    whatever the far end does - nothing is retried.  The verification-only
    page posts the two files as form data, with the headers X-API-KEY and
    X-Service-Code and no Content-Type; each form of the multi-kind page
    posts to the address of its kind a JSON body that holds each image under
    its name, as the text after the first comma of its data URL, with the
    headers Content-Type, X-API-KEY and X-Service-Code.  The calls go to the
    analysis service itself, with the user's key, and carry no abort
    signal. *)
Theorem valid_submission_calls_once
    P (c : VerificationPage.State) file1 file2
    (k : Kind) (m : AnalysisPage.State) members storage net :
  truthy_string (VerificationPage.apiKey c) = true ->
  VerificationPage.image1 c = Some file1 ->
  VerificationPage.image2 c = Some file2 ->
  truthy_string (AnalysisPage.apiKey m) = true ->
  encoded_images P (AnalysisPage_images k m) = Some members ->
  calls (snd (VerificationPage.handleSubmit P c (page_world c storage net)))
    = [ {| out_url := env_or P "FACE_API_URL" "https://face.simic.app/api/verify/";
           out_method := "POST";
           out_headers :=
             [("X-API-KEY", VerificationPage.apiKey c); ("X-Service-Code", "face")];
           out_body := FormBody [("img1", file1); ("img2", file2)];
           out_signal := None |} ]
  /\ calls (snd (AnalysisPage_submit P k m (page_world m storage net)))
    = [ {| out_url := AnalysisPage_url P k;
           out_method := "POST";
           out_headers :=
             [("Content-Type", "application/json");
              ("X-API-KEY", AnalysisPage.apiKey m);
              ("X-Service-Code", "face")];
           out_body := JsonText (JObject (object_literal members));
           out_signal := None |} ].
Proof.
  intros Hkey H1 H2 Hmkey Henc. split.
  - apply (handleSubmit_calls P c file1 file2 storage net Hkey H1 H2).
  - apply (AnalysisPage_submit_calls P k m members storage net Hmkey Henc).
Qed.

Lemma valid_submission_calls_once_witness :
  calls (snd (VerificationPage.handleSubmit (reference_platform ∅)
                filled_verification_page
                (page_world filled_verification_page ∅ silent_upstream)))
    = [ {| out_url := "https://face.simic.app/api/verify/";
           out_method := "POST";
           out_headers := [("X-API-KEY", "secret-key"); ("X-Service-Code", "face")];
           out_body := FormBody [("img1", sample_file); ("img2", sample_file)];
           out_signal := None |} ]
  /\ calls (snd (AnalysisPage_submit (reference_platform ∅) Verification
                   filled_analysis_page
                   (page_world filled_analysis_page ∅ silent_upstream)))
    = [ {| out_url := "https://face.simic.app/api/verify/";
           out_method := "POST";
           out_headers :=
             [("Content-Type", "application/json");
              ("X-API-KEY", "secret-key");
              ("X-Service-Code", "face")];
           out_body :=
             JsonText (JObject [("img1", JString "TWFu"); ("img2", JString "TWFu")]);
           out_signal := None |} ].
Proof.
  exact (valid_submission_calls_once (reference_platform ∅)
           filled_verification_page sample_file sample_file
           Verification filled_analysis_page
           [("img1", Some (JString "TWFu")); ("img2", Some (JString "TWFu"))]
           ∅ silent_upstream eq_refl eq_refl eq_refl eq_refl eq_refl).
Defined.

(** X16.  When the far end answers a valid submission with a success status
    and a body that decodes as JSON, the page stores the decoded value as the
    response of the form that was submitted ([null] is stored as no
    response), clears the error and its details and the loading flag, and
    changes nothing else - on the multi-kind page the images and the
    responses of the other forms are as they were. *)
Theorem answered_submission_stores_response
    P (c : VerificationPage.State) file1 file2
    (k : Kind) (m : AnalysisPage.State) members storage net d st text data :
  truthy_string (VerificationPage.apiKey c) = true ->
  VerificationPage.image1 c = Some file1 ->
  VerificationPage.image2 c = Some file2 ->
  truthy_string (AnalysisPage.apiKey m) = true ->
  encoded_images P (AnalysisPage_images k m) = Some members ->
  up_head net = Head d st ->
  up_body net = BodyText text ->
  is_2xx st = true ->
  platform_JSON_parse P text = Some data ->
  VerificationPage.handleSubmit P c (page_world c storage net)
    = (Returned tt,
       set_calls [VerificationPage_call P c file1 file2]
         (page_world
            (VerificationPage.with_isLoading false
               (VerificationPage.with_response (nullable data)
                  (VerificationPage.with_errorDetails None
                     (VerificationPage.with_error None c))))
            storage net))
  /\ AnalysisPage_submit P k m (page_world m storage net)
    = (Returned tt,
       set_calls [AnalysisPage_call P k m members]
         (page_world
            (AnalysisPage.with_isLoading false
               (AnalysisPage_with_response k (nullable data)
                  (AnalysisPage.with_errorDetails None
                     (AnalysisPage.with_error None m))))
            storage net))
  /\ (forall k' v s,
        k' <> k ->
        AnalysisPage_response k' (AnalysisPage_with_response k v s)
        = AnalysisPage_response k' s
        /\ AnalysisPage_images k' (AnalysisPage_with_response k v s)
           = AnalysisPage_images k' s)
  /\ (forall v s, AnalysisPage_response k (AnalysisPage_with_response k v s) = v).
Proof.
  intros Hkey H1 H2 Hmkey Henc Hh Hb Hok Hparse.
  destruct net as [h b first stack]. simpl in Hh, Hb. subst h b.
  split; [|split; [|split]].
  - unfold_submit. rewrite H1, H2, Hkey.
    repeat (progress (cbn; rewrite ?Hparse, ?Hok)). reflexivity.
  - run_submit k Hmkey Henc;
      repeat (progress (cbn; rewrite ?Hparse, ?Hok));
      reflexivity.
  - intros k' v s Hk. destruct k, k'; try congruence; split; reflexivity.
  - intros v s. destruct k; reflexivity.
Qed.

Lemma answered_submission_stores_response_witness :
  AnalysisPage_submit (reference_platform ∅) Verification filled_analysis_page
    (page_world filled_analysis_page ∅ (upstream_answering 120 200 match_text))
  = (Returned tt,
     set_calls
       [AnalysisPage_call (reference_platform ∅) Verification filled_analysis_page
          [("img1", Some (JString "TWFu")); ("img2", Some (JString "TWFu"))]]
       (page_world
          (AnalysisPage.with_verificationResponse (Some match_payload)
             filled_analysis_page)
          ∅ (upstream_answering 120 200 match_text))).
Proof.
  destruct (answered_submission_stores_response (reference_platform ∅)
              filled_verification_page sample_file sample_file
              Verification filled_analysis_page
              [("img1", Some (JString "TWFu")); ("img2", Some (JString "TWFu"))]
              ∅ (upstream_answering 120 200 match_text) 120 200 match_text
              match_payload eq_refl eq_refl eq_refl eq_refl eq_refl eq_refl eq_refl
              eq_refl)
    as (_ & Hmulti & _).
  - vm_compute. reflexivity.
  - exact Hmulti.
Defined.

(** X17.  When the far end answers a valid submission with a failure status
    and a body that decodes to a value other than [null], the page shows as
    error the [error] member of the body when it is a string, and else the
    message of the form ("Failed to verify faces", "Failed to detect
    emotion", ...); it keeps as details the [details] member when it is
    truthy and else the whole body; the response of the form stays empty and
    the loading flag is cleared.  One call was made. *)
Theorem failed_submission_shows_error
    P (c : VerificationPage.State) file1 file2
    (k : Kind) (m : AnalysisPage.State) members storage net d st text data :
  truthy_string (VerificationPage.apiKey c) = true ->
  VerificationPage.image1 c = Some file1 ->
  VerificationPage.image2 c = Some file2 ->
  truthy_string (AnalysisPage.apiKey m) = true ->
  encoded_images P (AnalysisPage_images k m) = Some members ->
  up_head net = Head d st ->
  up_body net = BodyText text ->
  is_2xx st = false ->
  platform_JSON_parse P text = Some data ->
  data <> JNull ->
  let message fallback :=
    match js_get data "error" with
    | Some (JString s) => s
    | _ => fallback
    end in
  let details := nullable (js_or (js_get data "details") data) in
  VerificationPage.handleSubmit P c (page_world c storage net)
    = (Returned tt,
       set_calls [VerificationPage_call P c file1 file2]
         (page_world
            (VerificationPage.with_isLoading false
               (VerificationPage.with_error (Some (message "Failed to verify faces"))
                  (VerificationPage.with_errorDetails details
                     (VerificationPage.with_response None c))))
            storage net))
  /\ AnalysisPage_submit P k m (page_world m storage net)
    = (Returned tt,
       set_calls [AnalysisPage_call P k m members]
         (page_world
            (AnalysisPage.with_isLoading false
               (AnalysisPage.with_error (Some (message (AnalysisPage_fallback k)))
                  (AnalysisPage.with_errorDetails details
                     (AnalysisPage_with_response k None m))))
            storage net)).
Proof.
  intros Hkey H1 H2 Hmkey Henc Hh Hb Hok Hparse Hnull message details. split.
  - apply (handleSubmit_failed P c file1 file2 storage net d st text data); assumption.
  - apply (AnalysisPage_submit_failed P k m members storage net d st text data);
      assumption.
Qed.

Lemma failed_submission_shows_error_witness :
  ui (snd (VerificationPage.handleSubmit (reference_platform ∅) filled_verification_page
             (page_world filled_verification_page ∅
                (upstream_answering 120 401
                   (quoted "{'error': 'Invalid API key', 'status': 401}")))))
  = VerificationPage.with_error (Some "Invalid API key")
      (VerificationPage.with_errorDetails
         (Some (JObject [("error", JString "Invalid API key");
                         ("status", JNumber (number_of_Z 401))]))
         filled_verification_page).
Proof.
  assert (Hnull : JObject [("error", JString "Invalid API key");
                           ("status", JNumber (number_of_Z 401))] <> JNull)
    by discriminate.
  destruct (failed_submission_shows_error (reference_platform ∅)
              filled_verification_page sample_file sample_file
              Verification filled_analysis_page
              [("img1", Some (JString "TWFu")); ("img2", Some (JString "TWFu"))]
              ∅
              (upstream_answering 120 401
                 (quoted "{'error': 'Invalid API key', 'status': 401}"))
              120 401 (quoted "{'error': 'Invalid API key', 'status': 401}")
              (JObject [("error", JString "Invalid API key");
                        ("status", JNumber (number_of_Z 401))])
              eq_refl eq_refl eq_refl eq_refl eq_refl eq_refl eq_refl eq_refl eq_refl
              Hnull)
    as (Hsingle & _).
  rewrite Hsingle. reflexivity.
Defined.

(** X18.  When the call of a valid submission is rejected - the network
    fails, reading the body fails, or the body is not a JSON text, whatever
    the status - the page shows the message of what was thrown (for the body
    that is not JSON, the message of the [SyntaxError], not the status of
    the answer), keeps no details and no response, and clears the loading
    flag. *)
Theorem rejected_call_shows_message
    P (c : VerificationPage.State) file1 file2
    (k : Kind) (m : AnalysisPage.State) members storage net e :
  truthy_string (VerificationPage.apiKey c) = true ->
  VerificationPage.image1 c = Some file1 ->
  VerificationPage.image2 c = Some file2 ->
  truthy_string (AnalysisPage.apiKey m) = true ->
  encoded_images P (AnalysisPage_images k m) = Some members ->
  rejects_with P net e ->
  VerificationPage.handleSubmit P c (page_world c storage net)
    = (Returned tt,
       set_calls [VerificationPage_call P c file1 file2]
         (page_world
            (VerificationPage.with_isLoading false
               (VerificationPage.with_error (Some (shown_message e))
                  (VerificationPage.with_errorDetails None
                     (VerificationPage.with_response None c))))
            storage net))
  /\ AnalysisPage_submit P k m (page_world m storage net)
    = (Returned tt,
       set_calls [AnalysisPage_call P k m members]
         (page_world
            (AnalysisPage.with_isLoading false
               (AnalysisPage.with_error (Some (shown_message e))
                  (AnalysisPage.with_errorDetails None
                     (AnalysisPage_with_response k None m))))
            storage net)).
Proof.
  intros Hkey H1 H2 Hmkey Henc Hnet.
  destruct net as [h b first stack]. unfold rejects_with in Hnet. simpl in Hnet.
  assert (Hcases :
    (exists d, h = NetworkError d e)
    \/ (exists d st, h = Head d st /\ b = BodyError e)
    \/ (exists d st text, h = Head d st /\ b = BodyText text
          /\ platform_JSON_parse P text = None /\ e = platform_SyntaxError P text)).
  { destruct Hnet as [(d & Hh)|(d & st & Hh & [Hb|(text & Hb & Hp & He)])];
      [left | right; left | right; right]; eauto 8. }
  clear Hnet.
  destruct Hcases as [(d & ->)|[(d & st & -> & ->)|(d & st & text & -> & -> & Hp & ->)]].
  all: split;
    [ unfold_submit; rewrite H1, H2, Hkey;
      repeat (progress (cbn; rewrite ?Hp)); first [reflexivity | destruct e; reflexivity]
    | run_submit k Hmkey Henc;
      repeat (progress (cbn; rewrite ?Hp)); first [reflexivity | destruct e; reflexivity] ].
Qed.

Lemma rejected_call_shows_message_witness :
  ui (snd (VerificationPage.handleSubmit (reference_platform ∅) filled_verification_page
             (page_world filled_verification_page ∅
                (upstream_answering 120 502 "<html>Bad Gateway</html>"))))
  = VerificationPage.with_error (Some "Unexpected token") filled_verification_page.
Proof.
  destruct (rejected_call_shows_message (reference_platform ∅)
              filled_verification_page sample_file sample_file
              Verification filled_analysis_page
              [("img1", Some (JString "TWFu")); ("img2", Some (JString "TWFu"))]
              ∅ (upstream_answering 120 502 "<html>Bad Gateway</html>")
              (ErrorObject "SyntaxError" "Unexpected token" None)
              eq_refl eq_refl eq_refl eq_refl eq_refl)
    as (Hsingle & _).
  - right. exists 120%N, 502%N. split; [reflexivity|].
    right. exists "<html>Bad Gateway</html>". repeat split; reflexivity.
  - rewrite Hsingle. reflexivity.
Defined.

(** X19.  On the multi-kind page, when every image of the form is selected
    and the reader fails on one of them at submission, no call is made: the
    reader rejects with its error event, which is not an [Error], so the page
    shows its JSON text; no details and no response are kept and the loading
    flag is cleared. *)
Theorem unreadable_selection_makes_no_call
    P (k : Kind) (m : AnalysisPage.State) storage net :
  truthy_string (AnalysisPage.apiKey m) = true ->
  AnalysisPage_has_images k m = true ->
  encoded_images P (AnalysisPage_images k m) = None ->
  AnalysisPage_submit P k m (page_world m storage net)
  = (Returned tt,
     page_world
       (AnalysisPage.with_isLoading false
          (AnalysisPage.with_error (Some (quoted "{'isTrusted':true}"))
             (AnalysisPage.with_errorDetails None
                (AnalysisPage_with_response k None m))))
       storage net).
Proof.
  intros Hkey Himg Henc.
  destruct k; cbn in Himg, Henc;
    repeat match type of Himg with
           | context [present ?x] => destruct x eqn:?; cbn in Himg
           end;
    try discriminate Himg;
    cbn in Henc;
    repeat match type of Henc with
           | context [match ?x with _ => _ end] =>
               lazymatch x with
               | context [match _ with _ => _ end] => fail
               | _ => destruct x eqn:?
               end; cbn in Henc
           end;
    try discriminate Henc;
    unfold_submit; rewrite Hkey;
    repeat match goal with H : _ = Some _ |- _ => rewrite H end;
    repeat match goal with H : _ = None |- _ => rewrite H end;
    reflexivity.
Qed.

Lemma unreadable_selection_makes_no_call_witness :
  AnalysisPage_submit failing_reader_platform Verification filled_analysis_page
    (page_world filled_analysis_page ∅ silent_upstream)
  = (Returned tt,
     page_world
       (AnalysisPage.with_error (Some (quoted "{'isTrusted':true}")) filled_analysis_page)
       ∅ silent_upstream).
Proof.
  exact (unreadable_selection_makes_no_call failing_reader_platform Verification
           filled_analysis_page ∅ silent_upstream eq_refl eq_refl eq_refl).
Defined.

(** X20.  A submission that passes validation never throws.  When it ends,
    the loading flag is cleared - the submit button reads as before and it
    and the Reset button are enabled - and the error and the response of the
    form are not both set.  It can fail to end only when the far end never
    sends the response head or never sends the body: the calls of the pages
    carry no timer, and the page then stays loading, with both buttons
    disabled. *)
Theorem submission_settles_or_stays_loading
    P (c : VerificationPage.State) (k : Kind) (m : AnalysisPage.State) storage net :
  truthy_string (VerificationPage.apiKey c)
    && present (VerificationPage.image1 c) && present (VerificationPage.image2 c)
    = true ->
  truthy_string (AnalysisPage.apiKey m) && AnalysisPage_has_images k m = true ->
  let run := VerificationPage.handleSubmit P c (page_world c storage net) in
  let mrun := AnalysisPage_submit P k m (page_world m storage net) in
  match fst run with
  | Returned _ =>
      VerificationPageDom.FormActions (ui (snd run))
        = {| submit_label := "Verify Faces"; submit_disabled := false;
             reset_disabled := false |}
      /\ (VerificationPage.error (ui (snd run)) = None
          \/ VerificationPage.response (ui (snd run)) = None)
  | Pending =>
      VerificationPageDom.FormActions (ui (snd run))
        = {| submit_label := "Verifying..."; submit_disabled := true;
             reset_disabled := true |}
      /\ (up_head net = NoHead \/ up_body net = NoBody)
  | Threw _ => False
  end
  /\ match fst mrun with
     | Returned _ =>
         AnalysisPageDom.FormActions (ui (snd mrun))
           = {| submit_label := "Submit"; submit_disabled := false;
                reset_disabled := false |}
         /\ (AnalysisPage.error (ui (snd mrun)) = None
             \/ AnalysisPage_response k (ui (snd mrun)) = None)
     | Pending =>
         AnalysisPageDom.FormActions (ui (snd mrun))
           = {| submit_label := "Processing..."; submit_disabled := true;
                reset_disabled := true |}
         /\ (up_head net = NoHead \/ up_body net = NoBody)
     | Threw _ => False
     end.
Proof.
  intros Hc Hm run mrun. subst run mrun.
  destruct net as [h b first stack]. split.
  - destruct (truthy_string (VerificationPage.apiKey c)) eqn:Hkey,
      (VerificationPage.image1 c) eqn:H1, (VerificationPage.image2 c) eqn:H2;
      try discriminate Hc.
    unfold_submit. rewrite H1, H2, Hkey.
    unfold VerificationPageDom.FormActions. split_paths; settle_path.
  - apply andb_true_iff in Hm as [Hkey Himg].
    unfold AnalysisPageDom.FormActions.
    destruct k; cbn in Himg.
    + destruct (AnalysisPage.image1 m) eqn:H1, (AnalysisPage.image2 m) eqn:H2;
        try discriminate Himg.
      unfold_submit. rewrite Hkey, H1, H2. split_paths; settle_path.
    + destruct (AnalysisPage.emotionImage m) eqn:H1; try discriminate Himg.
      unfold_submit. rewrite Hkey, H1. split_paths; settle_path.
    + destruct (AnalysisPage.ageImage m) eqn:H1; try discriminate Himg.
      unfold_submit. rewrite Hkey, H1. split_paths; settle_path.
    + destruct (AnalysisPage.genderImage m) eqn:H1; try discriminate Himg.
      unfold_submit. rewrite Hkey, H1. split_paths; settle_path.
Qed.

Lemma submission_settles_or_stays_loading_witness :
  fst (VerificationPage.handleSubmit (reference_platform ∅) filled_verification_page
         (page_world filled_verification_page ∅ stalling_upstream)) = Pending
  /\ VerificationPageDom.FormActions
       (ui (snd (VerificationPage.handleSubmit (reference_platform ∅)
                   filled_verification_page
                   (page_world filled_verification_page ∅ stalling_upstream))))
     = {| submit_label := "Verifying..."; submit_disabled := true;
          reset_disabled := true |}.
Proof.
  destruct (submission_settles_or_stays_loading (reference_platform ∅)
              filled_verification_page Verification filled_analysis_page
              ∅ stalling_upstream eq_refl eq_refl)
    as (Hsingle & _).
  split; [reflexivity | apply Hsingle].
Defined.

Lemma js_or_object (a : option json) (members : list (string * json)) :
  truthy (js_or a (JObject members)) = true
  /\ nullable (js_or a (JObject members)) = Some (js_or a (JObject members)).
Proof.
  unfold js_or. destruct a as [v|]; [|split; reflexivity].
  destruct (truthy v) eqn:Hv; [|split; reflexivity].
  split; [exact Hv|]. destruct v; try reflexivity. discriminate Hv.
Qed.

Lemma render_ErrorDisplay_details (message : string) (details : json) (open : bool) :
  truthy details = true ->
  render_ErrorDisplay (Some message) (Some details) open
  = if truthy_string message
    then Some {| alert_text := message;
                 alert_debug :=
                   DebugButton (if open then "Hide Debug Info" else "Show Debug Info")
                     (if open then Some details else None) |}
    else None.
Proof.
  intros Hd. unfold render_ErrorDisplay. rewrite Hd.
  destruct (truthy_string message), open; reflexivity.
Qed.

(** X21.  After a valid submission that the far end answers with a failure
    status and a JSON object, the page shows the alert with the message of
    the failure and, since the details it kept are then truthy, the debug
    button; the details are dumped only while the debug view is open.  When
    the [error] member of the body is the empty string, no alert is shown at
    all - the message is falsy - and the verification-only page shows no
    result either. *)
Theorem error_alert_follows_failure
    P (c : VerificationPage.State) file1 file2
    (k : Kind) (m : AnalysisPage.State) images storage net d st text members :
  truthy_string (VerificationPage.apiKey c) = true ->
  VerificationPage.image1 c = Some file1 ->
  VerificationPage.image2 c = Some file2 ->
  truthy_string (AnalysisPage.apiKey m) = true ->
  encoded_images P (AnalysisPage_images k m) = Some images ->
  up_head net = Head d st ->
  up_body net = BodyText text ->
  is_2xx st = false ->
  platform_JSON_parse P text = Some (JObject members) ->
  let details := js_or (get_member "details" members) (JObject members) in
  let message fallback :=
    match get_member "error" members with
    | Some (JString s) => s
    | _ => fallback
    end in
  let alert text (open : bool) :=
    if truthy_string text
    then Some {| alert_text := text;
                 alert_debug :=
                   DebugButton (if open then "Hide Debug Info" else "Show Debug Info")
                     (if open then Some details else None) |}
    else None in
  let w' := snd (VerificationPage.handleSubmit P c (page_world c storage net)) in
  let wm' := snd (AnalysisPage_submit P k m (page_world m storage net)) in
  VerificationPageDom.ErrorDisplay (ui w')
    = alert (message "Failed to verify faces") (VerificationPage.showDebug c)
  /\ VerificationPage.render_result (ui w') = Some []
  /\ AnalysisPageDom.ErrorDisplay (ui wm')
    = alert (message (AnalysisPage_fallback k)) (AnalysisPage.showDebug m)
  /\ (get_member "error" members = Some (JString EmptyString) ->
      alert (message "Failed to verify faces") (VerificationPage.showDebug c) = None).
Proof.
  intros Hkey H1 H2 Hmkey Henc Hh Hb Hok Hparse details message alert w' wm'.
  assert (Hnull : JObject members <> JNull) by discriminate.
  subst w' wm'.
  rewrite (handleSubmit_failed P c file1 file2 storage net d st text (JObject members)
             Hkey H1 H2 Hh Hb Hok Hparse Hnull).
  rewrite (AnalysisPage_submit_failed P k m images storage net d st text (JObject members)
             Hmkey Henc Hh Hb Hok Hparse Hnull).
  destruct (js_or_object (get_member "details" members) members) as [Ht Hn].
  change (js_get (JObject members) "details") with (get_member "details" members).
  change (js_get (JObject members) "error") with (get_member "error" members).
  rewrite Hn.
  unfold VerificationPageDom.ErrorDisplay, AnalysisPageDom.ErrorDisplay.
  cbn [snd ui set_calls page_world VerificationPage.with_isLoading
         VerificationPage.with_error VerificationPage.with_errorDetails
         VerificationPage.with_response VerificationPage.error
         VerificationPage.errorDetails VerificationPage.showDebug
         VerificationPage.response VerificationPage.render_result].
  subst alert message details. cbv beta.
  repeat split.
  - apply render_ErrorDisplay_details; exact Ht.
  - destruct k; cbn; apply render_ErrorDisplay_details; exact Ht.
  - intros He. rewrite He. reflexivity.
Qed.

Lemma error_alert_follows_failure_witness :
  VerificationPageDom.ErrorDisplay
    (ui (snd (VerificationPage.handleSubmit (reference_platform ∅)
                filled_verification_page
                (page_world filled_verification_page ∅
                   (upstream_answering 120 401
                      (quoted "{'error': 'Invalid API key', 'details': {'code': 7}}"))))))
  = Some {| alert_text := "Invalid API key";
            alert_debug := DebugButton "Show Debug Info" None |}.
Proof.
  destruct (error_alert_follows_failure (reference_platform ∅)
              filled_verification_page sample_file sample_file
              Verification filled_analysis_page
              [("img1", Some (JString "TWFu")); ("img2", Some (JString "TWFu"))]
              ∅
              (upstream_answering 120 401
                 (quoted "{'error': 'Invalid API key', 'details': {'code': 7}}"))
              120 401 (quoted "{'error': 'Invalid API key', 'details': {'code': 7}}")
              [("error", JString "Invalid API key");
               ("details", JObject [("code", JNumber (number_of_Z 7))])]
              eq_refl eq_refl eq_refl eq_refl eq_refl eq_refl eq_refl eq_refl eq_refl)
    as (Hshown & _).
  exact Hshown.
Defined.

(** X22.  The Reset button of the verification-only page empties both
    image slots, both previews, the response, the error and its details, and
    the value of each file input that is mounted; the key row, the loading
    flag, local storage, the timers and the calls are as they were.  A second
    reset changes nothing more.  After a reset no alert and no result is
    shown, and a submission is refused on the page with "All fields are
    required". *)
Theorem resetForm_clears_the_form P
    (w : World (VerificationPage.State * VerificationPageDom.Refs)) :
  let s := fst (ui w) in
  let r := snd (ui w) in
  let w' := snd (VerificationPageDom.resetForm w) in
  let s' := fst (ui w') in
  VerificationPageDom.resetForm w
    = (Returned tt,
       set_ui
         (VerificationPage.with_errorDetails None
            (VerificationPage.with_error None
               (VerificationPage.with_response None
                  (VerificationPage.with_image2Preview None
                     (VerificationPage.with_image1Preview None
                        (VerificationPage.with_image2 None
                           (VerificationPage.with_image1 None s)))))),
          {| VerificationPageDom.fileInput1Ref :=
               clear_value (VerificationPageDom.fileInput1Ref r);
             VerificationPageDom.fileInput2Ref :=
               clear_value (VerificationPageDom.fileInput2Ref r) |})
         w)
  /\ VerificationPageDom.resetForm w' = (Returned tt, w')
  /\ VerificationPageDom.ApiKeyInput s' = VerificationPageDom.ApiKeyInput s
  /\ VerificationPageDom.FormActions s' = VerificationPageDom.FormActions s
  /\ VerificationPageDom.ErrorDisplay s' = None
  /\ VerificationPage.render_result s' = Some []
  /\ VerificationPage.handleSubmit P s' (map_ui fst w')
     = (Returned tt,
        set_ui (VerificationPage.with_error (Some "All fields are required") s')
          (map_ui fst w')).
Proof.
  intros s r w' s'. subst s r w' s'.
  destruct w as [[s r] storage net ts id ab cs fc].
  destruct s as [k sv ed i1 i2 p1 p2 ld rs er dt dbg].
  destruct r as [v1 v2].
  set (run := VerificationPageDom.resetForm _). vm_compute in run. subst run.
  cbn [fst snd ui].
  repeat split.
  destruct v1, v2; reflexivity.
Qed.

(** X23.  The Reset button of a form of the multi-kind page empties the
    images, the previews and the response of that form and the value of each
    of its file inputs that is mounted, and it clears the error and its
    details, which all forms share; the images, previews, responses and file
    inputs of the other forms, the key row, the open tab, the loading flag,
    local storage, the timers and the calls are as they were.  A second reset
    changes nothing more, and a submission of the form after a reset is
    refused on the page with its validation message. *)
Theorem reset_clears_one_form P (k : Kind)
    (w : World (AnalysisPage.State * AnalysisPageDom.Refs)) :
  let s := fst (ui w) in
  let r := snd (ui w) in
  let w' := snd (AnalysisPage_reset k w) in
  let s' := fst (ui w') in
  let r' := snd (ui w') in
  fst (AnalysisPage_reset k w) = Returned tt
  /\ AnalysisPage_response k s' = None
  /\ map snd (AnalysisPage_images k s') = map (fun _ => None) (AnalysisPage_images k s)
  /\ AnalysisPage_previews k s' = map (fun _ => None) (AnalysisPage_previews k s)
  /\ AnalysisPage_inputs k r' = map clear_value (AnalysisPage_inputs k r)
  /\ AnalysisPage.error s' = None
  /\ AnalysisPage.errorDetails s' = None
  /\ (forall k',
        k' <> k ->
        AnalysisPage_response k' s' = AnalysisPage_response k' s
        /\ AnalysisPage_images k' s' = AnalysisPage_images k' s
        /\ AnalysisPage_previews k' s' = AnalysisPage_previews k' s
        /\ AnalysisPage_inputs k' r' = AnalysisPage_inputs k' r)
  /\ AnalysisPageDom.ApiKeyInput s' = AnalysisPageDom.ApiKeyInput s
  /\ AnalysisPageDom.FormActions s' = AnalysisPageDom.FormActions s
  /\ AnalysisPage.activeTab s' = AnalysisPage.activeTab s
  /\ AnalysisPage.showDebug s' = AnalysisPage.showDebug s
  /\ map_ui (fun _ => tt) w' = map_ui (fun _ => tt) w
  /\ AnalysisPage_reset k w' = (Returned tt, w')
  /\ AnalysisPage_submit P k s' (map_ui fst w')
     = (Returned tt,
        set_ui (AnalysisPage.with_error
                  (Some (AnalysisPage_validation_message k s')) s')
          (map_ui fst w')).
Proof.
  intros s r w' s' r'. subst s r w' s' r'.
  destruct w as [[s r] storage net ts id ab cs fc].
  destruct s as [tab key sv ed a1 a2 q1 q2 vr ei ep er ai ap ar gi gp gr ld err dt dbg].
  destruct r as [v1 v2 v3 v4 v5].
  destruct k;
    match goal with
    | |- context [AnalysisPage_reset ?k ?w] =>
        set (run := AnalysisPage_reset k w); vm_compute in run; subst run
    end;
    cbn [fst snd ui].
  all: repeat split.
  all: try match goal with
           | H : ?x <> _ |- _ => destruct x; try congruence
           end.
  all: try reflexivity.
  all: try match goal with
           | |- AnalysisPage_submit _ _ _ _ = _ => destruct key; reflexivity
           end.
  all: repeat match goal with
              | |- context [clear_value ?v] => is_var v; destruct v
              | |- context [match ?v with _ => _ end] => is_var v; destruct v
              end;
       reflexivity.
Qed.

(** X24.  What is sent is what was selected last.  When a file is selected
    in a slot, and then the form is submitted through the handler of the
    render that follows, the call carries that file: the verification-only
    page sends the two files themselves; the forms of the multi-kind page
    send, for a file of at most 5 * 1024 * 1024 bytes that the reader loads
    as [data:<media type>;base64,<payload>] with a media type that has no
    comma, the base64 text of the bytes of the file. *)
Theorem selected_image_is_sent
    P (c : VerificationPage.State) (m : AnalysisPage.State)
    file1 file2 type1 type2 storage net :
  truthy_string (VerificationPage.apiKey c) = true ->
  truthy_string (AnalysisPage.apiKey m) = true ->
  (file_size file1 <= 5 * 1024 * 1024)%N ->
  (file_size file2 <= 5 * 1024 * 1024)%N ->
  platform_readAsDataURL P file1 = Some (data_url type1 (base64 (file_bytes file1))) ->
  platform_readAsDataURL P file2 = Some (data_url type2 (base64 (file_bytes file2))) ->
  occurs comma type1 = false ->
  occurs comma type2 = false ->
  let pick file := mkChangeEvent (Some [file]) in
  let image file := JsonText (JObject [("image", JString (base64 (file_bytes file)))]) in
  let w2 :=
    snd (VerificationPage.handleImage2Change P (pick file2)
           (snd (VerificationPage.handleImage1Change P (pick file1)
                   (page_world c storage net)))) in
  let wm2 :=
    snd (AnalysisPage.handleImage2Change P (pick file2)
           (snd (AnalysisPage.handleImage1Change P (pick file1)
                   (page_world m storage net)))) in
  let we := snd (AnalysisPage.handleEmotionImageChange P (pick file1)
                   (page_world m storage net)) in
  let wa := snd (AnalysisPage.handleAgeImageChange P (pick file1)
                   (page_world m storage net)) in
  let wg := snd (AnalysisPage.handleGenderImageChange P (pick file1)
                   (page_world m storage net)) in
  map out_body (calls (snd (VerificationPage.handleSubmit P (ui w2) w2)))
    = [FormBody [("img1", file1); ("img2", file2)]]
  /\ map out_body (calls (snd (AnalysisPage.handleVerificationSubmit P (ui wm2) wm2)))
    = [JsonText (JObject [("img1", JString (base64 (file_bytes file1)));
                          ("img2", JString (base64 (file_bytes file2)))])]
  /\ map out_body (calls (snd (AnalysisPage.handleEmotionSubmit P (ui we) we)))
    = [image file1]
  /\ map out_body (calls (snd (AnalysisPage.handleAgeSubmit P (ui wa) wa)))
    = [image file1]
  /\ map out_body (calls (snd (AnalysisPage.handleGenderSubmit P (ui wg) wg)))
    = [image file1].
Proof.
  intros Hkey Hmkey S1 S2 R1 R2 C1 C2 pick image w2 wm2 we wa wg.
  assert (F1 : (AnalysisPage.MAX_IMAGE_SIZE <? file_size file1)%N = false)
    by (apply N.ltb_ge; exact S1).
  assert (F2 : (AnalysisPage.MAX_IMAGE_SIZE <? file_size file2)%N = false)
    by (apply N.ltb_ge; exact S2).
  assert (P1 : first_file (pick file1) = Some file1) by reflexivity.
  assert (P2 : first_file (pick file2) = Some file2) by reflexivity.
  assert (E1 : json_of_opt_string
                 (nth_error (split comma (data_url type1 (base64 (file_bytes file1)))) 1)
               = Some (JString (base64 (file_bytes file1))))
    by (rewrite (split_data_url _ _ C1); reflexivity).
  assert (E2 : json_of_opt_string
                 (nth_error (split comma (data_url type2 (base64 (file_bytes file2)))) 1)
               = Some (JString (base64 (file_bytes file2))))
    by (rewrite (split_data_url _ _ C2); reflexivity).
  subst w2 wm2 we wa wg image.
  unfold VerificationPage.handleImage1Change, VerificationPage.handleImage2Change,
    AnalysisPage.handleImage1Change, AnalysisPage.handleImage2Change,
    AnalysisPage.handleEmotionImageChange, AnalysisPage.handleAgeImageChange,
    AnalysisPage.handleGenderImageChange, AnalysisPage.validateImageSize.
  rewrite !P1, !P2, !F1, !F2, !R1, !R2.
  change (AnalysisPage.handleVerificationSubmit P)
    with (AnalysisPage_submit P Verification).
  change (AnalysisPage.handleEmotionSubmit P) with (AnalysisPage_submit P Emotion).
  change (AnalysisPage.handleAgeSubmit P) with (AnalysisPage_submit P Age).
  change (AnalysisPage.handleGenderSubmit P) with (AnalysisPage_submit P Gender).
  repeat split.
  - match goal with
    | |- context [VerificationPage.handleSubmit P (ui ?w) ?w] =>
        let s := eval cbn in (ui w) in
        change w with (page_world s storage net); cbn [ui page_world];
        rewrite (handleSubmit_calls P s file1 file2 storage net Hkey eq_refl eq_refl)
    end.
    reflexivity.
  - match goal with
    | |- context [AnalysisPage_submit P ?k (ui ?w) ?w] =>
        let s := eval cbn in (ui w) in
        change w with (page_world s storage net); cbn [ui page_world];
        rewrite (AnalysisPage_submit_calls P k s
                   [("img1", Some (JString (base64 (file_bytes file1))));
                    ("img2", Some (JString (base64 (file_bytes file2))))]
                   storage net Hmkey)
    end.
    + reflexivity.
    + cbn. rewrite R1, R2, E1, E2. reflexivity.
  - match goal with
    | |- context [AnalysisPage_submit P ?k (ui ?w) ?w] =>
        let s := eval cbn in (ui w) in
        change w with (page_world s storage net); cbn [ui page_world];
        rewrite (AnalysisPage_submit_calls P k s
                   [("image", Some (JString (base64 (file_bytes file1))))]
                   storage net Hmkey)
    end.
    + reflexivity.
    + cbn. rewrite R1, E1. reflexivity.
  - match goal with
    | |- context [AnalysisPage_submit P ?k (ui ?w) ?w] =>
        let s := eval cbn in (ui w) in
        change w with (page_world s storage net); cbn [ui page_world];
        rewrite (AnalysisPage_submit_calls P k s
                   [("image", Some (JString (base64 (file_bytes file1))))]
                   storage net Hmkey)
    end.
    + reflexivity.
    + cbn. rewrite R1, E1. reflexivity.
  - match goal with
    | |- context [AnalysisPage_submit P ?k (ui ?w) ?w] =>
        let s := eval cbn in (ui w) in
        change w with (page_world s storage net); cbn [ui page_world];
        rewrite (AnalysisPage_submit_calls P k s
                   [("image", Some (JString (base64 (file_bytes file1))))]
                   storage net Hmkey)
    end.
    + reflexivity.
    + cbn. rewrite R1, E1. reflexivity.
Qed.

Lemma selected_image_is_sent_witness :
  map out_body
    (calls (snd (AnalysisPage.handleAgeSubmit (reference_platform ∅)
                   (AnalysisPage.with_ageImagePreview (Some sample_url)
                      (AnalysisPage.with_ageImage (Some sample_file)
                         filled_analysis_page))
                   (page_world
                      (AnalysisPage.with_ageImagePreview (Some sample_url)
                         (AnalysisPage.with_ageImage (Some sample_file)
                            filled_analysis_page))
                      ∅ silent_upstream))))
  = [JsonText (JObject [("image", JString "TWFu")])].
Proof.
  assert (Hsize : (file_size sample_file <= 5 * 1024 * 1024)%N)
    by (vm_compute; discriminate).
  destruct (selected_image_is_sent (reference_platform ∅)
              filled_verification_page filled_analysis_page
              sample_file sample_file "image/jpeg" "image/jpeg" ∅ silent_upstream
              eq_refl eq_refl Hsize Hsize eq_refl eq_refl eq_refl eq_refl)
    as (_ & _ & _ & Hage & _).
  exact Hage.
Defined.
